(** * InvestorCalculator: the storage gateway, bulk loader, record operations
    and ratio engine of [investor_calculator.py], embedded in Rocq.

    Python [float] is IEEE 754 binary64 and is modelled by Rocq's primitive
    floats; [None] in a nullable [Float] column is [None] of [option float].
    A table is the list of its rows in the order an unordered query yields
    them; a session is a transaction over a working copy of the store;
    [print] appends a line to the console.  The store is SQLite: a [Float]
    column keeps no NaN and no sign on a zero.  Python's [float], the
    store's [LIKE] and [list.sort] are parameters of the program. *)

From Stdlib Require Import List String Ascii Bool ZArith Lia Arith.
From Stdlib Require Import Floats.
From Stdlib Require Import Sorting.Sorted Sorting.Permutation.
Import ListNotations.

Local Open Scope string_scope.
Local Open Scope list_scope.

(** ** Python values *)

(** The exceptions the program can meet.  [StoreError] stands for whatever
    SQLAlchemy raises when a statement, a flush or a commit fails. *)
Inductive exn : Type :=
| ZeroDivisionError
| TypeError
| ValueError
| KeyError
| StoreError.

Inductive outcome (A : Type) : Type :=
| Ok (a : A)
| Raise (e : exn).

Arguments Ok {A} a.
Arguments Raise {A} e.

(** Truth value of an optional float, as [if x] and [x and y] test it:
    [None] is false, and a float is false exactly when it compares equal to
    zero (so [-0.0] is false and a NaN is true). *)
Definition truthy (x : option float) : bool :=
  match x with
  | None => false
  | Some v => negb (v =? 0)%float
  end.

(** [a / b] on two column values: a [None] operand is a [TypeError], a
    divisor equal to zero is a [ZeroDivisionError], otherwise the IEEE
    quotient. *)
Definition truediv (a b : option float) : outcome float :=
  match a, b with
  | Some x, Some y =>
      if (y =? 0)%float then Raise ZeroDivisionError else Ok (x / y)%float
  | _, _ => Raise TypeError
  end.

(** Truth value of an optional string: [None] and the empty string are
    false. *)
Definition truthy_str (s : option string) : bool :=
  match s with
  | None => false
  | Some EmptyString => false
  | Some _ => true
  end.

(** ** The data model *)

Record Company : Type := mkCompany {
  ticker : string;
  name : option string;
  sector : option string
}.

Record Financial : Type := mkFinancial {
  fticker : string;
  ebitda : option float;
  sales : option float;
  net_profit : option float;
  market_price : option float;
  net_debt : option float;
  assets : option float;
  equity : option float;
  cash_equivalents : option float;
  liabilities : option float
}.

(** What a [Float] column holds once a value has been written to it.  SQLite
    keeps neither a NaN, which is bound as NULL, nor the sign of a zero;
    every other float, the infinities included, is kept as it is. *)
Definition float_column (v : option float) : option float :=
  match v with
  | Some x =>
      if PrimFloat.is_nan x then None
      else if (x =? 0)%float then Some 0%float
      else Some x
  | None => None
  end.

(** The row the store keeps for a [Financial] object. *)
Definition stored (f : Financial) : Financial :=
  mkFinancial (fticker f)
    (float_column (ebitda f)) (float_column (sales f))
    (float_column (net_profit f)) (float_column (market_price f))
    (float_column (net_debt f)) (float_column (assets f))
    (float_column (equity f)) (float_column (cash_equivalents f))
    (float_column (liabilities f)).

(** The persistent store: the two tables, each in row order. *)
Record Store : Type := mkStore {
  companies : list Company;
  financial : list Financial
}.

Definition empty_store : Store := mkStore [] [].

(** ** The console *)

(** One constructor per [print] call of the program; a number is kept as a
    number, its two-decimal rendering is presentation. *)
Inductive line : Type :=
| ErrorClearing (e : exn)
| Traceback (e : exn)
| CsvFilesNotFound
| DataInserted
| ErrorInserting (e : exn)
| CompanyCreated
| AnErrorOccurred (e : exn)
| CompanyNotFound
| SearchHit (idx : nat) (nm : option string)
| InvalidSelection
| InvalidInput
| NoFinancialData
| DivisionByZero
| CompanyHeader (t : string) (nm : option string)
| RatioLine (label : string) (v : option float)
| CompanyUpdated
| CompanyDeleted
| NoCompaniesFound
| InvalidMetric
| TopTenHeader (header : string)
| TopTenRow (t : string) (v : float)
| ErrorCalculating (metric : string) (e : exn).

(** ** Sessions *)

(** What an operation runs in.  [persisted] is the committed store and
    [pending] the working copy of the open session.  [poisoned] records that
    the session holds an object whose primary key is [None], which every
    later flush rejects.  [fuse] is the number of store calls that still
    succeed before the store raises ([None]: it never does). *)
Record world : Type := mkWorld {
  persisted : Store;
  pending : Store;
  poisoned : bool;
  fuse : option nat;
  stdout : list line
}.

Definition M (A : Type) : Type := world -> outcome A * world.

Definition ret {A} (a : A) : M A := fun w => (Ok a, w).

Definition bind {A B} (m : M A) (k : A -> M B) : M B :=
  fun w =>
    match m w with
    | (Ok a, w') => k a w'
    | (Raise e, w') => (Raise e, w')
    end.

Definition raise {A} (e : exn) : M A := fun w => (Raise e, w).

(** [try: body / except Exception as e: handler e]. *)
Definition try_except {A} (body : M A) (handler : exn -> M A) : M A :=
  fun w =>
    match body w with
    | (Ok a, w') => (Ok a, w')
    | (Raise e, w') => handler e w'
    end.

Definition lift {A} (r : outcome A) : M A := fun w => (r, w).

Declare Scope py_scope.
Delimit Scope py_scope with py.
Notation "x <- c1 ;; c2" := (bind c1 (fun x => c2))
  (at level 61, c1 at next level, right associativity) : py_scope.
Notation "c1 ;; c2" := (bind c1 (fun _ => c2))
  (at level 61, right associativity) : py_scope.
Local Open Scope py_scope.

Definition print (l : line) : M unit :=
  fun w => (Ok tt, mkWorld (persisted w) (pending w) (poisoned w) (fuse w)
                           (stdout w ++ [l])).

(** Every statement sent to the store passes here: it flushes the session
    first, which fails on a poisoned session, and it burns the fuse. *)
Definition db_call : M unit :=
  fun w =>
    if poisoned w then (Raise StoreError, w)
    else
      match fuse w with
      | None => (Ok tt, w)
      | Some (S n) =>
          (Ok tt, mkWorld (persisted w) (pending w) (poisoned w) (Some n)
                          (stdout w))
      | Some O =>
          (Raise StoreError,
           mkWorld (persisted w) (pending w) (poisoned w) None (stdout w))
      end.

Definition get_pending : M Store := fun w => (Ok (pending w), w).

Definition set_pending (s : Store) : M unit :=
  fun w => (Ok tt, mkWorld (persisted w) s (poisoned w) (fuse w) (stdout w)).

Definition poison : M unit :=
  fun w => (Ok tt, mkWorld (persisted w) (pending w) true (fuse w) (stdout w)).

(** [session.commit()]. *)
Definition session_commit : M unit :=
  db_call ;;
  fun w => (Ok tt, mkWorld (pending w) (pending w) false (fuse w) (stdout w)).

(** [session.rollback()]. *)
Definition session_rollback : M unit :=
  fun w => (Ok tt, mkWorld (persisted w) (persisted w) false (fuse w) (stdout w)).

(** [with self.Session() as session: body]: a fresh working copy on entry,
    and whatever was not committed is dropped on exit, also when [body]
    raises. *)
Definition with_session {A} (body : M A) : M A :=
  fun w =>
    let (r, w') :=
      body (mkWorld (persisted w) (persisted w) false (fuse w) (stdout w)) in
    (r, mkWorld (persisted w') (persisted w') false (fuse w') (stdout w')).

(** An operation run from a committed store: its outcome, the store it
    leaves and what it printed. *)
Definition run {A} (op : M A) (s : Store) (fault : option nat)
  : outcome A * Store * list line :=
  let (r, w) := op (mkWorld s s false fault []) in
  (r, persisted w, stdout w).

(** [for x in xs: body x]. *)
Fixpoint for_each {A} (xs : list A) (body : A -> M unit) : M unit :=
  match xs with
  | [] => ret tt
  | x :: rest => body x ;; for_each rest body
  end.

(** ** Tables *)

Section Table.
Context {R : Type} (key : R -> string).

(** The row a merge leaves: the row with the same key is overwritten where
    it stands, a new key is appended. *)
Fixpoint upsert (r : R) (tbl : list R) : list R :=
  match tbl with
  | [] => [r]
  | x :: rest =>
      if (key x =? key r)%string then r :: rest else x :: upsert r rest
  end.

Definition find_row (t : string) (tbl : list R) : option R :=
  find (fun x => (key x =? t)%string) tbl.

Definition delete_row (t : string) (tbl : list R) : list R :=
  filter (fun x => negb (key x =? t)%string) tbl.

Definition rows_of (t : string) (tbl : list R) : list R :=
  filter (fun x => (key x =? t)%string) tbl.

(** A run of merges, first to last. *)
Definition merge_all (objs : list R) (tbl : list R) : list R :=
  fold_left (fun acc r => upsert r acc) objs tbl.

(** The last object of a run that carries a given key. *)
Definition last_of (t : string) (objs : list R) : option R :=
  find (fun r => (key r =? t)%string) (rev objs).
End Table.

(** [session.merge(company)]; [None] is an object whose ticker is [None]. *)
Definition merge_company (obj : option Company) : M unit :=
  db_call ;;
  match obj with
  | None => poison
  | Some c =>
      s <- get_pending ;;
      set_pending (mkStore (upsert ticker c (companies s)) (financial s))
  end.

(** [session.merge(financial)]; the row is the one the flush writes. *)
Definition merge_financial (obj : option Financial) : M unit :=
  db_call ;;
  match obj with
  | None => poison
  | Some f =>
      s <- get_pending ;;
      set_pending
        (mkStore (companies s) (upsert fticker (stored f) (financial s)))
  end.

(** Plain queries. *)
Definition count_companies : M nat :=
  db_call ;; s <- get_pending ;; ret (List.length (companies s)).

Definition query_financial_first (t : string) : M (option Financial) :=
  db_call ;; s <- get_pending ;; ret (find_row fticker t (financial s)).

Definition query_financial_all : M (list Financial) :=
  db_call ;; s <- get_pending ;; ret (financial s).

(** [session.query(Financial).delete()] and [session.query(Company).delete()]. *)
Definition delete_all_financial : M unit :=
  db_call ;; s <- get_pending ;; set_pending (mkStore (companies s) []).

Definition delete_all_companies : M unit :=
  db_call ;; s <- get_pending ;; set_pending (mkStore [] (financial s)).

(** [session.delete(company)]: the relationship is declared with
    [cascade='all, delete-orphan'], so the company's Financial row is loaded
    and deleted with it. *)
Definition session_delete (c : Company) : M unit :=
  db_call ;;
  s <- get_pending ;;
  set_pending (mkStore (delete_row ticker (ticker c) (companies s))
                       (delete_row fticker (ticker c) (financial s))).

(** ** Storage gateway *)

Definition clear_database : M unit :=
  with_session
    (try_except
       (delete_all_financial ;;
        delete_all_companies ;;
        session_commit)
       (fun e =>
          session_rollback ;;
          print (ErrorClearing e) ;;
          print (Traceback e))).

(** ** Pure evaluation with exceptions *)

Definition obind {A B} (r : outcome A) (k : A -> outcome B) : outcome B :=
  match r with
  | Ok a => k a
  | Raise e => Raise e
  end.

Notation "x <~ c1 ;; c2" := (obind c1 (fun x => c2))
  (at level 61, c1 at next level, right associativity) : py_scope.

(** ** Bulk loader *)

(** A row of [csv.DictReader]: the cells by column name; a cell the line
    does not reach holds [None].  The first binding of a name is the one
    that counts. *)
Definition csv_row : Type := list (string * option string).

(** [row.get(k)]. *)
Definition row_get (row : csv_row) (k : string) : option string :=
  match find (fun kv => (fst kv =? k)%string) row with
  | Some (_, v) => v
  | None => None
  end.

(** [row[k]]. *)
Definition row_item (row : csv_row) (k : string) : outcome (option string) :=
  match find (fun kv => (fst kv =? k)%string) row with
  | Some (_, v) => Ok v
  | None => Raise KeyError
  end.

(** [Company(ticker=..., ...)] and [Financial(ticker=..., ...)]: an object
    whose ticker is [None] has no row to stand for. *)
Definition new_Company (t : option string) (nm sec : option string)
  : option Company :=
  option_map (fun t => mkCompany t nm sec) t.

Definition new_Financial (t : option string)
    (e s np mp nd a eq ce l : option float) : option Financial :=
  option_map (fun t => mkFinancial t e s np mp nd a eq ce l) t.

(** A function on the (ticker, value) pairs of a ranking. *)
Definition sort_function : Type :=
  list (string * float) -> list (string * float).

Section Program.

(** Python's [float(str)]: [None] when it raises [ValueError]. *)
Variable py_float : string -> option float.

(** The store's case-insensitive [LIKE]: pattern first, then the text. *)
Variable ilike : string -> string -> bool.

(** [float(row.get(k, 0)) if row.get(k) else None]. *)
Definition float_field (row : csv_row) (k : string) : outcome (option float) :=
  if truthy_str (row_get row k) then
    match row_get row k with
    | Some s =>
        match py_float s with
        | Some x => Ok (Some x)
        | None => Raise ValueError
        end
    | None => Raise TypeError
    end
  else Ok None.

(** The [Financial(...)] object of one row of [financial.csv]; the keyword
    arguments are evaluated in the order they are written. *)
Definition financial_of_row (row : csv_row) : outcome (option Financial) :=
  t <~ row_item row "ticker" ;;
  e <~ float_field row "ebitda" ;;
  s <~ float_field row "sales" ;;
  np <~ float_field row "net_profit" ;;
  mp <~ float_field row "market_price" ;;
  nd <~ float_field row "net_debt" ;;
  a <~ float_field row "assets" ;;
  eq <~ float_field row "equity" ;;
  ce <~ float_field row "cash_equivalents" ;;
  l <~ float_field row "liabilities" ;;
  Ok (new_Financial t e s np mp nd a eq ce l).

Definition company_of_row (row : csv_row) : option Company :=
  new_Company (row_get row "ticker") (row_get row "name")
              (row_get row "sector").

(** The two loops of [insert_data]. *)
Definition load_companies (rows : list csv_row) : M unit :=
  for_each rows (fun row => merge_company (company_of_row row)).

Definition load_financial (rows : list csv_row) : M unit :=
  for_each rows
    (fun row =>
       f <- lift (financial_of_row row) ;;
       merge_financial f).

(** The [try] block of [insert_data] with its handler; each file is
    [None] when [os.path.exists] says it is not there, and else its rows. *)
Definition insert_rows (companies_csv financial_csv : option (list csv_row))
  : M unit :=
  try_except
    (match companies_csv, financial_csv with
     | Some crows, Some frows =>
         load_companies crows ;;
         load_financial frows ;;
         session_commit ;;
         print DataInserted
     | _, _ => print CsvFilesNotFound
     end)
    (fun e =>
       session_rollback ;;
       print (ErrorInserting e) ;;
       print (Traceback e)).

Definition insert_data (force_reload : bool)
    (companies_csv financial_csv : option (list csv_row)) : M unit :=
  with_session
    (go <- (if force_reload then ret true
            else n <- count_companies ;; ret (n =? 0)%nat) ;;
     if (go : bool) then insert_rows companies_csv financial_csv
     else ret tt).

(** ** Record operations *)

(** [create_company], from the answers to its prompts;
    [get_float_input] only ever returns a float. *)
Definition create_company (tk nm sec : string)
    (e s np mp nd a eq ce l : float) : M unit :=
  with_session
    (try_except
       (let company := new_Company (Some tk) (Some nm) (Some sec) in
        let fin :=
          new_Financial (Some tk) (Some e) (Some s) (Some np) (Some mp)
                        (Some nd) (Some a) (Some eq) (Some ce) (Some l) in
        merge_company company ;;
        merge_financial fin ;;
        session_commit ;;
        print CompanyCreated)
       (fun e =>
          session_rollback ;;
          print (AnErrorOccurred e) ;;
          print (Traceback e))).

(** The companies whose name matches [%company_name%]; a row without a
    name matches nothing. *)
Definition name_matches (company_name : string) (c : Company) : bool :=
  match name c with
  | Some n => ilike ("%" ++ company_name ++ "%") n
  | None => false
  end.

(** [for idx, company in enumerate(companies): print(...)]. *)
Fixpoint print_hits (idx : nat) (cs : list Company) : M unit :=
  match cs with
  | [] => ret tt
  | c :: rest => print (SearchHit idx (name c)) ;; print_hits (S idx) rest
  end.

(** [company_search], from the name typed and from the number typed after
    the list is shown ([None] when [int] raises [ValueError] on it). *)
Definition company_search (company_name : string) (company_idx : option Z)
  : M (option Company) :=
  db_call ;;
  s <- get_pending ;;
  let found := filter (name_matches company_name) (companies s) in
  match found with
  | [] => print CompanyNotFound ;; ret None
  | _ :: _ =>
      print_hits 0 found ;;
      match company_idx with
      | None => print InvalidInput ;; ret None
      | Some i =>
          if ((i <? 0) || (Z.of_nat (List.length found) <=? i))%Z
          then print InvalidSelection ;; ret None
          else ret (nth_error found (Z.to_nat i))
      end
  end.

(** The seven assignments inside the inner [try] of [read_company]. *)
Definition ratio (num den : option float) : outcome (option float) :=
  if truthy den then (v <~ truediv num den ;; Ok (Some v)) else Ok None.

Record ratios : Type := mkRatios {
  pe_ratio : option float;
  ps_ratio : option float;
  pb_ratio : option float;
  nd_ebitda_ratio : option float;
  roe_ratio : option float;
  roa_ratio : option float;
  la_ratio : option float
}.

Definition calculate_ratios (f : Financial) : outcome ratios :=
  pe <~ ratio (market_price f) (net_profit f) ;;
  ps <~ ratio (market_price f) (sales f) ;;
  pb <~ ratio (market_price f) (assets f) ;;
  nd <~ ratio (net_debt f) (ebitda f) ;;
  roe <~ ratio (net_profit f) (equity f) ;;
  roa <~ ratio (net_profit f) (assets f) ;;
  la <~ ratio (liabilities f) (assets f) ;;
  Ok (mkRatios pe ps pb nd roe roa la).

Definition print_ratios (c : Company) (r : ratios) : M unit :=
  print (CompanyHeader (ticker c) (name c)) ;;
  print (RatioLine "P/E" (pe_ratio r)) ;;
  print (RatioLine "P/S" (ps_ratio r)) ;;
  print (RatioLine "P/B" (pb_ratio r)) ;;
  print (RatioLine "ND/EBITDA" (nd_ebitda_ratio r)) ;;
  print (RatioLine "ROE" (roe_ratio r)) ;;
  print (RatioLine "ROA" (roa_ratio r)) ;;
  print (RatioLine "L/A" (la_ratio r)).

Definition read_company (company_name : string) (company_idx : option Z)
  : M unit :=
  with_session
    (try_except
       (selected <- company_search company_name company_idx ;;
        match selected with
        | None => ret tt
        | Some c =>
            fin <- query_financial_first (ticker c) ;;
            match fin with
            | None => print NoFinancialData
            | Some f =>
                r <- try_except
                       (r <- lift (calculate_ratios f) ;; ret (Some r))
                       (fun e =>
                          match e with
                          | ZeroDivisionError =>
                              print DivisionByZero ;; ret None
                          | _ => raise e
                          end) ;;
                match r with
                | None => ret tt
                | Some r => print_ratios c r
                end
            end
        end)
       (fun e => print (AnErrorOccurred e))).

Definition update_company (company_name : string) (company_idx : option Z)
    (e s np mp nd a eq ce l : float) : M unit :=
  with_session
    (try_except
       (selected <- company_search company_name company_idx ;;
        match selected with
        | None => ret tt
        | Some c =>
            fin <- query_financial_first (ticker c) ;;
            match fin with
            | None => print NoFinancialData
            | Some f =>
                st <- get_pending ;;
                set_pending
                  (mkStore (companies st)
                     (upsert fticker
                        (stored
                           (mkFinancial (fticker f) (Some e) (Some s)
                              (Some np) (Some mp) (Some nd) (Some a)
                              (Some eq) (Some ce) (Some l)))
                        (financial st))) ;;
                session_commit ;;
                print CompanyUpdated
            end
        end)
       (fun e =>
          session_rollback ;;
          print (AnErrorOccurred e) ;;
          print (Traceback e))).

Definition delete_company (company_name : string) (company_idx : option Z)
  : M unit :=
  with_session
    (try_except
       (selected <- company_search company_name company_idx ;;
        match selected with
        | None => ret tt
        | Some c =>
            session_delete c ;;
            session_commit ;;
            print CompanyDeleted
        end)
       (fun e =>
          session_rollback ;;
          print (AnErrorOccurred e) ;;
          print (Traceback e))).

(** ** Ranking *)

(** [[(row.ticker, num / den) for row in rows if num and den]]. *)
Fixpoint comprehension (num den : Financial -> option float)
    (rows : list Financial) : outcome (list (string * float)) :=
  match rows with
  | [] => Ok []
  | row :: rest =>
      if truthy (num row) && truthy (den row) then
        v <~ truediv (num row) (den row) ;;
        tl <~ comprehension num den rest ;;
        Ok ((fticker row, v) :: tl)
      else comprehension num den rest
  end.

(** The stable sort with larger values first, by insertions that compare
    the values with [<]: what [list.sort] with [reverse=True] returns when
    no value is a NaN, and the sort the examples run. *)
Fixpoint insert_desc (x : string * float) (l : list (string * float))
  : list (string * float) :=
  match l with
  | [] => [x]
  | y :: rest =>
      if (snd x <? snd y)%float then y :: insert_desc x rest
      else x :: y :: rest
  end.

Definition sort_desc (l : list (string * float)) : list (string * float) :=
  fold_right insert_desc [] l.

(** The branch of [calculate_top_ten] a metric takes: its header and the
    two columns it divides. *)
Definition metric_columns (metric : string)
  : option (string * (Financial -> option float) * (Financial -> option float)) :=
  if (metric =? "ND/EBITDA")%string then Some ("ND/EBITDA", net_debt, ebitda)
  else if (metric =? "ROE")%string then Some ("ROE", net_profit, equity)
  else if (metric =? "ROA")%string then Some ("ROA", net_profit, assets)
  else None.

(** [results.sort(key=lambda x: x[1], reverse=True)].  Python sorts in
    place with a stable merge sort that only ever asks [<]; what comes out
    when a value is a NaN depends on the runs it finds, so the sort is a
    parameter and what Python promises of it is [python_sort] below. *)
Variable list_sort : sort_function.

Definition calculate_top_ten (metric : string) : M unit :=
  with_session
    (try_except
       (match metric_columns metric with
        | Some (header, num, den) =>
            rows <- query_financial_all ;;
            results <- lift (comprehension num den rows) ;;
            let results := list_sort results in
            print (TopTenHeader header) ;;
            for_each (firstn 10 results)
              (fun tv => print (TopTenRow (fst tv) (snd tv)))
        | None => print InvalidMetric
        end)
       (fun e =>
          print (ErrorCalculating metric e) ;;
          print (Traceback e))).

End Program.

(** ** What a run leaves *)

Definition result_of {A} (x : outcome A * Store * list line) : outcome A :=
  fst (fst x).

Definition store_of {A} (x : outcome A * Store * list line) : Store :=
  snd (fst x).

Definition console_of {A} (x : outcome A * Store * list line) : list line :=
  snd x.

(** The store raises at one of the first [n] calls. *)
Definition fails_within (fault : option nat) (n : nat) : bool :=
  match fault with
  | Some k => (k <? n)%nat
  | None => false
  end.

(** The primary keys of a store are unique. *)
Definition unique_keys (s : Store) : Prop :=
  NoDup (map ticker (companies s)) /\ NoDup (map fticker (financial s)).

(** The nine numeric columns of [Financial], each with the CSV column
    [insert_data] reads it from. *)
Definition numeric_fields : list (string * (Financial -> option float)) :=
  [("ebitda", ebitda); ("sales", sales); ("net_profit", net_profit);
   ("market_price", market_price); ("net_debt", net_debt);
   ("assets", assets); ("equity", equity);
   ("cash_equivalents", cash_equivalents); ("liabilities", liabilities)].

(** The rows of a file that carry a given ticker, and the last of them. *)
Definition row_ticker_is (t : string) (row : csv_row) : bool :=
  match row_get row "ticker" with
  | Some t' => (t' =? t)%string
  | None => false
  end.

Definition last_row (t : string) (rows : list csv_row) : option csv_row :=
  find (row_ticker_is t) (rev rows).

(** A ticker appears in a file: some row of it carries that ticker. *)
Definition appears_in (t : string) (file : option (list csv_row)) : bool :=
  match file with
  | Some rows => existsb (row_ticker_is t) rows
  | None => false
  end.

(** The lines [company_search] can print. *)
Definition search_line (l : line) : bool :=
  match l with
  | CompanyNotFound | SearchHit _ _ | InvalidSelection | InvalidInput => true
  | _ => false
  end.

(** The lines that show a company's ratios. *)
Definition ratio_line (l : line) : bool :=
  match l with
  | CompanyHeader _ _ | RatioLine _ _ => true
  | _ => false
  end.

(** The company [company_search] hands back once its query has run: the
    match at the typed index, when there is one. *)
Definition chosen (found : list Company) (company_idx : option Z)
  : option Company :=
  match company_idx with
  | Some i =>
      if ((i <? 0) || (Z.of_nat (List.length found) <=? i))%Z then None
      else nth_error found (Z.to_nat i)
  | None => None
  end.

(** The seven ratios of [read_company], in the order it computes them: the
    label it prints, the numerator column and the denominator column. *)
Definition ratio_columns
  : list (string * (Financial -> option float) * (Financial -> option float)) :=
  [("P/E", market_price, net_profit);
   ("P/S", market_price, sales);
   ("P/B", market_price, assets);
   ("ND/EBITDA", net_debt, ebitda);
   ("ROE", net_profit, equity);
   ("ROA", net_profit, assets);
   ("L/A", liabilities, assets)].

(** What [print_ratios] prints. *)
Definition ratio_lines (c : Company) (r : ratios) : list line :=
  [CompanyHeader (ticker c) (name c);
   RatioLine "P/E" (pe_ratio r);
   RatioLine "P/S" (ps_ratio r);
   RatioLine "P/B" (pb_ratio r);
   RatioLine "ND/EBITDA" (nd_ebitda_ratio r);
   RatioLine "ROE" (roe_ratio r);
   RatioLine "ROA" (roa_ratio r);
   RatioLine "L/A" (la_ratio r)].

(** ** Instances and sample data *)

(** A [LIKE] that folds ASCII case, with [%] for any run of characters and
    [_] for any one character. *)
Definition lower (c : ascii) : ascii :=
  let n := nat_of_ascii c in
  if ((65 <=? n) && (n <=? 90))%nat then ascii_of_nat (n + 32) else c.

Fixpoint like (p s : string) {struct p} : bool :=
  match p with
  | EmptyString => match s with EmptyString => true | _ => false end
  | String c p' =>
      if Ascii.eqb c "%"%char then
        (fix any (s : string) : bool :=
           like p' s ||
           match s with
           | EmptyString => false
           | String _ s' => any s'
           end) s
      else if Ascii.eqb c "_"%char then
        match s with
        | String _ s' => like p' s'
        | EmptyString => false
        end
      else
        match s with
        | String d s' => Ascii.eqb (lower c) (lower d) && like p' s'
        | EmptyString => false
        end
  end.

(** [float] on the strings made of decimal digits only; any other string is
    rejected. *)
Definition digit (c : ascii) : option float :=
  match c with
  | "0"%char => Some 0%float | "1"%char => Some 1%float
  | "2"%char => Some 2%float | "3"%char => Some 3%float
  | "4"%char => Some 4%float | "5"%char => Some 5%float
  | "6"%char => Some 6%float | "7"%char => Some 7%float
  | "8"%char => Some 8%float | "9"%char => Some 9%float
  | _ => None
  end.

Fixpoint digits (acc : float) (s : string) : option float :=
  match s with
  | EmptyString => Some acc
  | String c s' =>
      match digit c with
      | Some d => digits (acc * 10 + d)%float s'
      | None => None
      end
  end.

Definition float_of_digits (s : string) : option float :=
  match s with
  | EmptyString => None
  | _ => digits 0%float s
  end.

(** Sample rows: [aapl] is the row of the repository's insertion test;
    [goog] has, like the row of its clearing test, only the first three
    numbers. *)
Definition aapl_company : Company :=
  mkCompany "AAPL" (Some "Apple Inc.") (Some "Technology").

Definition aapl : Financial :=
  mkFinancial "AAPL" (Some 1000000%float) (Some 2000000%float)
    (Some 500000%float) (Some 150%float) (Some 100000%float)
    (Some 3000000%float) (Some 1500000%float) (Some 500000%float)
    (Some 2000000%float).

Definition goog_company : Company :=
  mkCompany "GOOG" (Some "Google LLC") (Some "Technology").

Definition goog : Financial :=
  mkFinancial "GOOG" (Some 123.5%float) (Some 678.75%float) (Some 50.5%float)
    None None None None None None.

Definition demo_store : Store :=
  mkStore [aapl_company; goog_company] [aapl; goog].

(** ** Vocabulary of the ranking *)

(** The filter of the three list comprehensions: [if num and den]. *)
Definition eligible (num den : Financial -> option float) (row : Financial)
  : bool :=
  truthy (num row) && truthy (den row).

(** Larger values first: every entry is at least every later one. *)
Definition descending (l : list (string * float)) : Prop :=
  StronglySorted (fun a b => (snd b <=? snd a)%float = true) l.

(** The entries whose value compares equal to [v]. *)
Definition tied_with (v : float) (tv : string * float) : bool :=
  (snd tv =? v)%float.

(** No value is a NaN: [<] orders the values. *)
Definition no_nan (l : list (string * float)) : Prop :=
  Forall (fun tv => PrimFloat.is_nan (snd tv) = false) l.

(** What Python promises of [list.sort] with [reverse=True]: the result is
    a rearrangement of the list, and where no value is a NaN larger values
    come first and entries with equal values keep their order. *)
Definition python_sort (list_sort : sort_function) : Prop :=
  forall l,
    Permutation (list_sort l) l /\
    (no_nan l ->
     descending (list_sort l) /\
     forall v, filter (tied_with v) (list_sort l) = filter (tied_with v) l).

Definition top_ten_row (tv : string * float) : line :=
  TopTenRow (fst tv) (snd tv).

(** A store in which one company has a zero net debt and a zero net profit
    next to known, non-zero EBITDA, equity and assets. *)
Definition flat : Financial :=
  mkFinancial "FLAT" (Some 200%float) None (Some 0%float) (Some 10%float)
    (Some 0%float) (Some 400%float) (Some 100%float) None (Some 100%float).

Definition gain : Financial :=
  mkFinancial "GAIN" (Some 200%float) None (Some 50%float) None
    (Some 100%float) (Some 400%float) (Some 100%float) None None.

Definition flat_store : Store :=
  mkStore [mkCompany "FLAT" (Some "Flat Ltd") None;
           mkCompany "GAIN" (Some "Gain Ltd") None]
          [flat; gain].

(** Sample files: a line for one more company, a line of figures with an
    empty cell and cells that are not there, and a line with a malformed
    number. *)
Definition msft_company_row : csv_row :=
  [("ticker", Some "MSFT"); ("name", Some "Microsoft");
   ("sector", Some "Technology")].

Definition msft_financial_row : csv_row :=
  [("ticker", Some "MSFT"); ("ebitda", Some "12"); ("sales", Some "");
   ("net_profit", None)].

Definition bad_financial_row : csv_row :=
  [("ticker", Some "MSFT"); ("ebitda", Some "12a")].

(** Lines for a ticker the sample store already holds. *)
Definition aapl_company_row : csv_row :=
  [("ticker", Some "AAPL"); ("name", Some "Apple"); ("sector", Some "Tech")].

Definition aapl_financial_row : csv_row :=
  [("ticker", Some "AAPL"); ("ebitda", Some "7")].

(** Four companies for the ranking by ND/EBITDA, one of them with an
    infinite net debt over an infinite EBITDA. *)
Definition nan_store : Store :=
  mkStore
    [mkCompany "A" (Some "Alpha") None; mkCompany "B" (Some "Beta") None;
     mkCompany "C" (Some "Gamma") None; mkCompany "D" (Some "Delta") None]
    [mkFinancial "A" (Some 1%float) None None None (Some 1%float) None None
                 None None;
     mkFinancial "B" (Some infinity) None None None (Some infinity) None
                 None None None;
     mkFinancial "C" (Some 1%float) None None None (Some 1%float) None None
                 None None;
     mkFinancial "D" (Some 1%float) None None None (Some 2%float) None None
                 None None].

(** Five companies for the ranking: two share the ROE 0.25, one has no
    equity on record. *)
Definition rank_store : Store :=
  mkStore
    [mkCompany "A" (Some "Alpha") None; mkCompany "B" (Some "Beta") None;
     mkCompany "C" (Some "Gamma") None; mkCompany "D" (Some "Delta") None;
     mkCompany "E" (Some "Epsilon") None]
    [mkFinancial "A" None None (Some 25%float) None None None
                 (Some 100%float) None None;
     mkFinancial "B" None None (Some 50%float) None None None
                 (Some 100%float) None None;
     mkFinancial "C" None None (Some 50%float) None None None None None None;
     mkFinancial "D" None None (Some 1%float) None None None
                 (Some 4%float) None None;
     mkFinancial "E" None None (Some 3%float) None None None
                 (Some 4%float) None None].

(** ** The operations as commands *)

(** What the menus can ask for, with the answers to the prompts. *)
Inductive command : Type :=
| Clear
| Load (force_reload : bool)
       (companies_csv financial_csv : option (list csv_row))
| Create (tk nm sec : string) (e s np mp nd a eq ce l : float)
| Read (company_name : string) (company_idx : option Z)
| Update (company_name : string) (company_idx : option Z)
         (e s np mp nd a eq ce l : float)
| Delete (company_name : string) (company_idx : option Z)
| TopTen (metric : string).

Definition perform (py_float : string -> option float)
    (ilike : string -> string -> bool) (list_sort : sort_function)
    (cmd : command) : M unit :=
  match cmd with
  | Clear => clear_database
  | Load force_reload companies_csv financial_csv =>
      insert_data py_float force_reload companies_csv financial_csv
  | Create tk nm sec e s np mp nd a eq ce l =>
      create_company tk nm sec e s np mp nd a eq ce l
  | Read company_name company_idx =>
      read_company ilike company_name company_idx
  | Update company_name company_idx e s np mp nd a eq ce l =>
      update_company ilike company_name company_idx e s np mp nd a eq ce l
  | Delete company_name company_idx =>
      delete_company ilike company_name company_idx
  | TopTen metric => calculate_top_ten list_sort metric
  end.

(** ** The terminal *)

(** What the functions that talk to the user put on the screen: the console
    lines above, the prompt of an [input] call, the complaint of
    [get_float_input], the two kinds of line of the company list, and the
    lines of a menu. *)
Inductive tty : Type :=
| Console (l : line)
| Prompt (text : string)
| InvalidNumber
| CompanyListTitle
| CompanyListRow (t : string) (nm sec : option string)
| MenuTitle (title : string)
| MenuOption (key text : string)
| InvalidOption.

(** How a function that reads from the terminal ends: with a value, with the
    [EOFError] of [input] on an exhausted input, or with another exception
    nobody caught. *)
Inductive reply (A : Type) : Type :=
| Answered (a : A)
| EndOfInput
| Crashed (e : exn).

Arguments Answered {A} a.
Arguments EndOfInput {A}.
Arguments Crashed {A} e.

(** The lines still to be typed and the lines shown so far. *)
Record terminal : Type := mkTerminal {
  stdin : list string;
  screen : list tty
}.

Definition T (A : Type) : Type := terminal -> reply A * terminal.

Definition tret {A} (a : A) : T A := fun t => (Answered a, t).

Definition tbind {A B} (m : T A) (k : A -> T B) : T B :=
  fun t =>
    match m t with
    | (Answered a, t') => k a t'
    | (EndOfInput, t') => (EndOfInput, t')
    | (Crashed e, t') => (Crashed e, t')
    end.

Notation "'ask' x ':=' c 'in' k" := (tbind c (fun x => k))
  (at level 10, x name, c at level 100, k at level 200) : py_scope.

(** [input(prompt)]. *)
Definition input (prompt : string) : T string :=
  fun t =>
    match stdin t with
    | [] => (EndOfInput, mkTerminal [] (screen t ++ [Prompt prompt]))
    | typed :: rest =>
        (Answered typed, mkTerminal rest (screen t ++ [Prompt prompt]))
    end.

Section Dialogs.
Variable py_float : string -> option float.

(** [get_float_input]: each turn of the loop is one [input(prompt)] and one
    [float]; a [ValueError] prints the complaint and goes round again. *)
Fixpoint get_float_input_from (prompt : string) (typed : list string)
    (shown : list tty) : reply float * terminal :=
  match typed with
  | [] => (EndOfInput, mkTerminal [] (shown ++ [Prompt prompt]))
  | first :: rest =>
      match py_float first with
      | Some x => (Answered x, mkTerminal rest (shown ++ [Prompt prompt]))
      | None =>
          get_float_input_from prompt rest
            (shown ++ [Prompt prompt; InvalidNumber])
      end
  end.

Definition get_float_input (prompt : string) : T float :=
  fun t => get_float_input_from prompt (stdin t) (screen t).

(** The whole of [CrudMenu.create_company]: the twelve prompts, then the
    session that [create_company] above stands for, run on the store. *)
Definition create_company_dialog (st : Store) (fault : option nat)
  : T Store :=
  ask tk := input "Enter ticker (in the format 'MOON'):" in
  ask nm := input "Enter company (in the format 'Moon Corp'):" in
  ask sec := input "Enter industries (in the format 'Technology'):" in
  ask e := get_float_input "Enter ebitda (in the format '987654321'):" in
  ask s := get_float_input "Enter sales (in the format '987654321'):" in
  ask np := get_float_input "Enter net profit (in the format '987654321'):" in
  ask mp := get_float_input "Enter market price (in the format '987654321'):" in
  ask nd := get_float_input "Enter net debt (in the format '987654321'):" in
  ask a := get_float_input "Enter assets (in the format '987654321'):" in
  ask eq := get_float_input "Enter equity (in the format '987654321'):" in
  ask ce := get_float_input
              "Enter cash equivalents (in the format '987654321'):" in
  ask l := get_float_input "Enter liabilities (in the format '987654321'):" in
  fun t =>
    let '(r, st', out) :=
      run (create_company tk nm sec e s np mp nd a eq ce l) st fault in
    let t' := mkTerminal (stdin t) (screen t ++ map Console out) in
    match r with
    | Ok _ => (Answered st', t')
    | Raise err => (Crashed err, t')
    end.

End Dialogs.

(** ** The company list *)

(** [ORDER BY ticker]: ascending in the byte order of the tickers. *)
Fixpoint insert_by_ticker (c : Company) (l : list Company) : list Company :=
  match l with
  | [] => [c]
  | d :: rest =>
      if String.leb (ticker c) (ticker d) then c :: d :: rest
      else d :: insert_by_ticker c rest
  end.

Definition order_by_ticker (l : list Company) : list Company :=
  fold_right insert_by_ticker [] l.

Definition query_companies_ordered : M (list Company) :=
  db_call ;; s <- get_pending ;; ret (order_by_ticker (companies s)).

Definition company_list_row (c : Company) : tty :=
  CompanyListRow (ticker c) (name c) (sector c).

(** [list_companies]; the value is what it prints. *)
Definition list_companies : M (list tty) :=
  with_session
    (try_except
       (ordered_companies <- query_companies_ordered ;;
        match ordered_companies with
        | [] => ret [Console NoCompaniesFound]
        | _ :: _ =>
            ret (CompanyListTitle :: map company_list_row ordered_companies)
        end)
       (fun e => ret [Console (AnErrorOccurred e)])).

(** ** Vocabulary of the further properties *)

(** The numbered list of matches [company_search] prints. *)
Fixpoint hit_lines (idx : nat) (cs : list Company) : list line :=
  match cs with
  | [] => []
  | c :: rest => SearchHit idx (name c) :: hit_lines (S idx) rest
  end.

(** The lines that report a failure. *)
Definition error_line (l : line) : bool :=
  match l with
  | ErrorClearing _ | Traceback _ | ErrorInserting _ | AnErrorOccurred _
  | ErrorCalculating _ _ => true
  | _ => false
  end.

(** A run of commands, each with the fuse of its own session. *)
Fixpoint perform_all (py_float : string -> option float)
    (ilike : string -> string -> bool) (list_sort : sort_function)
    (cmds : list (command * option nat)) (st : Store) : Store :=
  match cmds with
  | [] => st
  | (cmd, fault) :: rest =>
      perform_all py_float ilike list_sort rest
        (store_of (run (perform py_float ilike list_sort cmd) st fault))
  end.

(** [n / d if d else None] on two typed numbers. *)
Definition quotient (n d : float) : option float :=
  if (d =? 0)%float then None else Some (n / d)%float.

(** A number that is no NaN, as a [Float] column gives it back. *)
Definition kept (x : float) : float :=
  if (x =? 0)%float then 0%float else x.

(** The ratio [read_company] works out for two numbers that were typed and
    then kept by the store, the numerator being no NaN: a NaN denominator
    is kept as [None], which the guard treats like a zero. *)
Definition read_back (n d : float) : option float :=
  if PrimFloat.is_nan d then None else quotient (kept n) (kept d).

(** The typed lines [float] accepts, as numbers, in order. *)
Definition numbers_in (py_float : string -> option float)
    (typed : list string) : list float :=
  flat_map (fun s => match py_float s with Some x => [x] | None => [] end)
           typed.

(** Ascending order of the tickers, as [ORDER BY ticker] compares them. *)
Definition ticker_le (c d : Company) : Prop :=
  String.leb (ticker c) (ticker d) = true.

(** ** Menus *)

(** A session run from a menu: what it prints goes to the screen. *)
Definition in_session (op : M unit) (st : Store) (fault : option nat)
  : T Store :=
  fun t =>
    let '(r, st', out) := run op st fault in
    let t' := mkTerminal (stdin t) (screen t ++ map Console out) in
    match r with
    | Ok _ => (Answered st', t')
    | Raise err => (Crashed err, t')
    end.

Definition show (l : tty) : T unit :=
  fun t => (Answered tt, mkTerminal (stdin t) (screen t ++ [l])).

Module Menu.

(** The options of a menu, one entry per key as in the [dict]. *)
Definition options : Type := list (string * string).

Fixpoint insert_key (kv : string * string) (l : options) : options :=
  match l with
  | [] => [kv]
  | kv' :: rest =>
      if String.leb (fst kv) (fst kv') then kv :: kv' :: rest
      else kv' :: insert_key kv rest
  end.

(** [sorted(self.options.keys())], each key with its text. *)
Definition sorted (o : options) : options := fold_right insert_key [] o.

Definition display (title : string) (o : options) : T unit :=
  fun t =>
    (Answered tt,
     mkTerminal (stdin t)
       (screen t ++
        MenuTitle title ::
        map (fun kv => MenuOption (fst kv) (snd kv)) (sorted o))).

End Menu.

Module TopTenMenu.

Definition title : string := "TOP TEN MENU".

Definition options : Menu.options :=
  [("0", "Back"); ("1", "List by ND/EBITDA"); ("2", "List by ROE");
   ("3", "List by ROA")].

(** [execute]: every branch of the loop body ends in [break], so the body
    runs once. *)
Definition execute (list_sort : sort_function) (st : Store)
    (fault : option nat) : T Store :=
  ask shown := Menu.display title options in
  ask choice := input "Enter an option:" in
  if (choice =? "0")%string then tret st
  else if (choice =? "1")%string then
    in_session (calculate_top_ten list_sort "ND/EBITDA") st fault
  else if (choice =? "2")%string then
    in_session (calculate_top_ten list_sort "ROE") st fault
  else if (choice =? "3")%string then
    in_session (calculate_top_ten list_sort "ROA") st fault
  else
    ask said := show InvalidOption in tret st.

End TopTenMenu.

(** ** Facts about tables *)

Section TableFacts.
Context {R : Type} (key : R -> string).

Lemma upsert_absent (r : R) (tbl : list R) :
  ~ In (key r) (map key tbl) -> upsert key r tbl = tbl ++ [r].
Proof.
  induction tbl as [|x rest IH]; simpl; intros Hn; [reflexivity|].
  destruct (String.eqb_spec (key x) (key r)) as [E|E].
  - exfalso. apply Hn. now left.
  - rewrite IH; [reflexivity|]. intros Hin. apply Hn. now right.
Qed.

Lemma upsert_keys_present (r : R) (tbl : list R) :
  In (key r) (map key tbl) -> map key (upsert key r tbl) = map key tbl.
Proof.
  induction tbl as [|x rest IH]; simpl; intros Hin; [contradiction|].
  destruct (String.eqb_spec (key x) (key r)) as [E|E]; simpl.
  - now rewrite E.
  - f_equal. apply IH. destruct Hin as [H|H]; [contradiction|exact H].
Qed.

Lemma upsert_length_present (r : R) (tbl : list R) :
  In (key r) (map key tbl) ->
  List.length (upsert key r tbl) = List.length tbl.
Proof.
  intros Hin. apply upsert_keys_present in Hin.
  apply (f_equal (@List.length string)) in Hin.
  now rewrite !length_map in Hin.
Qed.

Lemma upsert_keys (r : R) (tbl : list R) :
  map key (upsert key r tbl) = map key tbl \/
  (~ In (key r) (map key tbl) /\
   map key (upsert key r tbl) = map key tbl ++ [key r]).
Proof.
  destruct (in_dec string_dec (key r) (map key tbl)) as [Hin|Hn].
  - left. now apply upsert_keys_present.
  - right. split; [exact Hn|].
    rewrite upsert_absent by exact Hn. now rewrite map_app.
Qed.

Lemma upsert_NoDup (r : R) (tbl : list R) :
  NoDup (map key tbl) -> NoDup (map key (upsert key r tbl)).
Proof.
  intros Hnd. destruct (upsert_keys r tbl) as [E|[Hn E]]; rewrite E.
  - exact Hnd.
  - apply NoDup_app; [exact Hnd|constructor; [intros []|constructor]|].
    intros k Hk [Hk'|[]]. subst k. contradiction.
Qed.

Lemma rows_of_absent (t : string) (tbl : list R) :
  ~ In t (map key tbl) -> rows_of key t tbl = [].
Proof.
  induction tbl as [|x rest IH]; simpl; intros Hn; [reflexivity|].
  destruct (String.eqb_spec (key x) t) as [E|E].
  - exfalso. apply Hn. now left.
  - apply IH. intros Hin. apply Hn. now right.
Qed.

Lemma rows_of_upsert_other (t : string) (r : R) (tbl : list R) :
  key r <> t -> rows_of key t (upsert key r tbl) = rows_of key t tbl.
Proof.
  intros Hne. induction tbl as [|x rest IH]; simpl.
  - destruct (String.eqb_spec (key r) t); [contradiction|reflexivity].
  - destruct (String.eqb_spec (key x) (key r)) as [E|E]; simpl.
    + destruct (String.eqb_spec (key r) t); [contradiction|].
      destruct (String.eqb_spec (key x) t); [congruence|reflexivity].
    + now rewrite IH.
Qed.

Lemma rows_of_upsert_same (r : R) (tbl : list R) :
  NoDup (map key tbl) -> rows_of key (key r) (upsert key r tbl) = [r].
Proof.
  induction tbl as [|x rest IH]; simpl; intros Hnd.
  - now rewrite String.eqb_refl.
  - inversion Hnd as [|k ks Hk Hnd']; subst.
    destruct (String.eqb_spec (key x) (key r)) as [E|E]; simpl.
    + rewrite String.eqb_refl. f_equal.
      apply rows_of_absent. now rewrite <- E.
    + destruct (String.eqb_spec (key x) (key r)); [contradiction|].
      now apply IH.
Qed.

Lemma find_row_upsert (t : string) (r : R) (tbl : list R) :
  find_row key t (upsert key r tbl) =
  if (key r =? t)%string then Some r else find_row key t tbl.
Proof.
  unfold find_row. induction tbl as [|x rest IH]; simpl.
  - now destruct (key r =? t)%string.
  - destruct (String.eqb_spec (key x) (key r)) as [E|E]; simpl.
    + rewrite E. now destruct (key r =? t)%string.
    + rewrite IH. destruct (String.eqb_spec (key x) t) as [E'|E'].
      * destruct (String.eqb_spec (key r) t); [congruence|reflexivity].
      * reflexivity.
Qed.

Lemma find_row_rows_of (t : string) (tbl : list R) :
  find_row key t tbl = hd_error (rows_of key t tbl).
Proof.
  unfold find_row, rows_of. induction tbl as [|x rest IH]; simpl.
  - reflexivity.
  - now destruct (key x =? t)%string.
Qed.

Lemma rows_of_delete_same (t : string) (tbl : list R) :
  rows_of key t (delete_row key t tbl) = [].
Proof.
  unfold rows_of, delete_row. induction tbl as [|x rest IH]; simpl.
  - reflexivity.
  - destruct (key x =? t)%string eqn:E; simpl; [exact IH|].
    now rewrite E.
Qed.

Lemma rows_of_delete_other (t u : string) (tbl : list R) :
  u <> t -> rows_of key u (delete_row key t tbl) = rows_of key u tbl.
Proof.
  intros Hne. unfold rows_of, delete_row.
  induction tbl as [|x rest IH]; simpl; [reflexivity|].
  destruct (String.eqb_spec (key x) t) as [E|E]; simpl.
  - destruct (String.eqb_spec (key x) u); [congruence|exact IH].
  - now rewrite IH.
Qed.

Lemma merge_all_NoDup (objs tbl : list R) :
  NoDup (map key tbl) -> NoDup (map key (merge_all key objs tbl)).
Proof.
  revert tbl. induction objs as [|r objs IH]; simpl; intros tbl Hnd.
  - exact Hnd.
  - apply IH. now apply upsert_NoDup.
Qed.

Lemma rows_of_merge_all_other (t : string) (objs tbl : list R) :
  ~ In t (map key objs) ->
  rows_of key t (merge_all key objs tbl) = rows_of key t tbl.
Proof.
  revert tbl. induction objs as [|r objs IH]; simpl; intros tbl Hn.
  - reflexivity.
  - rewrite IH by (intros H; apply Hn; now right).
    apply rows_of_upsert_other. intros E. apply Hn. now left.
Qed.

Lemma rows_of_merge_all_last (t : string) (objs tbl : list R) (r : R) :
  NoDup (map key tbl) ->
  last_of key t objs = Some r ->
  rows_of key t (merge_all key objs tbl) = [r].
Proof.
  revert tbl. induction objs as [|x objs IH] using rev_ind;
    intros tbl Hnd Hlast.
  - discriminate.
  - unfold merge_all in *. rewrite fold_left_app. simpl.
    unfold last_of in Hlast. rewrite rev_app_distr in Hlast. simpl in Hlast.
    destruct (String.eqb_spec (key x) t) as [E|E].
    + injection Hlast as ->. subst t.
      apply rows_of_upsert_same. now apply merge_all_NoDup.
    + rewrite rows_of_upsert_other by exact E.
      now apply IH.
Qed.

Lemma merge_all_keeps_keys (t : string) (objs tbl : list R) :
  In t (map key tbl) -> In t (map key (merge_all key objs tbl)).
Proof.
  revert tbl. induction objs as [|r objs IH]; simpl; intros tbl Hin.
  - exact Hin.
  - apply IH. destruct (upsert_keys r tbl) as [E|[_ E]]; rewrite E.
    + exact Hin.
    + apply in_or_app. now left.
Qed.
End TableFacts.

(** ** Storage gateway: [clear_database] *)

Lemma clear_database_ok (s : Store) (fault : option nat) :
  fails_within fault 3 = false ->
  run clear_database s fault = (Ok tt, empty_store, []).
Proof.
  destruct fault as [[|[|[|n]]]|]; simpl; intros H;
    try discriminate; reflexivity.
Qed.

Lemma clear_database_fails (s : Store) (fault : option nat) :
  fails_within fault 3 = true ->
  run clear_database s fault =
    (Ok tt, s, [ErrorClearing StoreError; Traceback StoreError]).
Proof.
  destruct fault as [[|[|[|n]]]|]; simpl; intros H;
    try discriminate; reflexivity.
Qed.

(** C6. [clear_database] first empties the Financial table, then the Company
    table, in the working copy of one session, and commits: when none of its
    three store calls raises, both tables are empty afterwards (each count
    is 0) and nothing is printed; when one of them raises, the session is
    rolled back, the store is the one it was, and the failure is printed. *)
Theorem C6_clear_database (s : Store) (fault : option nat) :
  (forall w,
     poisoned w = false -> fuse w = None ->
     exists w1 w2,
       delete_all_financial w = (Ok tt, w1) /\
       pending w1 = mkStore (companies (pending w)) [] /\
       persisted w1 = persisted w /\
       delete_all_companies w1 = (Ok tt, w2) /\
       pending w2 = empty_store /\
       persisted w2 = persisted w) /\
  (fails_within fault 3 = false ->
     result_of (run clear_database s fault) = Ok tt /\
     store_of (run clear_database s fault) = empty_store /\
     List.length (companies (store_of (run clear_database s fault))) = 0 /\
     List.length (financial (store_of (run clear_database s fault))) = 0 /\
     console_of (run clear_database s fault) = []) /\
  (fails_within fault 3 = true ->
     result_of (run clear_database s fault) = Ok tt /\
     store_of (run clear_database s fault) = s /\
     console_of (run clear_database s fault) =
       [ErrorClearing StoreError; Traceback StoreError]).
Proof.
  split; [|split].
  - intros [p q po fu o] Hp Hf. simpl in *. subst po fu.
    eexists. eexists. cbn. repeat split.
  - intros H. rewrite (clear_database_ok s fault H). now cbn.
  - intros H. rewrite (clear_database_fails s fault H). now cbn.
Qed.

(** ** Bulk loader: the guard of [insert_data] *)

(** C5. When the store holds at least one Company row, [insert_data] with
    [force_reload = False] writes nothing: the Company and Financial tables
    are the ones it found, whatever the files hold and whether or not the
    count query itself succeeds, and nothing is printed. *)
Theorem C5_load_without_force_is_noop
    (py_float : string -> option float) (s : Store)
    (companies_csv financial_csv : option (list csv_row))
    (fault : option nat) :
  companies s <> [] ->
  let r := run (insert_data py_float false companies_csv financial_csv) s fault in
  store_of r = s /\
  companies (store_of r) = companies s /\
  financial (store_of r) = financial s /\
  console_of r = [].
Proof.
  intros Hne. destruct s as [cs fs]. simpl in Hne.
  destruct cs as [|c cs]; [contradiction|].
  destruct fault as [[|n]|]; cbn; repeat split.
Qed.

(** ** Bulk loader: what the two loops do to the session *)

Ltac inv_pair :=
  lazymatch goal with
  | H : pair _ _ = pair _ _ |- _ => inversion H; clear H; subst
  end.

Lemma merge_company_spec (obj : option Company) (w w' : world)
    (r : outcome unit) :
  merge_company obj w = (r, w') ->
  persisted w' = persisted w /\ stdout w' = stdout w /\
  (r = Ok tt ->
     poisoned w = false /\
     match obj with
     | Some c =>
         poisoned w' = false /\
         pending w' = mkStore (upsert ticker c (companies (pending w)))
                              (financial (pending w))
     | None => poisoned w' = true
     end).
Proof.
  unfold merge_company, bind, db_call, poison, get_pending, set_pending.
  destruct w as [p q po fu o]; simpl.
  destruct po; [intros; inv_pair; simpl; repeat split; try discriminate|].
  destruct fu as [[|n]|], obj as [c|]; simpl; intros; inv_pair; simpl;
    repeat split; try discriminate; auto.
Qed.

Lemma merge_financial_spec (obj : option Financial) (w w' : world)
    (r : outcome unit) :
  merge_financial obj w = (r, w') ->
  persisted w' = persisted w /\ stdout w' = stdout w /\
  (r = Ok tt ->
     poisoned w = false /\
     match obj with
     | Some f =>
         poisoned w' = false /\
         pending w' = mkStore (companies (pending w))
                              (upsert fticker (stored f)
                                      (financial (pending w)))
     | None => poisoned w' = true
     end).
Proof.
  unfold merge_financial, bind, db_call, poison, get_pending, set_pending.
  destruct w as [p q po fu o]; simpl.
  destruct po; [intros; inv_pair; simpl; repeat split; try discriminate|].
  destruct fu as [[|n]|], obj as [c|]; simpl; intros; inv_pair; simpl;
    repeat split; try discriminate; auto.
Qed.

Section Loader.
Variable py_float : string -> option float.

Lemma load_companies_spec (rows : list csv_row) :
  forall (w w' : world) (r : outcome unit),
    load_companies rows w = (r, w') ->
    persisted w' = persisted w /\ stdout w' = stdout w /\
    (r = Ok tt -> poisoned w' = false ->
       poisoned w = false /\
       exists cs,
         map company_of_row rows = map Some cs /\
         pending w' = mkStore (merge_all ticker cs (companies (pending w)))
                              (financial (pending w))).
Proof.
  induction rows as [|row rows IH]; intros w w' r.
  - unfold load_companies. simpl. unfold ret. intros; inv_pair.
    split; [reflexivity|split; [reflexivity|]].
    intros _ Hpo. split; [exact Hpo|].
    exists []. split; [reflexivity|]. now destruct (pending w').
  - unfold load_companies. simpl. unfold bind at 1.
    destruct (merge_company (company_of_row row) w) as [r1 w1] eqn:E1.
    destruct (merge_company_spec _ _ _ _ E1) as (Hp & Ho & Hok).
    destruct r1 as [[]|e].
    + intros E2. destruct (IH _ _ _ E2) as (Hp2 & Ho2 & Hok2).
      split; [congruence|split; [congruence|]].
      intros Hr Hpo. destruct (Hok2 Hr Hpo) as (_ & cs & Hcs & Hpend).
      destruct (Hok eq_refl) as (Hw & Hobj). split; [exact Hw|].
      destruct (company_of_row row) as [c|] eqn:Ec.
      * destruct Hobj as (_ & Hpend1).
        exists (c :: cs). simpl. split; [now rewrite Hcs|].
        rewrite Hpend, Hpend1. reflexivity.
      * exfalso. clear - E2 Hobj Hr Hpo.
        destruct rows as [|row' rows].
        -- simpl in E2. unfold ret in E2. inv_pair. congruence.
        -- simpl in E2. unfold bind at 1 in E2.
           unfold merge_company at 1 in E2. unfold bind at 1 in E2.
           unfold db_call in E2. rewrite Hobj in E2. inv_pair. discriminate.
    + intros; inv_pair. split; [assumption|split; [assumption|]].
      discriminate.
Qed.

Lemma load_financial_spec (rows : list csv_row) :
  forall (w w' : world) (r : outcome unit),
    load_financial py_float rows w = (r, w') ->
    persisted w' = persisted w /\ stdout w' = stdout w /\
    (r = Ok tt -> poisoned w' = false ->
       poisoned w = false /\
       exists fs,
         map (financial_of_row py_float) rows =
           map (fun f => Ok (Some f)) fs /\
         pending w' = mkStore (companies (pending w))
                              (merge_all fticker (map stored fs)
                                         (financial (pending w)))).
Proof.
  induction rows as [|row rows IH]; intros w w' r.
  - unfold load_financial. simpl. unfold ret. intros; inv_pair.
    split; [reflexivity|split; [reflexivity|]].
    intros _ Hpo. split; [exact Hpo|].
    exists []. split; [reflexivity|]. now destruct (pending w').
  - unfold load_financial. simpl. unfold bind at 1. unfold bind at 1.
    unfold lift at 1.
    destruct (financial_of_row py_float row) as [obj|e] eqn:Erow.
    2:{ intros; inv_pair. split; [reflexivity|split; [reflexivity|]].
        discriminate. }
    destruct (merge_financial obj w) as [r1 w1] eqn:E1.
    destruct (merge_financial_spec _ _ _ _ E1) as (Hp & Ho & Hok).
    destruct r1 as [[]|e].
    + intros E2. destruct (IH _ _ _ E2) as (Hp2 & Ho2 & Hok2).
      split; [congruence|split; [congruence|]].
      intros Hr Hpo. destruct (Hok2 Hr Hpo) as (_ & fs & Hfs & Hpend).
      destruct (Hok eq_refl) as (Hw & Hobj). split; [exact Hw|].
      destruct obj as [f|].
      * destruct Hobj as (_ & Hpend1).
        exists (f :: fs). simpl. split; [now rewrite Hfs|].
        rewrite Hpend, Hpend1. reflexivity.
      * exfalso. clear - E2 Hobj Hr Hpo.
        destruct rows as [|row' rows].
        -- simpl in E2. unfold ret in E2. inv_pair. congruence.
        -- simpl in E2. unfold bind at 1 in E2. unfold bind at 1 in E2.
           unfold lift at 1 in E2.
           destruct (financial_of_row py_float row') as [obj'|e'];
             [|inv_pair; discriminate].
           unfold merge_financial at 1 in E2. unfold bind at 1 in E2.
           unfold db_call in E2. rewrite Hobj in E2. inv_pair. discriminate.
    + intros; inv_pair. split; [assumption|split; [assumption|]].
      discriminate.
Qed.
End Loader.

(** ** Bulk loader: the outcomes of a load *)

Ltac reduce_in H :=
  cbv [bind ret print session_rollback] in H; simpl in H.

Section LoaderCases.
Variable py_float : string -> option float.

Lemma insert_rows_spec (cs fs : option (list csv_row)) (w w' : world)
    (r : outcome unit) :
  insert_rows py_float cs fs w = (r, w') ->
  pending w = persisted w -> poisoned w = false ->
  r = Ok tt /\
  ((persisted w' = persisted w /\
    (((cs = None \/ fs = None) /\ stdout w' = stdout w ++ [CsvFilesNotFound]) \/
     (exists e, stdout w' = stdout w ++ [ErrorInserting e; Traceback e]))) \/
   (exists crows frows cobjs fobjs,
      cs = Some crows /\ fs = Some frows /\
      map company_of_row crows = map Some cobjs /\
      map (financial_of_row py_float) frows =
        map (fun f => Ok (Some f)) fobjs /\
      persisted w' = mkStore (merge_all ticker cobjs (companies (persisted w)))
                             (merge_all fticker (map stored fobjs)
                                        (financial (persisted w))) /\
      stdout w' = stdout w ++ [DataInserted])).
Proof.
  intros Hrun Hpend Hpo. unfold insert_rows, try_except in Hrun.
  destruct cs as [crows|], fs as [frows|];
    try (reduce_in Hrun; inv_pair; split; [reflexivity|left]; split;
         [reflexivity|left; split; [auto|reflexivity]]).
  unfold bind at 1 in Hrun.
  destruct (load_companies crows w) as [r1 w1] eqn:E1.
  destruct (load_companies_spec _ _ _ _ E1) as (Hp1 & Ho1 & Hok1).
  destruct r1 as [[]|e1].
  2:{ reduce_in Hrun. inv_pair. cbn. split; [reflexivity|left].
      split; [assumption|right]. exists e1. rewrite Ho1. now rewrite <- app_assoc. }
  unfold bind at 1 in Hrun.
  destruct (load_financial py_float frows w1) as [r2 w2] eqn:E2.
  destruct (load_financial_spec _ _ _ _ _ E2) as (Hp2 & Ho2 & Hok2).
  destruct r2 as [[]|e2].
  2:{ reduce_in Hrun. inv_pair. cbn. split; [reflexivity|left].
      split; [congruence|right]. exists e2. rewrite Ho2, Ho1. now rewrite <- app_assoc. }
  unfold bind at 1 in Hrun. unfold session_commit in Hrun.
  unfold bind at 1 in Hrun. unfold db_call in Hrun.
  destruct (poisoned w2) eqn:Epo.
  { reduce_in Hrun. inv_pair. cbn. split; [reflexivity|left].
    split; [congruence|right]. exists StoreError. rewrite Ho2, Ho1. now rewrite <- app_assoc. }
  destruct (Hok2 eq_refl eq_refl) as (Hpo1 & fobjs & Hf & Hpend2).
  destruct (Hok1 eq_refl Hpo1) as (_ & cobjs & Hc & Hpend1).
  destruct (fuse w2) as [[|n]|]; reduce_in Hrun; inv_pair; cbn;
    (split; [reflexivity|]).
  - left. split; [congruence|right]. exists StoreError. rewrite Ho2, Ho1. now rewrite <- app_assoc.
  - right. exists crows, frows, cobjs, fobjs. repeat split; auto.
    + rewrite Hpend2, Hpend1. cbn. now rewrite Hpend.
    + congruence.
  - right. exists crows, frows, cobjs, fobjs. repeat split; auto.
    + rewrite Hpend2, Hpend1. cbn. now rewrite Hpend.
    + congruence.
Qed.

Lemma insert_data_cases (force : bool) (cs fs : option (list csv_row))
    (s : Store) (fault : option nat) :
  let x := run (insert_data py_float force cs fs) s fault in
  (store_of x = s /\
   ((force = false /\ companies s <> [] /\ console_of x = []) \/
    (force = false /\ fault = Some 0 /\ result_of x = Raise StoreError /\
     console_of x = []) \/
    (result_of x = Ok tt /\ (cs = None \/ fs = None) /\
     console_of x = [CsvFilesNotFound]) \/
    (exists e, result_of x = Ok tt /\
               console_of x = [ErrorInserting e; Traceback e]))) \/
  (exists crows frows cobjs fobjs,
     cs = Some crows /\ fs = Some frows /\
     map company_of_row crows = map Some cobjs /\
     map (financial_of_row py_float) frows =
       map (fun f => Ok (Some f)) fobjs /\
     result_of x = Ok tt /\
     store_of x = mkStore (merge_all ticker cobjs (companies s))
                          (merge_all fticker (map stored fobjs)
                                     (financial s)) /\
     console_of x = [DataInserted]).
Proof.
  intros x. destruct x as [[r s'] out] eqn:Ex. subst x.
  cbn [result_of store_of console_of fst snd].
  assert (Hbody : forall w0 r0 w',
    insert_rows py_float cs fs w0 = (r0, w') ->
    persisted w0 = s -> pending w0 = s -> poisoned w0 = false ->
    stdout w0 = [] ->
    (r0, persisted w', stdout w') = (r, s', out) ->
    (s' = s /\
     ((force = false /\ companies s <> [] /\ out = []) \/
      (force = false /\ fault = Some 0 /\ r = Raise StoreError /\ out = []) \/
      (r = Ok tt /\ (cs = None \/ fs = None) /\ out = [CsvFilesNotFound]) \/
      (exists e, r = Ok tt /\ out = [ErrorInserting e; Traceback e]))) \/
    (exists crows frows cobjs fobjs,
       cs = Some crows /\ fs = Some frows /\
       map company_of_row crows = map Some cobjs /\
       map (financial_of_row py_float) frows =
         map (fun f => Ok (Some f)) fobjs /\
       r = Ok tt /\
       s' = mkStore (merge_all ticker cobjs (companies s))
                    (merge_all fticker (map stored fobjs) (financial s)) /\
       out = [DataInserted])).
  { intros w0 r0 w' E Hp Hq Hpo Ho Heq. inversion Heq; subst r0 s' out.
    apply insert_rows_spec in E; [|congruence|exact Hpo].
    rewrite Hp, Ho in E. destruct E as (Hr & [(Hs & Hc)|Hd]).
    - left. split; [exact Hs|]. right. right.
      destruct Hc as [(Hn & Hc)|(e & Hc)]; [left|right]; eauto.
    - right. destruct Hd as (crows & frows & cobjs & fobjs & H).
      exists crows, frows, cobjs, fobjs. intuition. }
  unfold run, insert_data, with_session in Ex. destruct force.
  - unfold bind at 1, ret at 1 in Ex. cbn [persisted fuse stdout] in Ex.
    destruct (insert_rows py_float cs fs (mkWorld s s false fault []))
      as [r0 w'] eqn:E.
    cbn [persisted stdout] in Ex.
    exact (Hbody _ _ _ E eq_refl eq_refl eq_refl eq_refl Ex).
  - unfold bind at 1 in Ex. unfold count_companies in Ex.
    cbv [bind db_call get_pending ret] in Ex.
    cbn [poisoned fuse persisted pending stdout] in Ex.
    destruct fault as [[|n]|].
    + inversion Ex; subst. left. split; [reflexivity|]. right. left. auto.
    + cbn [poisoned fuse persisted pending stdout] in Ex.
      destruct (companies s) as [|c rest] eqn:Ecs; cbn [List.length Nat.eqb] in Ex.
      * destruct (insert_rows py_float cs fs (mkWorld s s false (Some n) []))
          as [r0 w'] eqn:E.
        cbn [persisted stdout] in Ex.
        exact (Hbody _ _ _ E eq_refl eq_refl eq_refl eq_refl Ex).
      * inversion Ex; subst. left. split; [reflexivity|]. left.
        repeat split. discriminate.
    + cbn [poisoned fuse persisted pending stdout] in Ex.
      destruct (companies s) as [|c rest] eqn:Ecs; cbn [List.length Nat.eqb] in Ex.
      * destruct (insert_rows py_float cs fs (mkWorld s s false None []))
          as [r0 w'] eqn:E.
        cbn [persisted stdout] in Ex.
        exact (Hbody _ _ _ E eq_refl eq_refl eq_refl eq_refl Ex).
      * inversion Ex; subst. left. split; [reflexivity|]. left.
        repeat split. discriminate.
Qed.
End LoaderCases.

(** ** Bulk loader: how a row of [financial.csv] is read *)

Lemma row_item_get (row : csv_row) (k : string) (v : option string) :
  row_item row k = Ok v -> row_get row k = v.
Proof.
  unfold row_item, row_get.
  destruct (find _ row) as [[k' v']|]; [|discriminate].
  now intros [= ->].
Qed.

Section RowFacts.
Variable py_float : string -> option float.

Lemma float_field_empty (row : csv_row) (k : string) :
  truthy_str (row_get row k) = false ->
  float_field py_float row k = Ok None.
Proof. unfold float_field. now intros ->. Qed.

Lemma float_field_text (row : csv_row) (k s : string) :
  row_get row k = Some s -> s <> "" ->
  float_field py_float row k =
    match py_float s with
    | Some x => Ok (Some x)
    | None => Raise ValueError
    end.
Proof.
  unfold float_field. intros -> Hs.
  destruct s; [contradiction|reflexivity].
Qed.

Ltac split_fields :=
  repeat match goal with
    | |- context [obind (float_field ?p ?r ?k) _] =>
        let E := fresh "E" in
        destruct (float_field p r k) eqn:E; cbn [obind]
    | H : context [obind (float_field ?p ?r ?k) _] |- _ =>
        let E := fresh "E" in
        destruct (float_field p r k) eqn:E; cbn [obind] in H
    end.

Lemma financial_of_row_fields (row : csv_row) (f : Financial) :
  financial_of_row py_float row = Ok (Some f) ->
  row_get row "ticker" = Some (fticker f) /\
  forall k get, In (k, get) numeric_fields ->
                float_field py_float row k = Ok (get f).
Proof.
  unfold financial_of_row.
  destruct (row_item row "ticker") as [t|e] eqn:Et; cbn [obind];
    [|discriminate].
  intros H. split_fields; try discriminate.
  destruct t as [t|]; [|discriminate]. injection H as <-.
  split; [exact (row_item_get _ _ _ Et)|].
  intros k get Hin. cbn in Hin.
  repeat (destruct Hin as [[= <- <-]|Hin]; [assumption|]).
  contradiction.
Qed.

Lemma financial_of_row_raises (row : csv_row) (k : string)
    (get : Financial -> option float) (e : exn) :
  In (k, get) numeric_fields ->
  float_field py_float row k = Raise e ->
  exists e', financial_of_row py_float row = Raise e'.
Proof.
  intros Hin Hk. unfold financial_of_row.
  destruct (row_item row "ticker") as [t|e0]; cbn [obind]; [|eauto].
  cbn in Hin.
  repeat (destruct Hin as [[= <- <-]|Hin];
          [split_fields; try congruence; eauto|]).
  contradiction.
Qed.

Lemma row_ticker_of_object (t : string) (row : csv_row) (f : Financial) :
  financial_of_row py_float row = Ok (Some f) ->
  row_ticker_is t row = (fticker f =? t)%string.
Proof.
  intros H. apply financial_of_row_fields in H as (Ht & _).
  unfold row_ticker_is. now rewrite Ht.
Qed.
End RowFacts.

(** The last row of a file that carries a ticker is the one the last object
    with that key was made from. *)
Lemma find_related {A B C : Type} (F : A -> C) (G : B -> C)
    (p : A -> bool) (q : B -> bool) :
  (forall a b, F a = G b -> p a = q b) ->
  forall (l1 : list A) (l2 : list B) (a : A),
    map F l1 = map G l2 -> find p l1 = Some a ->
    exists b, find q l2 = Some b /\ F a = G b.
Proof.
  intros Hpq. induction l1 as [|x l1 IH]; intros [|y l2] a Hmap Hfind;
    try discriminate.
  simpl in *. injection Hmap as Hxy Hmap. rewrite <- (Hpq _ _ Hxy).
  destruct (p x).
  - injection Hfind as <-. eauto.
  - now apply IH.
Qed.

Lemma last_row_object (py_float : string -> option float) (t : string)
    (rows : list csv_row) (objs : list Financial) (row : csv_row) :
  map (financial_of_row py_float) rows = map (fun f => Ok (Some f)) objs ->
  last_row t rows = Some row ->
  exists f, last_of fticker t objs = Some f /\
            financial_of_row py_float row = Ok (Some f).
Proof.
  intros Hmap Hlast. unfold last_row in Hlast. unfold last_of.
  apply (find_related (financial_of_row py_float) (fun f => Ok (Some f))
           (row_ticker_is t) (fun f => (fticker f =? t)%string))
    with (l1 := rev rows); auto.
  - intros a b. apply row_ticker_of_object.
  - now rewrite !map_rev, Hmap.
Qed.

Lemma last_company_object (t : string) (rows : list csv_row)
    (objs : list Company) (row : csv_row) :
  map company_of_row rows = map Some objs ->
  last_row t rows = Some row ->
  exists c, last_of ticker t objs = Some c /\ company_of_row row = Some c.
Proof.
  intros Hmap Hlast. unfold last_row in Hlast. unfold last_of.
  apply (find_related company_of_row Some
           (row_ticker_is t) (fun c => (ticker c =? t)%string))
    with (l1 := rev rows); auto.
  - intros a b. unfold company_of_row, new_Company, row_ticker_is.
    destruct (row_get a "ticker"); [|discriminate].
    now intros [= <-].
  - now rewrite !map_rev, Hmap.
Qed.

(** ** What the store keeps of a row *)

Lemma stored_fields (f : Financial) (k : string)
    (get : Financial -> option float) :
  In (k, get) numeric_fields -> get (stored f) = float_column (get f).
Proof.
  intros Hin. cbn in Hin.
  repeat (destruct Hin as [[= <- <-]|Hin]; [reflexivity|]).
  contradiction.
Qed.

Lemma float_column_idempotent (v : option float) :
  float_column (float_column v) = float_column v.
Proof.
  destruct v as [x|]; [|reflexivity]. unfold float_column.
  destruct (PrimFloat.is_nan x) eqn:En; [reflexivity|].
  destruct (x =? 0)%float eqn:Ez; [reflexivity|].
  now rewrite En, Ez.
Qed.

Lemma stored_idempotent (f : Financial) : stored (stored f) = stored f.
Proof.
  unfold stored. cbn [fticker ebitda sales net_profit market_price net_debt
                      assets equity cash_equivalents liabilities].
  now rewrite !float_column_idempotent.
Qed.

Lemma stored_keys (objs : list Financial) :
  map fticker (map stored objs) = map fticker objs.
Proof. rewrite map_map. reflexivity. Qed.

Lemma last_of_stored (t : string) (objs : list Financial) :
  last_of fticker t (map stored objs) =
    option_map stored (last_of fticker t objs).
Proof.
  unfold last_of. rewrite <- map_rev.
  induction (rev objs) as [|f l IH]; [reflexivity|].
  cbn [map find fticker stored].
  destruct (fticker f =? t)%string; [reflexivity|exact IH].
Qed.

(** C4. Reading [financial.csv]: a numeric cell that is missing or empty is
    read as [None], never as zero, and after a load that commits the row
    stored for a ticker carries [None] there and, for a cell with text, the
    parsed number as the column keeps it.  A cell with text that [float]
    rejects makes the load
    fail: nothing of it is committed, the store is the one before the load,
    and whenever the load gets as far as reading the files the error is
    printed. *)
Theorem C4_bulk_load_numeric_fields
    (py_float : string -> option float) (s : Store) (force : bool)
    (crows frows : list csv_row) (fault : option nat) :
  let x := run (insert_data py_float force (Some crows) (Some frows)) s fault in
  (forall row k,
     truthy_str (row_get row k) = false ->
     float_field py_float row k = Ok None) /\
  (In DataInserted (console_of x) -> unique_keys s ->
   forall t row,
     last_row t frows = Some row ->
     exists f,
       rows_of fticker t (financial (store_of x)) = [f] /\
       forall k get,
         In (k, get) numeric_fields ->
         (truthy_str (row_get row k) = false ->
          get f = None /\ get f <> Some 0%float) /\
         (forall txt,
            row_get row k = Some txt -> txt <> "" ->
            exists v, py_float txt = Some v /\
                      get f = float_column (Some v))) /\
  (forall row k get txt,
     In row frows -> In (k, get) numeric_fields ->
     row_get row k = Some txt -> txt <> "" -> py_float txt = None ->
     store_of x = s /\
     ~ In DataInserted (console_of x) /\
     (force = true \/ (companies s = [] /\ fault <> Some 0) ->
      result_of x = Ok tt /\
      exists e, console_of x = [ErrorInserting e; Traceback e])).
Proof.
  intros x.
  pose proof (insert_data_cases py_float force (Some crows) (Some frows)
                s fault) as Hcases.
  cbv zeta in Hcases. fold x in Hcases.
  split; [|split].
  - intros row k. apply float_field_empty.
  - intros Hdone (_ & Hnd) t row Hlast.
    destruct Hcases as [(_ & Hc)|Hd].
    { exfalso.
      destruct Hc as [(_ & _ & Hc)|[(_ & _ & _ & Hc)|[(_ & _ & Hc)|(e & _ & Hc)]]];
        rewrite Hc in Hdone; simpl in Hdone;
        repeat (destruct Hdone as [Hdone|Hdone]; try discriminate);
        contradiction. }
    destruct Hd as (crows' & frows' & cobjs & fobjs & Hcs & Hfs & Hc & Hf &
                    _ & Hs & _).
    injection Hfs as <-.
    destruct (last_row_object py_float t frows fobjs row Hf Hlast)
      as (f & Hlastf & Hrow).
    exists (stored f). split.
    + rewrite Hs. cbn [financial].
      apply rows_of_merge_all_last; [exact Hnd|].
      now rewrite last_of_stored, Hlastf.
    + intros k get Hin. rewrite (stored_fields f k get Hin).
      destruct (financial_of_row_fields py_float row f Hrow) as (_ & Hfields).
      specialize (Hfields k get Hin). split.
      * intros Hempty.
        rewrite (float_field_empty py_float row k Hempty) in Hfields.
        injection Hfields as <-. split; [reflexivity|discriminate].
      * intros txt Hk Htxt.
        rewrite (float_field_text py_float row k txt Hk Htxt) in Hfields.
        destruct (py_float txt) as [v|]; [|discriminate].
        injection Hfields as <-. eauto.
  - intros row k get txt Hrow Hin Hk Htxt Hbad.
    assert (Hraise : exists e, financial_of_row py_float row = Raise e).
    { apply (financial_of_row_raises py_float row k get ValueError Hin).
      rewrite (float_field_text py_float row k txt Hk Htxt).
      now rewrite Hbad. }
    destruct Hraise as (e0 & Hraise).
    destruct Hcases as [(Hs & Hc)|Hd].
    2:{ exfalso.
        destruct Hd as (crows' & frows' & cobjs & fobjs & _ & Hfs & _ & Hf & _).
        injection Hfs as <-.
        apply (in_map (financial_of_row py_float)) in Hrow.
        rewrite Hf, Hraise in Hrow. apply in_map_iff in Hrow.
        destruct Hrow as (f & Habs & _). discriminate. }
    split; [exact Hs|]. split.
    + intros Hdone.
      destruct Hc as [(_ & _ & Hc)|[(_ & _ & _ & Hc)|[(_ & _ & Hc)|(e & _ & Hc)]]];
        rewrite Hc in Hdone; simpl in Hdone;
        repeat (destruct Hdone as [Hdone|Hdone]; try discriminate);
        contradiction.
    + intros Hgo.
      destruct Hc as [(Hf & Hne & _)|[(Hf & Hfault & _)|[(_ & Hnone & _)|(e & Hr & Hc)]]].
      * destruct Hgo as [Hgo|(Hgo & _)]; congruence.
      * destruct Hgo as [Hgo|(_ & Hgo)]; congruence.
      * destruct Hnone; discriminate.
      * split; [exact Hr|]. now exists e.
Qed.

(** ** Bulk loader: what a load leaves alone *)

Section Frame.
Context {R : Type} (key : R -> string) (p : string -> bool).

Lemma filter_upsert_frame (r : R) (tbl : list R) :
  p (key r) = false ->
  filter (fun x => p (key x)) (upsert key r tbl) =
  filter (fun x => p (key x)) tbl.
Proof.
  intros Hr. induction tbl as [|x rest IH]; simpl.
  - now rewrite Hr.
  - destruct (String.eqb_spec (key x) (key r)) as [E|E]; simpl.
    + now rewrite E, Hr.
    + now rewrite IH.
Qed.

Lemma filter_merge_all_frame (objs tbl : list R) :
  Forall (fun r => p (key r) = false) objs ->
  filter (fun x => p (key x)) (merge_all key objs tbl) =
  filter (fun x => p (key x)) tbl.
Proof.
  intros Hall. revert tbl.
  induction Hall as [|r objs Hr Hall IH]; intros tbl; simpl.
  - reflexivity.
  - rewrite IH. now apply filter_upsert_frame.
Qed.
End Frame.

Lemma objects_come_from_rows {A B C : Type} (F : A -> C) (G : B -> C)
    (l1 : list A) (l2 : list B) (b : B) :
  map F l1 = map G l2 -> In b l2 -> exists a, In a l1 /\ F a = G b.
Proof.
  intros Hmap Hin. apply (in_map G) in Hin. rewrite <- Hmap in Hin.
  apply in_map_iff in Hin. destruct Hin as (a & Ha & Hin). eauto.
Qed.

Lemma company_objects_appear (rows : list csv_row) (objs : list Company)
    (c : Company) :
  map company_of_row rows = map Some objs -> In c objs ->
  appears_in (ticker c) (Some rows) = true.
Proof.
  intros Hmap Hin.
  destruct (objects_come_from_rows _ _ _ _ _ Hmap Hin) as (row & Hrow & Hc).
  simpl. apply existsb_exists. exists row. split; [exact Hrow|].
  unfold company_of_row, new_Company in Hc. unfold row_ticker_is.
  destruct (row_get row "ticker") as [t|]; [|discriminate].
  injection Hc as <-. apply String.eqb_refl.
Qed.

Lemma financial_objects_appear (py_float : string -> option float)
    (rows : list csv_row) (objs : list Financial) (f : Financial) :
  map (financial_of_row py_float) rows = map (fun f => Ok (Some f)) objs ->
  In f objs ->
  appears_in (fticker f) (Some rows) = true.
Proof.
  intros Hmap Hin.
  destruct (objects_come_from_rows _ _ _ _ _ Hmap Hin) as (row & Hrow & Hf).
  simpl. apply existsb_exists. exists row. split; [exact Hrow|].
  rewrite (row_ticker_of_object py_float _ _ _ Hf). apply String.eqb_refl.
Qed.

(** C10. A forced load merges: whatever the files hold and however the load
    ends, a Company or Financial row whose ticker appears in neither file is
    afterwards what it was; more precisely, in each table the rows whose
    tickers do not appear in that table's file are the same rows in the same
    order, and no ticker of the store disappears. *)
Theorem C10_forced_load_merges
    (py_float : string -> option float) (s : Store)
    (companies_csv financial_csv : option (list csv_row))
    (fault : option nat) :
  let s' := store_of (run (insert_data py_float true companies_csv
                                       financial_csv) s fault) in
  (forall t,
     appears_in t companies_csv = false ->
     appears_in t financial_csv = false ->
     rows_of ticker t (companies s') = rows_of ticker t (companies s) /\
     rows_of fticker t (financial s') = rows_of fticker t (financial s)) /\
  filter (fun c => negb (appears_in (ticker c) companies_csv)) (companies s') =
  filter (fun c => negb (appears_in (ticker c) companies_csv)) (companies s) /\
  filter (fun f => negb (appears_in (fticker f) financial_csv)) (financial s') =
  filter (fun f => negb (appears_in (fticker f) financial_csv)) (financial s) /\
  (forall t, In t (map ticker (companies s)) ->
             In t (map ticker (companies s'))) /\
  (forall t, In t (map fticker (financial s)) ->
             In t (map fticker (financial s'))).
Proof.
  intros s'.
  pose proof (insert_data_cases py_float true companies_csv financial_csv
                s fault) as Hcases.
  cbv zeta in Hcases. fold s' in Hcases.
  destruct Hcases as [(Hs & _)|Hd].
  { rewrite Hs. repeat split; auto. }
  destruct Hd as (crows & frows & cobjs & fobjs & -> & -> & Hc & Hf & _ & Hs & _).
  rewrite Hs. cbn [companies financial].
  split; [|split; [|split; [|split]]].
  - intros t Htc Htf. split.
    + apply rows_of_merge_all_other. intros Hin.
      apply in_map_iff in Hin. destruct Hin as (c & <- & Hin).
      rewrite (company_objects_appear _ _ _ Hc Hin) in Htc. discriminate.
    + apply rows_of_merge_all_other. rewrite stored_keys. intros Hin.
      apply in_map_iff in Hin. destruct Hin as (f & <- & Hin).
      rewrite (financial_objects_appear _ _ _ _ Hf Hin) in Htf. discriminate.
  - apply (filter_merge_all_frame ticker
             (fun t => negb (appears_in t (Some crows)))).
    apply Forall_forall. intros c Hin.
    now rewrite (company_objects_appear _ _ _ Hc Hin).
  - apply (filter_merge_all_frame fticker
             (fun t => negb (appears_in t (Some frows)))).
    apply Forall_forall. intros f Hin.
    apply in_map_iff in Hin. destruct Hin as (g & <- & Hin).
    cbn [fticker stored].
    now rewrite (financial_objects_appear _ _ _ _ Hf Hin).
  - intros t. apply merge_all_keeps_keys.
  - intros t. apply merge_all_keeps_keys.
Qed.

(** ** Record operations: [create_company] *)

Section Create.
Variables (tk nm sec : string) (e s np mp nd a eq ce l : float).

Let company : Company := mkCompany tk (Some nm) (Some sec).
Let fin : Financial :=
  mkFinancial tk (Some e) (Some s) (Some np) (Some mp) (Some nd) (Some a)
              (Some eq) (Some ce) (Some l).

Lemma create_company_ok (st : Store) (fault : option nat) :
  fails_within fault 3 = false ->
  run (create_company tk nm sec e s np mp nd a eq ce l) st fault =
    (Ok tt,
     mkStore (upsert ticker company (companies st))
             (upsert fticker (stored fin) (financial st)),
     [CompanyCreated]).
Proof.
  destruct fault as [[|[|[|n]]]|]; simpl; intros H;
    try discriminate; reflexivity.
Qed.

Lemma create_company_fails (st : Store) (fault : option nat) :
  fails_within fault 3 = true ->
  run (create_company tk nm sec e s np mp nd a eq ce l) st fault =
    (Ok tt, st, [AnErrorOccurred StoreError; Traceback StoreError]).
Proof.
  destruct fault as [[|[|[|n]]]|]; simpl; intros H;
    try discriminate; reflexivity.
Qed.
End Create.

Lemma unique_keys_upsert (c : Company) (f : Financial) (st : Store) :
  unique_keys st ->
  unique_keys (mkStore (upsert ticker c (companies st))
                       (upsert fticker f (financial st))).
Proof.
  intros (Hc & Hf). split; cbn; now apply upsert_NoDup.
Qed.

Lemma upsert_idempotent {R : Type} (key : R -> string) (r : R)
    (tbl : list R) :
  upsert key r (upsert key r tbl) = upsert key r tbl.
Proof.
  induction tbl as [|x rest IH]; simpl.
  - now rewrite String.eqb_refl.
  - destruct (key x =? key r)%string eqn:E; simpl.
    + now rewrite String.eqb_refl.
    + now rewrite E, IH.
Qed.

(** ** The store call *)

Lemma db_call_ok (w : world) :
  poisoned w = false -> fails_within (fuse w) 1 = false ->
  db_call w =
    (Ok tt, mkWorld (persisted w) (pending w) false
                    (option_map Nat.pred (fuse w)) (stdout w)).
Proof.
  unfold db_call. destruct w as [p q po fu o]. cbn.
  intros -> Hfu. destruct fu as [[|n]|]; [discriminate|reflexivity..].
Qed.

Lemma db_call_fail (w : world) :
  poisoned w = true \/ fails_within (fuse w) 1 = true ->
  exists fu,
    db_call w =
      (Raise StoreError,
       mkWorld (persisted w) (pending w) (poisoned w) fu (stdout w)).
Proof.
  unfold db_call. destruct w as [p q po fu o]. cbn.
  destruct po; [intros _; eauto|].
  intros [H|H]; [discriminate|].
  destruct fu as [[|n]|]; try discriminate. eauto.
Qed.

(** ** Record operations: [company_search] *)

Section Search.
Variable ilike : string -> string -> bool.

Lemma print_hits_spec (cs : list Company) :
  forall (n : nat) (w : world),
  exists ls,
    forallb search_line ls = true /\
    print_hits n cs w =
      (Ok tt, mkWorld (persisted w) (pending w) (poisoned w) (fuse w)
                      (stdout w ++ ls)).
Proof.
  induction cs as [|c cs IH]; intros n w.
  - exists []. split; [reflexivity|]. simpl. unfold ret.
    rewrite app_nil_r. now destruct w.
  - destruct (IH (S n) (mkWorld (persisted w) (pending w) (poisoned w)
                          (fuse w) (stdout w ++ [SearchHit n (name c)])))
      as (ls & Hls & Hrun).
    exists (SearchHit n (name c) :: ls). split; [exact Hls|].
    simpl. unfold bind at 1. unfold print at 1. rewrite Hrun.
    cbn [persisted pending poisoned fuse stdout].
    now rewrite <- app_assoc.
Qed.

(** What [company_search] returns and what it leaves: it only burns the
    fuse and prints. *)
Lemma company_search_fail (company_name : string) (company_idx : option Z)
    (w : world) :
  poisoned w = true \/ fails_within (fuse w) 1 = true ->
  exists fu,
    company_search ilike company_name company_idx w =
      (Raise StoreError,
       mkWorld (persisted w) (pending w) (poisoned w) fu (stdout w)).
Proof.
  intros H. unfold company_search. unfold bind at 1.
  destruct (db_call_fail w H) as (fu & ->). eauto.
Qed.

Lemma company_search_ok (company_name : string) (company_idx : option Z)
    (w : world) :
  poisoned w = false -> fails_within (fuse w) 1 = false ->
  exists ls,
    forallb search_line ls = true /\
    company_search ilike company_name company_idx w =
      (Ok (chosen (filter (name_matches ilike company_name)
                          (companies (pending w))) company_idx),
       mkWorld (persisted w) (pending w) false
               (option_map Nat.pred (fuse w)) (stdout w ++ ls)).
Proof.
  intros Epo Efu. unfold company_search. unfold bind at 1.
  rewrite (db_call_ok w Epo Efu).
  unfold bind at 1. unfold get_pending. cbn [pending].
  destruct (filter (name_matches ilike company_name) (companies (pending w)))
    as [|c0 found] eqn:Ef.
  - exists [CompanyNotFound]. split; [reflexivity|].
    cbv [bind print ret]. cbn.
    replace (chosen [] company_idx) with (@None Company); [reflexivity|].
    unfold chosen. destruct company_idx as [i|]; [|reflexivity].
    destruct ((i <? 0) || _)%Z; [reflexivity|].
    now destruct (Z.to_nat i).
  - unfold bind at 1.
    match goal with
    | |- context [print_hits 0 ?l ?w0] =>
        destruct (print_hits_spec l 0 w0) as (ls & Hls & Hrun)
    end.
    rewrite Hrun. cbn [persisted pending poisoned fuse stdout].
    unfold chosen. destruct company_idx as [i|].
    + destruct ((i <? 0) || (Z.of_nat (List.length (c0 :: found)) <=? i))%Z
        eqn:Erange.
      * exists (ls ++ [InvalidSelection]).
        split; [now rewrite forallb_app, Hls|].
        cbv [bind print ret]. cbn. now rewrite app_assoc.
      * exists ls. split; [exact Hls|]. reflexivity.
    + exists (ls ++ [InvalidInput]).
      split; [now rewrite forallb_app, Hls|].
      cbv [bind print ret]. cbn. now rewrite app_assoc.
Qed.
End Search.

Lemma chosen_some (found : list Company) (company_idx : option Z)
    (c : Company) :
  chosen found company_idx = Some c <->
  exists i, company_idx = Some i /\ (0 <= i)%Z /\
            nth_error found (Z.to_nat i) = Some c.
Proof.
  unfold chosen. split.
  - destruct company_idx as [i|]; [|discriminate].
    destruct ((i <? 0) || _)%Z eqn:E; [discriminate|].
    apply orb_false_iff in E. destruct E as (Hlo & _).
    apply Z.ltb_ge in Hlo. eauto.
  - intros (i & -> & Hlo & Hnth).
    assert (Hlt : (Z.to_nat i < List.length found)%nat)
      by (apply nth_error_Some; congruence).
    replace ((i <? 0) || _)%Z with false; [exact Hnth|].
    symmetry. apply orb_false_iff. split.
    + now apply Z.ltb_ge.
    + apply Z.leb_gt. lia.
Qed.

Lemma chosen_in (found : list Company) (company_idx : option Z)
    (c : Company) :
  chosen found company_idx = Some c -> In c found.
Proof.
  intros H. apply chosen_some in H as (i & _ & _ & H).
  now apply nth_error_In in H.
Qed.

(** ** Record operations: [delete_company] *)

Lemma search_lines_exclude (ls : list line) (l : line) :
  forallb search_line ls = true -> search_line l = false -> ~ In l ls.
Proof.
  intros Hall Hl Hin. rewrite forallb_forall in Hall.
  specialize (Hall l Hin). congruence.
Qed.

Section Delete.
Variable ilike : string -> string -> bool.

Lemma delete_company_run (company_name : string) (company_idx : option Z)
    (st : Store) (fault : option nat) :
  let found := filter (name_matches ilike company_name) (companies st) in
  let x := run (delete_company ilike company_name company_idx) st fault in
  if fails_within fault 1 then
    x = (Ok tt, st, [AnErrorOccurred StoreError; Traceback StoreError])
  else
    exists ls,
      forallb search_line ls = true /\
      match chosen found company_idx with
      | None => x = (Ok tt, st, ls)
      | Some c =>
          if fails_within fault 3 then
            x = (Ok tt, st,
                 ls ++ [AnErrorOccurred StoreError; Traceback StoreError])
          else
            x = (Ok tt,
                 mkStore (delete_row ticker (ticker c) (companies st))
                         (delete_row fticker (ticker c) (financial st)),
                 ls ++ [CompanyDeleted])
      end.
Proof.
  intros found x.
  assert (Hfail : fails_within fault 1 = true ->
                  x = (Ok tt, st,
                       [AnErrorOccurred StoreError; Traceback StoreError])).
  { intros Efu. subst x.
    unfold run, delete_company, with_session, try_except.
    unfold bind at 1. cbn [persisted fuse stdout].
    destruct (company_search_fail ilike company_name company_idx
                (mkWorld st st false fault []) (or_intror Efu))
      as (fu & Hrun).
    rewrite Hrun. reflexivity. }
  destruct (fails_within fault 1) eqn:Efu; [now apply Hfail|].
  destruct (company_search_ok ilike company_name company_idx
              (mkWorld st st false fault []) eq_refl Efu)
    as (ls & Hls & Hrun).
  exists ls. split; [exact Hls|].
  cbn [persisted pending poisoned fuse stdout app] in Hrun.
  fold found in Hrun.
  assert (Hx : x =
    let (r, w') :=
      try_except
        (match chosen found company_idx with
         | Some c => session_delete c ;; session_commit ;; print CompanyDeleted
         | None => ret tt
         end)
        (fun e => session_rollback ;; print (AnErrorOccurred e) ;;
                  print (Traceback e))
        (mkWorld st st false (option_map Nat.pred fault) ls) in
    (r, persisted w', stdout w')).
  { subst x. unfold run, delete_company, with_session, try_except.
    unfold bind at 1. cbn [persisted fuse stdout]. rewrite Hrun.
    destruct (chosen found company_idx); cbn beta iota;
      match goal with
      | |- context [?m (mkWorld st st false ?f ls)] =>
          destruct (m (mkWorld st st false f ls)) as [[? | ?] ?]
      end; reflexivity. }
  rewrite Hx. clear Hx Hrun Hfail.
  destruct (chosen found company_idx) as [c|]; [|reflexivity].
  destruct fault as [[|[|[|n]]]|]; try discriminate; cbn;
    rewrite <- ?app_assoc; reflexivity.
Qed.
End Delete.

(** ** Ratio engine: one ratio *)

Lemma truthy_false (x : option float) :
  truthy x = false <->
  x = None \/ exists d, x = Some d /\ (d =? 0)%float = true.
Proof.
  unfold truthy. destruct x as [d|].
  - rewrite negb_false_iff. split.
    + intros H. right. eauto.
    + intros [H|(d' & [= <-] & H)]; [discriminate|exact H].
  - split; auto.
Qed.

Lemma ratio_unknown (num den : option float) :
  truthy den = false -> ratio num den = Ok None.
Proof. unfold ratio. now intros ->. Qed.

Lemma ratio_value (n d : float) :
  (d =? 0)%float = false -> ratio (Some n) (Some d) = Ok (Some (n / d)%float).
Proof. unfold ratio, truthy, truediv. now intros ->. Qed.

Lemma ratio_type_error (den : option float) :
  truthy den = true -> ratio None den = Raise TypeError.
Proof. unfold ratio. now intros ->. Qed.

Lemma ratio_cases (num den : option float) :
  ratio num den = Ok None \/
  (exists n d, num = Some n /\ den = Some d /\ (d =? 0)%float = false /\
               ratio num den = Ok (Some (n / d)%float)) \/
  (num = None /\ truthy den = true /\ ratio num den = Raise TypeError).
Proof.
  destruct (truthy den) eqn:Et.
  - destruct num as [n|].
    + right. left. unfold truthy in Et. destruct den as [d|]; [|discriminate].
      apply negb_true_iff in Et. exists n, d.
      repeat split; auto. now apply ratio_value.
    + right. right. repeat split. now apply ratio_type_error.
  - left. now apply ratio_unknown.
Qed.

Lemma ratio_never_divides_by_zero (num den : option float) :
  ratio num den <> Raise ZeroDivisionError.
Proof.
  destruct (ratio_cases num den) as [H|[(n & d & _ & _ & _ & H)|(_ & _ & H)]];
    rewrite H; discriminate.
Qed.

(** ** Ratio engine: the seven ratios of a record *)

Ltac split_ratios :=
  repeat match goal with
    | |- context [obind (ratio ?n ?d) _] =>
        let E := fresh "E" in
        destruct (ratio_cases n d) as [E|[(? & ? & ? & ? & ? & E)|(? & ? & E)]];
        rewrite E; cbn [obind]
    end.

Lemma calculate_ratios_cases (f : Financial) :
  (exists r, calculate_ratios f = Ok r) \/ calculate_ratios f = Raise TypeError.
Proof.
  unfold calculate_ratios. split_ratios; eauto.
Qed.

Lemma calculate_ratios_shown (f : Financial) (r : ratios) (c : Company) :
  calculate_ratios f = Ok r ->
  forall label num den,
    In (label, num, den) ratio_columns ->
    exists v, ratio (num f) (den f) = Ok v /\
              In (RatioLine label v) (ratio_lines c r).
Proof.
  unfold calculate_ratios. intros H label num den Hin.
  destruct (ratio (market_price f) (net_profit f)) as [pe|] eqn:E1;
    cbn [obind] in H; [|discriminate].
  destruct (ratio (market_price f) (sales f)) as [ps|] eqn:E2;
    cbn [obind] in H; [|discriminate].
  destruct (ratio (market_price f) (assets f)) as [pb|] eqn:E3;
    cbn [obind] in H; [|discriminate].
  destruct (ratio (net_debt f) (ebitda f)) as [nd|] eqn:E4;
    cbn [obind] in H; [|discriminate].
  destruct (ratio (net_profit f) (equity f)) as [roe|] eqn:E5;
    cbn [obind] in H; [|discriminate].
  destruct (ratio (net_profit f) (assets f)) as [roa|] eqn:E6;
    cbn [obind] in H; [|discriminate].
  destruct (ratio (liabilities f) (assets f)) as [la|] eqn:E7;
    cbn [obind] in H; [|discriminate].
  injection H as <-. unfold ratio_lines. cbn [pe_ratio ps_ratio pb_ratio
    nd_ebitda_ratio roe_ratio roa_ratio la_ratio].
  cbn in Hin.
  repeat (destruct Hin as [[= <- <- <-]|Hin];
          [eexists; split; [eassumption|cbn; tauto]|]).
  contradiction.
Qed.

Lemma calculate_ratios_type_error (f : Financial) :
  (exists label num den,
     In (label, num, den) ratio_columns /\
     num f = None /\ truthy (den f) = true) ->
  calculate_ratios f = Raise TypeError.
Proof.
  intros (label & num & den & Hin & Hnum & Hden).
  destruct (calculate_ratios_cases f) as [(r & Hr)|H]; [|exact H].
  exfalso.
  destruct (calculate_ratios_shown f r (mkCompany "" None None) Hr
              label num den Hin) as (v & Hv & _).
  rewrite Hnum, (ratio_type_error _ Hden) in Hv. discriminate.
Qed.

Lemma calculate_ratios_total (f : Financial) :
  (forall label num den,
     In (label, num, den) ratio_columns ->
     truthy (den f) = true -> num f <> None) ->
  exists r, calculate_ratios f = Ok r.
Proof.
  intros Hall. unfold calculate_ratios.
  assert (H : forall label num den,
             In (label, num, den) ratio_columns ->
             exists v, ratio (num f) (den f) = Ok v).
  { intros label num den Hin.
    destruct (ratio_cases (num f) (den f))
      as [E|[(n & d & _ & _ & _ & E)|(Hn & Hd & _)]]; eauto.
    exfalso. exact (Hall label num den Hin Hd Hn). }
  destruct (H "P/E" market_price net_profit) as (pe & ->); [cbn; tauto|].
  destruct (H "P/S" market_price sales) as (ps & ->); [cbn; tauto|].
  destruct (H "P/B" market_price assets) as (pb & ->); [cbn; tauto|].
  destruct (H "ND/EBITDA" net_debt ebitda) as (nd & ->); [cbn; tauto|].
  destruct (H "ROE" net_profit equity) as (roe & ->); [cbn; tauto|].
  destruct (H "ROA" net_profit assets) as (roa & ->); [cbn; tauto|].
  destruct (H "L/A" liabilities assets) as (la & ->); [cbn; tauto|].
  cbn. eauto.
Qed.

(** ** Record operations: [read_company] *)

Lemma print_ratios_run (c : Company) (r : ratios) (w : world) :
  print_ratios c r w =
    (Ok tt, mkWorld (persisted w) (pending w) (poisoned w) (fuse w)
                    (stdout w ++ ratio_lines c r)).
Proof.
  unfold print_ratios, ratio_lines. cbv [bind print]. cbn.
  now rewrite <- !app_assoc.
Qed.

Section Read.
Variable ilike : string -> string -> bool.

(** Every run of [read_company], by what the store and the record allow. *)
Lemma read_company_run (company_name : string) (company_idx : option Z)
    (st : Store) (fault : option nat) :
  let found := filter (name_matches ilike company_name) (companies st) in
  let x := run (read_company ilike company_name company_idx) st fault in
  if fails_within fault 1 then
    x = (Ok tt, st, [AnErrorOccurred StoreError])
  else
    exists ls,
      forallb search_line ls = true /\
      match chosen found company_idx with
      | None => x = (Ok tt, st, ls)
      | Some c =>
          if fails_within fault 2 then
            x = (Ok tt, st, ls ++ [AnErrorOccurred StoreError])
          else
            match find_row fticker (ticker c) (financial st) with
            | None => x = (Ok tt, st, ls ++ [NoFinancialData])
            | Some f =>
                match calculate_ratios f with
                | Ok r => x = (Ok tt, st, ls ++ ratio_lines c r)
                | Raise ZeroDivisionError =>
                    x = (Ok tt, st, ls ++ [DivisionByZero])
                | Raise e => x = (Ok tt, st, ls ++ [AnErrorOccurred e])
                end
            end
      end.
Proof.
  intros found x.
  assert (Hfail : fails_within fault 1 = true ->
                  x = (Ok tt, st, [AnErrorOccurred StoreError])).
  { intros Efu. subst x.
    unfold run, read_company, with_session, try_except.
    unfold bind at 1. cbn [persisted fuse stdout].
    destruct (company_search_fail ilike company_name company_idx
                (mkWorld st st false fault []) (or_intror Efu))
      as (fu & Hrun).
    rewrite Hrun. reflexivity. }
  destruct (fails_within fault 1) eqn:Efu; [now apply Hfail|].
  destruct (company_search_ok ilike company_name company_idx
              (mkWorld st st false fault []) eq_refl Efu)
    as (ls & Hls & Hrun).
  exists ls. split; [exact Hls|].
  cbn [persisted pending poisoned fuse stdout app] in Hrun.
  fold found in Hrun.
  destruct (chosen found company_idx) as [c|] eqn:Ec.
  2:{ subst x. unfold run, read_company, with_session, try_except.
      unfold bind at 1. cbn [persisted fuse stdout]. rewrite Hrun.
      reflexivity. }
  destruct (fails_within fault 2) eqn:Efu2.
  { subst x. unfold run, read_company, with_session, try_except.
    unfold bind at 1. cbn [persisted fuse stdout]. rewrite Hrun.
    destruct fault as [[|[|n]]|]; try discriminate. reflexivity. }
  assert (Hq : query_financial_first (ticker c)
                 (mkWorld st st false (option_map Nat.pred fault) ls) =
               (Ok (find_row fticker (ticker c) (financial st)),
                mkWorld st st false
                        (option_map Nat.pred (option_map Nat.pred fault)) ls)).
  { destruct fault as [[|[|n]]|]; try discriminate; reflexivity. }
  destruct (find_row fticker (ticker c) (financial st)) as [f|] eqn:Ef.
  2:{ subst x. unfold run, read_company, with_session, try_except.
      unfold bind at 1. cbn [persisted fuse stdout]. rewrite Hrun.
      unfold bind at 1. rewrite Hq. reflexivity. }
  destruct (calculate_ratios f) as [r|e] eqn:Er.
  - subst x. unfold run, read_company, with_session, try_except.
    unfold bind at 1. cbn [persisted fuse stdout]. rewrite Hrun.
    unfold bind at 1. rewrite Hq.
    unfold bind at 1. unfold bind at 1. unfold lift at 1. rewrite Er.
    unfold ret at 1. rewrite print_ratios_run. reflexivity.
  - destruct e; subst x;
      unfold run, read_company, with_session, try_except;
      unfold bind at 1; cbn [persisted fuse stdout]; rewrite Hrun;
      unfold bind at 1; rewrite Hq;
      unfold bind at 1; unfold bind at 1; unfold lift at 1; rewrite Er;
      reflexivity.
Qed.
End Read.

Lemma read_never_reports_division (ilike : string -> string -> bool)
    (company_name : string) (company_idx : option Z) (st : Store)
    (fault : option nat) :
  ~ In DivisionByZero
       (console_of (run (read_company ilike company_name company_idx)
                        st fault)).
Proof.
  pose proof (read_company_run ilike company_name company_idx st fault) as H.
  cbv zeta in H.
  destruct (fails_within fault 1).
  { rewrite H. cbn. intros [E|[]]; discriminate. }
  destruct H as (ls & Hls & H).
  assert (Hno : ~ In DivisionByZero ls)
    by (apply search_lines_exclude; auto).
  assert (Hone : forall l, l <> DivisionByZero ->
                           ~ In DivisionByZero (ls ++ [l])).
  { intros l Hl Hin. apply in_app_or in Hin.
    destruct Hin as [Hin|[Hin|[]]]; [auto|congruence]. }
  destruct (chosen _ company_idx) as [c|]; [|now rewrite H].
  destruct (fails_within fault 2);
    [rewrite H; apply Hone; discriminate|].
  destruct (find_row fticker (ticker c) (financial st)) as [f|];
    [|rewrite H; apply Hone; discriminate].
  pose proof (ratio_never_divides_by_zero) as Hz.
  destruct (calculate_ratios_cases f) as [(r & Hr)|Hr]; rewrite Hr in H.
  - rewrite H. cbn [console_of snd]. intros Hin. apply in_app_or in Hin.
    destruct Hin as [Hin|Hin]; [auto|].
    cbn in Hin. repeat (destruct Hin as [Hin|Hin]; [discriminate|]).
    contradiction.
  - rewrite H. apply Hone. discriminate.
Qed.

(** What the guard of the seven ratios does cover.  For every Financial
    record and each ratio: when the denominator is unknown or equal to zero
    the expression is [None]; when the denominator is known and not zero
    and the numerator is known, it is numerator / denominator; no ratio,
    and so no read, ever meets a division by zero.  A read that reaches the
    record of a company whose needed numerators are all known shows, under
    each label, the value so computed. *)
Lemma ratios_guard_the_denominator
    (ilike : string -> string -> bool) (f : Financial)
    (company_name : string) (company_idx : option Z) (st : Store)
    (fault : option nat) :
  (forall label num den,
     In (label, num, den) ratio_columns ->
     (den f = None \/ (exists d, den f = Some d /\ (d =? 0)%float = true) ->
      ratio (num f) (den f) = Ok None) /\
     (forall n d,
        num f = Some n -> den f = Some d -> (d =? 0)%float = false ->
        ratio (num f) (den f) = Ok (Some (n / d)%float)) /\
     ratio (num f) (den f) <> Raise ZeroDivisionError) /\
  calculate_ratios f <> Raise ZeroDivisionError /\
  (let x := run (read_company ilike company_name company_idx) st fault in
   ~ In DivisionByZero (console_of x) /\
   forall c,
     chosen (filter (name_matches ilike company_name) (companies st))
            company_idx = Some c ->
     find_row fticker (ticker c) (financial st) = Some f ->
     fails_within fault 2 = false ->
     (forall label num den,
        In (label, num, den) ratio_columns ->
        truthy (den f) = true -> num f <> None) ->
     result_of x = Ok tt /\
     forall label num den,
       In (label, num, den) ratio_columns ->
       exists v, ratio (num f) (den f) = Ok v /\
                 In (RatioLine label v) (console_of x)).
Proof.
  split; [|split; [|split]].
  - intros label num den _. split; [|split].
    + intros H. apply ratio_unknown. now apply truthy_false.
    + intros n d -> ->. apply ratio_value.
    + apply ratio_never_divides_by_zero.
  - destruct (calculate_ratios_cases f) as [(r & Hr)|Hr]; rewrite Hr;
      discriminate.
  - apply read_never_reports_division.
  - intros c Hc Hf Hfault Hknown.
    pose proof (read_company_run ilike company_name company_idx st fault) as H.
    cbv zeta in H.
    assert (Hfault1 : fails_within fault 1 = false)
      by (destruct fault as [[|[|n]]|]; auto; discriminate).
    rewrite Hfault1, Hc, Hfault, Hf in H.
    destruct H as (ls & Hls & H).
    destruct (calculate_ratios_total f Hknown) as (r & Hr).
    rewrite Hr in H. rewrite H. split; [reflexivity|].
    intros label num den Hin.
    destruct (calculate_ratios_shown f r c Hr label num den Hin)
      as (v & Hv & Hshown).
    exists v. split; [exact Hv|].
    cbn [console_of snd]. apply in_or_app. now right.
Qed.

(** C9. When the record of the selected company has, for some ratio, no
    numerator while the denominator is known and not zero, [read_company]
    ends normally having reported an error and shown no ratio at all, not
    even the ones it could compute; unless the store itself fails first, the
    error is the [TypeError] of dividing [None], printed after the search
    lines.  The store is untouched. *)
Theorem C9_unknown_numerator_aborts_read
    (ilike : string -> string -> bool) (st : Store)
    (company_name : string) (company_idx : option Z) (fault : option nat)
    (c : Company) (f : Financial) :
  chosen (filter (name_matches ilike company_name) (companies st))
         company_idx = Some c ->
  find_row fticker (ticker c) (financial st) = Some f ->
  (exists label num den,
     In (label, num, den) ratio_columns /\
     num f = None /\
     exists d, den f = Some d /\ (d =? 0)%float = false) ->
  let x := run (read_company ilike company_name company_idx) st fault in
  result_of x = Ok tt /\
  store_of x = st /\
  (forall l, In l (console_of x) -> ratio_line l = false) /\
  (exists e, In (AnErrorOccurred e) (console_of x)) /\
  (fails_within fault 2 = false ->
   exists ls, forallb search_line ls = true /\
              console_of x = ls ++ [AnErrorOccurred TypeError]).
Proof.
  intros Hc Hf (label & num & den & Hin & Hnum & d & Hden & Hd) x.
  assert (Hr : calculate_ratios f = Raise TypeError).
  { apply calculate_ratios_type_error. exists label, num, den.
    repeat split; auto. rewrite Hden. unfold truthy. now rewrite Hd. }
  pose proof (read_company_run ilike company_name company_idx st fault) as H.
  cbv zeta in H. fold x in H.
  assert (Hsearch : forall ls l, forallb search_line ls = true ->
            In l ls -> ratio_line l = false).
  { intros ls l Hls Hl. rewrite forallb_forall in Hls.
    specialize (Hls l Hl). now destruct l. }
  destruct (fails_within fault 1) eqn:E1.
  { rewrite H. cbn. repeat split.
    - intros l [<- | []]. reflexivity.
    - eauto.
    - destruct fault as [[|[|n]]|]; discriminate. }
  destruct H as (ls & Hls & H). rewrite Hc in H.
  assert (Hshape : exists e, x = (Ok tt, st, ls ++ [AnErrorOccurred e]) /\
                             (fails_within fault 2 = false -> e = TypeError)).
  { destruct (fails_within fault 2).
    - exists StoreError. split; [exact H|discriminate].
    - rewrite Hf, Hr in H. exists TypeError. auto. }
  destruct Hshape as (e & Hx & He). rewrite Hx. cbn [result_of store_of
    console_of fst snd].
  repeat split.
  - intros l Hl. apply in_app_or in Hl. destruct Hl as [Hl|[<- | []]].
    + now apply (Hsearch ls).
    + reflexivity.
  - exists e. apply in_or_app. right. now left.
  - intros H2. exists ls. split; [exact Hls|]. now rewrite (He H2).
Qed.

(** ** Order of binary64 values *)

Ltac sf_cases :=
  repeat match goal with
    | x : spec_float |- _ => destruct x
    end;
  repeat match goal with
    | s : bool |- _ => destruct s
    end;
  cbn [SFleb SFltb SFeqb SFcompare CompOpp] in *;
  try congruence;
  change (PosDef.Pos.compare_cont Eq) with Pos.compare in *;
  repeat match goal with
    | H : context [(?a ?= ?b)%Z] |- _ =>
        destruct (Z.compare_spec a b); cbn [CompOpp] in *; try congruence
    | |- context [(?a ?= ?b)%Z] =>
        destruct (Z.compare_spec a b); cbn [CompOpp] in *; try congruence
    | H : context [Pos.compare ?a ?b] |- _ =>
        destruct (Pos.compare_spec a b); cbn [CompOpp] in *; try congruence
    | |- context [Pos.compare ?a ?b] =>
        destruct (Pos.compare_spec a b); cbn [CompOpp] in *; try congruence
    end;
  try congruence; try lia.

Lemma SFleb_trans (x y z : spec_float) :
  SFleb x y = true -> SFleb y z = true -> SFleb x z = true.
Proof. intros Hxy Hyz. sf_cases. Qed.

Lemma SFltb_leb (x y : spec_float) : SFltb x y = true -> SFleb x y = true.
Proof. intros H. sf_cases. Qed.

Lemma SFleb_total (x y : spec_float) :
  SFeqb x x = true -> SFeqb y y = true ->
  SFltb x y = false -> SFleb y x = true.
Proof. intros Hx Hy H. sf_cases. Qed.

Lemma SFeqb_not_ltb (x y v : spec_float) :
  SFeqb x v = true -> SFeqb y v = true -> SFltb x y = false.
Proof. intros Hx Hy. sf_cases. Qed.

Lemma float_leb_trans (x y z : float) :
  (x <=? y)%float = true -> (y <=? z)%float = true -> (x <=? z)%float = true.
Proof. rewrite !leb_spec. apply SFleb_trans. Qed.

Lemma float_ltb_leb (x y : float) :
  (x <? y)%float = true -> (x <=? y)%float = true.
Proof. rewrite ltb_spec, leb_spec. apply SFltb_leb. Qed.

Lemma float_leb_total (x y : float) :
  is_nan x = false -> is_nan y = false ->
  (x <? y)%float = false -> (y <=? x)%float = true.
Proof.
  unfold is_nan. rewrite !negb_false_iff, !eqb_spec, ltb_spec, leb_spec.
  apply SFleb_total.
Qed.

Lemma float_tied_not_ltb (x y v : float) :
  (x =? v)%float = true -> (y =? v)%float = true -> (x <? y)%float = false.
Proof. rewrite !eqb_spec, ltb_spec. apply SFeqb_not_ltb. Qed.

(** ** Ranking: the stable descending sort *)

Lemma insert_desc_perm (x : string * float) (l : list (string * float)) :
  Permutation (insert_desc x l) (x :: l).
Proof.
  induction l as [|y rest IH]; simpl; [reflexivity|].
  destruct (snd x <? snd y)%float.
  - rewrite IH. apply perm_swap.
  - reflexivity.
Qed.

Lemma sort_desc_perm (l : list (string * float)) :
  Permutation (sort_desc l) l.
Proof.
  induction l as [|x rest IH]; simpl; [reflexivity|].
  rewrite insert_desc_perm. now constructor.
Qed.

Lemma insert_desc_descending (x : string * float)
    (l : list (string * float)) :
  is_nan (snd x) = false ->
  Forall (fun tv => is_nan (snd tv) = false) l ->
  descending l -> descending (insert_desc x l).
Proof.
  unfold descending. intros Hx Hl Hs.
  induction Hs as [|y rest Hs IH Hy]; simpl.
  - repeat constructor.
  - inversion Hl as [|? ? Hny Hrest]; subst.
    destruct (snd x <? snd y)%float eqn:E.
    + constructor; [now apply IH|].
      apply (Permutation_Forall (x := x :: rest)).
      * symmetry. apply insert_desc_perm.
      * constructor; [now apply float_ltb_leb|exact Hy].
    + assert (Hyx : (snd y <=? snd x)%float = true)
        by (now apply float_leb_total).
      constructor; [now constructor|].
      constructor; [exact Hyx|].
      eapply Forall_impl; [|exact Hy].
      intros z Hz. cbv beta in *. eapply float_leb_trans; eassumption.
Qed.

Lemma sort_desc_descending (l : list (string * float)) :
  Forall (fun tv => is_nan (snd tv) = false) l -> descending (sort_desc l).
Proof.
  induction 1 as [|x rest Hx Hrest IH]; simpl.
  - constructor.
  - apply insert_desc_descending; [exact Hx| |exact IH].
    apply (Permutation_Forall (x := rest)); [|exact Hrest].
    symmetry. apply sort_desc_perm.
Qed.

Lemma descending_firstn (n : nat) (l : list (string * float)) :
  descending l -> descending (firstn n l).
Proof.
  unfold descending. intros Hs. revert n.
  induction Hs as [|y rest Hs IH Hy]; intros [|n]; simpl; try constructor.
  - apply IH.
  - apply Forall_forall. intros z Hz.
    rewrite Forall_forall in Hy. apply Hy.
    rewrite <- (firstn_skipn n rest). apply in_or_app. now left.
Qed.

Lemma insert_desc_stable (v : float) (x : string * float)
    (l : list (string * float)) :
  filter (tied_with v) (insert_desc x l) = filter (tied_with v) (x :: l).
Proof.
  induction l as [|y rest IH]; [reflexivity|].
  cbn [insert_desc]. destruct (snd x <? snd y)%float eqn:E; [|reflexivity].
  cbn [filter] in *. rewrite IH.
  destruct (tied_with v x) eqn:Ex, (tied_with v y) eqn:Ey; try reflexivity.
  unfold tied_with in Ex, Ey.
  rewrite (float_tied_not_ltb _ _ _ Ex Ey) in E. discriminate.
Qed.

Lemma sort_desc_stable (v : float) (l : list (string * float)) :
  filter (tied_with v) (sort_desc l) = filter (tied_with v) l.
Proof.
  induction l as [|x rest IH]; [reflexivity|].
  cbn [sort_desc fold_right]. fold (sort_desc rest).
  rewrite insert_desc_stable. cbn [filter]. now rewrite IH.
Qed.

Lemma filter_firstn_prefix {A : Type} (p : A -> bool) (n : nat)
    (l : list A) :
  exists rest, filter p l = filter p (firstn n l) ++ rest.
Proof.
  exists (filter p (skipn n l)).
  now rewrite <- filter_app, firstn_skipn.
Qed.

(** ** Ranking: [calculate_top_ten] *)

Lemma for_each_print {A : Type} (g : A -> line) (l : list A) :
  forall w,
    for_each l (fun a => print (g a)) w =
      (Ok tt, mkWorld (persisted w) (pending w) (poisoned w) (fuse w)
                      (stdout w ++ map g l)).
Proof.
  induction l as [|a rest IH]; intros w; simpl.
  - unfold ret. rewrite app_nil_r. now destruct w.
  - unfold bind at 1. unfold print at 1. rewrite IH.
    cbn [persisted pending poisoned fuse stdout].
    now rewrite <- app_assoc.
Qed.

(** The comprehension never raises: it keeps, in query order, the rows both
    of whose columns are truthy, each with its quotient. *)
Lemma comprehension_spec (num den : Financial -> option float)
    (rows : list Financial) :
  exists results,
    comprehension num den rows = Ok results /\
    Forall2
      (fun row tv =>
         fst tv = fticker row /\
         exists n d,
           num row = Some n /\ den row = Some d /\
           (n =? 0)%float = false /\ (d =? 0)%float = false /\
           snd tv = (n / d)%float)
      (filter (eligible num den) rows) results.
Proof.
  induction rows as [|row rest (results & Hrun & Hall)];
    [exists []; split; [reflexivity|constructor]|].
  cbn [comprehension filter]. unfold eligible at 1.
  destruct (truthy (num row)) eqn:En; cbn [andb]; [|eauto].
  destruct (truthy (den row)) eqn:Ed; [|eauto].
  unfold truthy in En, Ed.
  destruct (num row) as [n|] eqn:Hn; [|discriminate].
  destruct (den row) as [d|] eqn:Hd; [|discriminate].
  apply negb_true_iff in En, Ed.
  unfold truediv. rewrite Ed. cbn [obind]. rewrite Hrun. cbn [obind].
  exists ((fticker row, (n / d)%float) :: results).
  split; [reflexivity|]. constructor; [|exact Hall].
  split; [reflexivity|]. exists n, d. auto.
Qed.

Section Ranking.
Context {list_sort : sort_function}.

Lemma calculate_top_ten_invalid (metric : string) (st : Store)
    (fault : option nat) :
  metric_columns metric = None ->
  run (calculate_top_ten list_sort metric) st fault = (Ok tt, st, [InvalidMetric]).
Proof.
  intros H. unfold run, calculate_top_ten, with_session, try_except.
  rewrite H. reflexivity.
Qed.

Lemma calculate_top_ten_fails (metric header : string)
    (num den : Financial -> option float) (st : Store) (fault : option nat) :
  metric_columns metric = Some (header, num, den) ->
  fails_within fault 1 = true ->
  run (calculate_top_ten list_sort metric) st fault =
    (Ok tt, st, [ErrorCalculating metric StoreError; Traceback StoreError]).
Proof.
  intros H Hf. unfold run, calculate_top_ten, with_session, try_except.
  rewrite H. destruct fault as [[|n]|]; try discriminate. reflexivity.
Qed.

Lemma calculate_top_ten_ok (metric header : string)
    (num den : Financial -> option float) (st : Store) (fault : option nat)
    (results : list (string * float)) :
  metric_columns metric = Some (header, num, den) ->
  fails_within fault 1 = false ->
  comprehension num den (financial st) = Ok results ->
  run (calculate_top_ten list_sort metric) st fault =
    (Ok tt, st,
     TopTenHeader header :: map top_ten_row (firstn 10 (list_sort results))).
Proof.
  intros H Hf Hres. unfold run, calculate_top_ten, with_session, try_except.
  rewrite H. cbn [persisted fuse stdout].
  unfold bind at 1.
  assert (Hq : query_financial_all (mkWorld st st false fault []) =
               (Ok (financial st),
                mkWorld st st false (option_map Nat.pred fault) [])).
  { destruct fault as [[|n]|]; try discriminate; reflexivity. }
  rewrite Hq. unfold bind at 1. unfold lift at 1. rewrite Hres.
  unfold bind at 1. unfold print at 1.
  cbn [persisted pending poisoned fuse stdout app].
  rewrite (for_each_print top_ten_row). reflexivity.
Qed.
End Ranking.

Lemma metric_columns_known (metric : string) :
  In metric ["ND/EBITDA"; "ROE"; "ROA"] ->
  metric_columns metric = Some ("ND/EBITDA", net_debt, ebitda) \/
  metric_columns metric = Some ("ROE", net_profit, equity) \/
  metric_columns metric = Some ("ROA", net_profit, assets).
Proof.
  intros [<-|[<-|[<-|[]]]]; cbn; auto.
Qed.

(** The insertion sort does what Python promises of [list.sort]. *)
Lemma sort_desc_sorts : python_sort sort_desc.
Proof.
  intros l. split; [apply sort_desc_perm|].
  intros Hnan. split; [now apply sort_desc_descending|].
  intros v. apply sort_desc_stable.
Qed.

(** In a descending list any two entries at different places compare. *)
Lemma descending_comparable (l : list (string * float))
    (x y : string * float) :
  descending l -> In x l -> In y l -> x <> y ->
  (snd y <=? snd x)%float = true \/ (snd x <=? snd y)%float = true.
Proof.
  unfold descending. intros Hs.
  induction Hs as [|a rest Hs IH Ha]; intros Hx Hy Hne; [destruct Hx|].
  rewrite Forall_forall in Ha.
  destruct Hx as [<-|Hx], Hy as [<-|Hy].
  - now contradiction Hne.
  - left. now apply Ha.
  - right. now apply Ha.
  - now apply IH.
Qed.

(** C3. For a metric among ND/EBITDA, ROE and ROA, when the query succeeds
    [calculate_top_ten] prints the header and then at most ten (ticker,
    value) rows: the first ten entries of the list of quotients as
    [list.sort] leaves it, which is a rearrangement of the quotients.
    Provided no quotient is a NaN, each entry's value is at least the value
    of every later entry, and entries with equal values keep the order the
    query gave them, also among the rows printed. *)
Theorem C3_top_ten_sorted
    (list_sort : sort_function) (metric : string) (st : Store)
    (fault : option nat) :
  python_sort list_sort ->
  In metric ["ND/EBITDA"; "ROE"; "ROA"] ->
  fails_within fault 1 = false ->
  exists header num den results ranking,
    metric_columns metric = Some (header, num, den) /\
    comprehension num den (financial st) = Ok results /\
    run (calculate_top_ten list_sort metric) st fault =
      (Ok tt, st, TopTenHeader header :: map top_ten_row ranking) /\
    ranking = firstn 10 (list_sort results) /\
    List.length ranking <= 10 /\
    Permutation (list_sort results) results /\
    (no_nan results ->
     descending (list_sort results) /\ descending ranking /\
     (forall v,
        filter (tied_with v) (list_sort results) =
        filter (tied_with v) results) /\
     (forall v, exists rest,
        filter (tied_with v) results = filter (tied_with v) ranking ++ rest)).
Proof.
  intros Hsort Hmetric Hfault.
  assert (Hcols : exists header num den,
             metric_columns metric = Some (header, num, den)).
  { destruct (metric_columns_known metric Hmetric) as [H|[H|H]]; eauto. }
  destruct Hcols as (header & num & den & Hcols).
  destruct (comprehension_spec num den (financial st))
    as (results & Hres & _).
  destruct (Hsort results) as (Hperm & Hordered).
  exists header, num, den, results, (firstn 10 (list_sort results)).
  split; [exact Hcols|]. split; [exact Hres|].
  split; [now apply (calculate_top_ten_ok metric header num den)|].
  split; [reflexivity|]. split; [apply firstn_le_length|].
  split; [exact Hperm|].
  intros Hnan. destruct (Hordered Hnan) as (Hdesc & Hties).
  split; [exact Hdesc|]. split; [now apply descending_firstn|].
  split; [exact Hties|].
  intros v. rewrite <- (Hties v). apply filter_firstn_prefix.
Qed.

(** With a NaN among the quotients no order of the rows is descending:
    [nan_store] holds a company whose net debt and EBITDA are both
    infinite, next to three ordinary ones. *)
Lemma C3_counterexample :
  python_sort sort_desc /\
  forall list_sort : sort_function,
    python_sort list_sort ->
    exists ranking,
      run (calculate_top_ten list_sort "ND/EBITDA") nan_store None =
        (Ok tt, nan_store,
         TopTenHeader "ND/EBITDA" :: map top_ten_row ranking) /\
      List.length ranking = 4 /\
      ~ descending ranking.
Proof.
  split; [exact sort_desc_sorts|].
  intros list_sort Hsort.
  set (results := [("A", 1%float); ("B", nan); ("C", 1%float);
                   ("D", 2%float)]).
  destruct (Hsort results) as (Hperm & _).
  assert (Hlen : List.length (list_sort results) = 4)
    by exact (Permutation_length Hperm).
  exists (list_sort results).
  split; [|split; [exact Hlen|]].
  - rewrite (calculate_top_ten_ok "ND/EBITDA" "ND/EBITDA" net_debt ebitda
               nan_store None results); try reflexivity.
    rewrite firstn_all2 by (rewrite Hlen; repeat constructor).
    reflexivity.
  - intros Hdesc.
    destruct (descending_comparable (list_sort results)
                ("B", nan) ("D", 2%float) Hdesc) as [H|H];
      try discriminate H.
    + apply (Permutation_in _ (Permutation_sym Hperm)). cbn. tauto.
    + apply (Permutation_in _ (Permutation_sym Hperm)). cbn. tauto.
    + discriminate.
Qed.

(** C2, on the input where the code departs from it.  [flat_store] holds a
    company whose net debt and net profit are known and equal to zero while
    its EBITDA, equity and assets are known and not zero.  Each of the three
    rankings leaves that company out and lists only the other one, although
    the ratio itself is computable: [read_company] shows 0 for it. *)
Theorem C2_zero_numerator_is_left_out :
  (net_debt flat = Some 0%float /\ truthy (ebitda flat) = true /\
   net_profit flat = Some 0%float /\ truthy (equity flat) = true /\
   truthy (assets flat) = true) /\
  run (calculate_top_ten sort_desc "ND/EBITDA") flat_store None =
    (Ok tt, flat_store,
     [TopTenHeader "ND/EBITDA"; TopTenRow "GAIN" 0.5%float]) /\
  run (calculate_top_ten sort_desc "ROE") flat_store None =
    (Ok tt, flat_store, [TopTenHeader "ROE"; TopTenRow "GAIN" 0.5%float]) /\
  run (calculate_top_ten sort_desc "ROA") flat_store None =
    (Ok tt, flat_store, [TopTenHeader "ROA"; TopTenRow "GAIN" 0.125%float]) /\
  ratio (net_debt flat) (ebitda flat) = Ok (Some 0%float) /\
  ratio (net_profit flat) (equity flat) = Ok (Some 0%float) /\
  ratio (net_profit flat) (assets flat) = Ok (Some 0%float) /\
  In (RatioLine "ROE" (Some 0%float))
     (console_of (run (read_company like "flat" (Some 0%Z)) flat_store None)).
Proof.
  repeat split; try reflexivity.
  vm_compute. tauto.
Qed.

(** ** Record operations: [update_company] never touches the Company table *)

Lemma update_company_companies (ilike : string -> string -> bool)
    (company_name : string) (company_idx : option Z)
    (e s np mp nd a eq ce l : float) (st : Store) (fault : option nat) :
  companies (store_of (run (update_company ilike company_name company_idx
                                           e s np mp nd a eq ce l) st fault))
  = companies st.
Proof.
  unfold run, update_company, with_session, try_except.
  unfold bind at 1. cbn [persisted fuse stdout].
  destruct (fails_within fault 1) eqn:Efu.
  - destruct (company_search_fail ilike company_name company_idx
                (mkWorld st st false fault []) (or_intror Efu))
      as (fu & Hrun).
    rewrite Hrun. reflexivity.
  - destruct (company_search_ok ilike company_name company_idx
                (mkWorld st st false fault []) eq_refl Efu)
      as (ls & Hls & Hrun).
    rewrite Hrun. cbn [persisted pending poisoned fuse stdout app].
    destruct (chosen _ company_idx) as [c|]; [|reflexivity].
    unfold bind at 1. unfold query_financial_first.
    destruct fault as [[|[|[|n]]]|]; try discriminate;
      cbv [bind db_call get_pending ret];
      cbn [persisted pending poisoned fuse stdout option_map Nat.pred];
      try reflexivity;
      destruct (find_row fticker (ticker c) (financial st)); reflexivity.
Qed.

(** ** The cascade *)

Lemma in_keys_delete_row {R : Type} (key : R -> string) (t u : string)
    (tbl : list R) :
  In t (map key (delete_row key u tbl)) <-> In t (map key tbl) /\ t <> u.
Proof.
  unfold delete_row. rewrite !in_map_iff. split.
  - intros (x & <- & Hx). apply filter_In in Hx as (Hin & Hne).
    apply negb_true_iff in Hne. apply String.eqb_neq in Hne. eauto.
  - intros ((x & <- & Hin) & Hne). exists x. split; [reflexivity|].
    apply filter_In. split; [exact Hin|].
    apply negb_true_iff. now apply String.eqb_neq.
Qed.

Lemma find_row_delete_same {R : Type} (key : R -> string) (t : string)
    (tbl : list R) :
  find_row key t (delete_row key t tbl) = None.
Proof.
  now rewrite find_row_rows_of, rows_of_delete_same.
Qed.

Lemma in_keys_upsert {R : Type} (key : R -> string) (t : string) (r : R)
    (tbl : list R) :
  In t (map key tbl) -> In t (map key (upsert key r tbl)).
Proof.
  intros Hin. destruct (upsert_keys key r tbl) as [E|[_ E]]; rewrite E.
  - exact Hin.
  - apply in_or_app. now left.
Qed.

Section Cascade.
Variable py_float : string -> option float.
Variable ilike : string -> string -> bool.
Variable list_sort : sort_function.

Lemma delete_company_reports (company_name : string)
    (company_idx : option Z) (st : Store) (fault : option nat) :
  let found := filter (name_matches ilike company_name) (companies st) in
  let x := run (delete_company ilike company_name company_idx) st fault in
  (In CompanyDeleted (console_of x) <->
   (exists c, chosen found company_idx = Some c) /\
   fails_within fault 3 = false) /\
  (~ In CompanyDeleted (console_of x) -> store_of x = st) /\
  (In CompanyDeleted (console_of x) ->
   exists c,
     chosen found company_idx = Some c /\
     store_of x =
       mkStore (delete_row ticker (ticker c) (companies st))
               (delete_row fticker (ticker c) (financial st))).
Proof.
  intros found x.
  pose proof (delete_company_run ilike company_name company_idx st fault)
    as H.
  cbv zeta in H. fold found x in H.
  assert (Hmono : fails_within fault 1 = true -> fails_within fault 3 = true).
  { destruct fault as [[|[|[|n]]]|]; auto. }
  destruct (fails_within fault 1) eqn:E1.
  { rewrite H. cbn [console_of store_of fst snd].
    rewrite (Hmono eq_refl).
    assert (Hnot : ~ In CompanyDeleted
                        [AnErrorOccurred StoreError; Traceback StoreError])
      by (intros [Hin|[Hin|[]]]; discriminate).
    split; [split; [intros Hin; contradiction
                   |intros (_ & Habs); discriminate]|].
    split; [reflexivity|intros Hin; contradiction]. }
  destruct H as (ls & Hls & H).
  assert (Hno : ~ In CompanyDeleted ls)
    by (apply search_lines_exclude; auto).
  destruct (chosen found company_idx) as [c|].
  2:{ rewrite H. cbn [console_of store_of fst snd].
      split; [split; [intros Hin; contradiction
                     |intros ((c & Hc) & _); discriminate]|].
      split; [reflexivity|intros Hin; contradiction]. }
  destruct (fails_within fault 3) eqn:E3; rewrite H;
    cbn [console_of store_of fst snd].
  - assert (Hnot : ~ In CompanyDeleted
                       (ls ++ [AnErrorOccurred StoreError;
                               Traceback StoreError])).
    { intros Hin. apply in_app_or in Hin.
      destruct Hin as [Hin|[Hin|[Hin|[]]]]; [auto|discriminate..]. }
    split; [split; [intros Hin; contradiction
                   |intros (_ & Habs); discriminate]|].
    split; [reflexivity|intros Hin; contradiction].
  - assert (Hyes : In CompanyDeleted (ls ++ [CompanyDeleted]))
      by (apply in_or_app; right; now left).
    split; [split; [intros _; split; [now exists c|reflexivity]
                   |intros _; exact Hyes]|].
    split; [intros Hn; contradiction|intros _; now exists c].
Qed.

Lemma perform_keeps_owner (cmd : command) (st : Store)
    (fault : option nat) (t : string) :
  let st' := store_of (run (perform py_float ilike list_sort cmd) st fault) in
  In t (map ticker (companies st)) ->
  In t (map fticker (financial st')) ->
  In t (map ticker (companies st')).
Proof.
  intros st' Hc Hf. subst st'.
  destruct cmd as [|force cs fs|tk nm sec e s np mp nd a eq ce l
                   |nm idx|nm idx e s np mp nd a eq ce l|nm idx|metric];
    cbn [perform] in *.
  - destruct (fails_within fault 3) eqn:E.
    + rewrite clear_database_fails in * by exact E. exact Hc.
    + rewrite clear_database_ok in Hf by exact E. destruct Hf.
  - pose proof (insert_data_cases py_float force cs fs st fault) as H.
    cbv zeta in H. destruct H as [(-> & _)|H]; [exact Hc|].
    destruct H as (crows & frows & cobjs & fobjs & _ & _ & _ & _ & _ & -> & _).
    cbn [companies]. now apply merge_all_keeps_keys.
  - destruct (fails_within fault 3) eqn:E.
    + rewrite create_company_fails in * by exact E. exact Hc.
    + rewrite create_company_ok by exact E. cbn [store_of fst snd companies].
      now apply in_keys_upsert.
  - pose proof (read_company_run ilike nm idx st fault) as H.
    cbv zeta in H.
    destruct (fails_within fault 1); [now rewrite H|].
    destruct H as (ls & _ & H).
    destruct (chosen _ idx) as [c|]; [|now rewrite H].
    destruct (fails_within fault 2); [now rewrite H|].
    destruct (find_row fticker (ticker c) (financial st)) as [f|];
      [|now rewrite H].
    destruct (calculate_ratios f) as [r|[]]; now rewrite H.
  - now rewrite update_company_companies.
  - pose proof (delete_company_run ilike nm idx st fault) as H.
    cbv zeta in H.
    destruct (fails_within fault 1); [now rewrite H|].
    destruct H as (ls & _ & H).
    destruct (chosen _ idx) as [c|]; [|now rewrite H].
    destruct (fails_within fault 3); rewrite H in *; [exact Hc|].
    cbn [store_of fst snd companies financial] in *.
    apply in_keys_delete_row in Hf as (_ & Hne).
    apply in_keys_delete_row. now split.
  - destruct (metric_columns metric) as [[[header num] den]|] eqn:Em.
    + destruct (fails_within fault 1) eqn:E.
      * now rewrite (calculate_top_ten_fails metric header num den).
      * destruct (comprehension_spec num den (financial st))
          as (results & Hres & _).
        now rewrite (calculate_top_ten_ok metric header num den st fault
                       results).
    + now rewrite calculate_top_ten_invalid.
Qed.
End Cascade.

(** C8. Deleting a company deletes its Financial row with it:
    [delete_company] announces the deletion exactly when a company was
    selected and the store did not fail, and then neither table holds a row
    for that company's ticker, so the query for its Financial row returns
    none; when it announces nothing the store is as before.  And whatever
    operation is performed on whatever store, a ticker that had a Company
    row before and has a Financial row afterwards still has its Company
    row. *)
Theorem C8_financial_never_outlives_company
    (py_float : string -> option float) (ilike : string -> string -> bool)
    (st : Store) (fault : option nat) :
  (forall company_name company_idx,
     let found := filter (name_matches ilike company_name) (companies st) in
     let x := run (delete_company ilike company_name company_idx) st fault in
     (In CompanyDeleted (console_of x) <->
      (exists c, chosen found company_idx = Some c) /\
      fails_within fault 3 = false) /\
     (~ In CompanyDeleted (console_of x) -> store_of x = st) /\
     (In CompanyDeleted (console_of x) ->
      exists c,
        chosen found company_idx = Some c /\
        find_row fticker (ticker c) (financial (store_of x)) = None /\
        rows_of fticker (ticker c) (financial (store_of x)) = [] /\
        find_row ticker (ticker c) (companies (store_of x)) = None /\
        forall t, t <> ticker c ->
          rows_of ticker t (companies (store_of x)) =
            rows_of ticker t (companies st) /\
          rows_of fticker t (financial (store_of x)) =
            rows_of fticker t (financial st))) /\
  (forall list_sort cmd t,
     let st' := store_of (run (perform py_float ilike list_sort cmd)
                              st fault) in
     In t (map ticker (companies st)) ->
     In t (map fticker (financial st')) ->
     In t (map ticker (companies st'))).
Proof.
  split.
  - intros company_name company_idx found x.
    destruct (delete_company_reports ilike company_name company_idx st fault)
      as (Hiff & Hkeep & Hdel).
    fold found x in Hiff, Hkeep, Hdel.
    split; [exact Hiff|]. split; [exact Hkeep|].
    intros Hin. destruct (Hdel Hin) as (c & Hc & Hs).
    exists c. split; [exact Hc|]. rewrite Hs. cbn [companies financial].
    split; [apply find_row_delete_same|].
    split; [apply rows_of_delete_same|].
    split; [apply find_row_delete_same|].
    intros t Ht. split; now apply rows_of_delete_other.
  - intros list_sort cmd t. apply perform_keeps_owner.
Qed.

(** ** The theorems at work on the sample data *)

Lemma demo_store_unique : unique_keys demo_store.
Proof.
  split; cbn; repeat constructor; cbn; intuition discriminate.
Qed.

(** C1, on the input where the code departs from it.  The sample record
    GOOG has, like the row of the repository's clearing test, an EBITDA,
    sales and a net profit, and no market price, net debt, assets, equity
    or liabilities.  Four of its ratios (P/B, ROE, ROA, L/A) have an unknown
    denominator; each of these expressions alone is [None], yet
    [read_company] shows none of them: the first assignment, P/E, divides
    the unknown price by the net profit 50.5, the [TypeError] leaves the
    inner [try], and the read prints an error and no ratio line.  The
    ranking meets the same record with its unknown net debt over a known
    EBITDA and leaves it out without an error. *)
Theorem C1_unknown_numerator_hides_the_ratios :
  (market_price goog = None /\ net_profit goog = Some 50.5%float /\
   (50.5 =? 0)%float = false /\ assets goog = None /\ equity goog = None) /\
  (ratio (market_price goog) (assets goog) = Ok None /\
   ratio (net_profit goog) (equity goog) = Ok None /\
   ratio (net_profit goog) (assets goog) = Ok None /\
   ratio (liabilities goog) (assets goog) = Ok None) /\
  (ratio (market_price goog) (net_profit goog) = Raise TypeError /\
   calculate_ratios goog = Raise TypeError) /\
  run (read_company like "google" (Some 0%Z)) demo_store None =
    (Ok tt, demo_store,
     [SearchHit 0 (Some "Google LLC"); AnErrorOccurred TypeError]) /\
  (net_debt goog = None /\ truthy (ebitda goog) = true /\
   run (calculate_top_ten sort_desc "ND/EBITDA") demo_store None =
     (Ok tt, demo_store,
      [TopTenHeader "ND/EBITDA";
       TopTenRow "AAPL" (100000 / 1000000)%float])).
Proof.
  repeat split; reflexivity.
Qed.

Lemma C3_witness :
  exists ranking,
    run (calculate_top_ten sort_desc "ROE") rank_store None =
      (Ok tt, rank_store, TopTenHeader "ROE" :: map top_ten_row ranking) /\
    map fst ranking = ["E"; "B"; "A"; "D"] /\
    descending ranking.
Proof.
  destruct (C3_top_ten_sorted sort_desc "ROE" rank_store None
              sort_desc_sorts)
    as (header & num & den & results & ranking & Hcols & Hres & Hrun &
        Hrank & _ & _ & Hsorted);
    [cbn; tauto|reflexivity|].
  injection Hcols as <- <- <-.
  vm_compute in Hres. injection Hres as <-.
  exists ranking. split; [exact Hrun|]. split.
  - rewrite Hrank. reflexivity.
  - destruct Hsorted as (_ & Hd & _); [repeat constructor|exact Hd].
Defined.

Lemma C4_witness :
  (exists f,
     rows_of fticker "MSFT"
       (financial (store_of (run (insert_data float_of_digits true
                                    (Some [msft_company_row])
                                    (Some [msft_financial_row]))
                                 demo_store None))) = [f] /\
     sales f = None /\ net_profit f = None /\ assets f = None /\
     exists v, float_of_digits "12" = Some v /\
               ebitda f = float_column (Some v)) /\
  store_of (run (insert_data float_of_digits true (Some [msft_company_row])
                             (Some [bad_financial_row])) demo_store None)
    = demo_store /\
  exists e,
    console_of (run (insert_data float_of_digits true
                       (Some [msft_company_row]) (Some [bad_financial_row]))
                    demo_store None)
      = [ErrorInserting e; Traceback e].
Proof.
  split.
  - destruct (C4_bulk_load_numeric_fields float_of_digits demo_store true
                [msft_company_row] [msft_financial_row] None)
      as (_ & Hstored & _).
    destruct (Hstored (or_introl eq_refl) demo_store_unique
                "MSFT" msft_financial_row eq_refl) as (f & Hf & Hfields).
    exists f. split; [exact Hf|].
    destruct (Hfields "sales" sales) as (Hsales & _); [cbn; tauto|].
    destruct (Hfields "net_profit" net_profit) as (Hnp & _); [cbn; tauto|].
    destruct (Hfields "assets" assets) as (Hassets & _); [cbn; tauto|].
    destruct (Hfields "ebitda" ebitda) as (_ & Hebitda); [cbn; tauto|].
    split; [apply Hsales; reflexivity|].
    split; [apply Hnp; reflexivity|].
    split; [apply Hassets; reflexivity|].
    apply (Hebitda "12"); [reflexivity|discriminate].
  - destruct (C4_bulk_load_numeric_fields float_of_digits demo_store true
                [msft_company_row] [bad_financial_row] None)
      as (_ & _ & Hbad).
    destruct (Hbad bad_financial_row "ebitda" ebitda "12a")
      as (Hs & _ & Hreport);
      [now left|cbn; tauto|reflexivity|discriminate|reflexivity|].
    split; [exact Hs|].
    destruct Hreport as (_ & He); [now left|exact He].
Defined.

Lemma C5_witness :
  store_of (run (insert_data float_of_digits false (Some [msft_company_row])
                             (Some [msft_financial_row])) demo_store None)
    = demo_store.
Proof.
  destruct (C5_load_without_force_is_noop float_of_digits demo_store
              (Some [msft_company_row]) (Some [msft_financial_row]) None)
    as (H & _); [discriminate|exact H].
Defined.

Lemma C6_witness :
  store_of (run clear_database demo_store None) = empty_store /\
  store_of (run clear_database demo_store (Some 1)) = demo_store /\
  exists w1 w2,
    delete_all_financial (mkWorld demo_store demo_store false None []) =
      (Ok tt, w1) /\
    pending w1 = mkStore (companies demo_store) [] /\
    delete_all_companies w1 = (Ok tt, w2) /\
    pending w2 = empty_store.
Proof.
  split; [|split].
  - destruct (C6_clear_database demo_store None) as (_ & Hok & _).
    destruct (Hok eq_refl) as (_ & H & _). exact H.
  - destruct (C6_clear_database demo_store (Some 1)) as (_ & _ & Hfail).
    destruct (Hfail eq_refl) as (_ & H & _). exact H.
  - destruct (C6_clear_database demo_store None) as (Hsteps & _).
    destruct (Hsteps (mkWorld demo_store demo_store false None [])
                eq_refl eq_refl)
      as (w1 & w2 & H1 & Hp1 & _ & H2 & Hp2 & _).
    exists w1, w2. auto.
Defined.

Lemma C8_witness :
  let x := run (delete_company like "apple" (Some 0%Z)) demo_store None in
  In CompanyDeleted (console_of x) /\
  find_row fticker "AAPL" (financial (store_of x)) = None /\
  In "GOOG" (map ticker (companies (store_of x))).
Proof.
  intros x.
  destruct (C8_financial_never_outlives_company float_of_digits like
              demo_store None) as (Hdel & Hkeep).
  destruct (Hdel "apple" (Some 0%Z)) as (Hiff & _ & Hgone).
  fold x in Hiff, Hgone.
  assert (Hin : In CompanyDeleted (console_of x)).
  { apply Hiff. split; [now exists aapl_company|reflexivity]. }
  split; [exact Hin|]. split.
  - destruct (Hgone Hin) as (c & Hc & Hfin & _).
    injection Hc as <-. exact Hfin.
  - apply (Hkeep sort_desc (Delete "apple" (Some 0%Z)) "GOOG").
    + cbn. tauto.
    + vm_compute. tauto.
Defined.

Lemma C9_witness :
  exists ls,
    forallb search_line ls = true /\
    console_of (run (read_company like "google" (Some 0%Z)) demo_store None)
      = ls ++ [AnErrorOccurred TypeError].
Proof.
  destruct (C9_unknown_numerator_aborts_read like demo_store "google"
              (Some 0%Z) None goog_company goog)
    as (_ & _ & _ & _ & H); [reflexivity|reflexivity| |].
  - exists "P/E", market_price, net_profit.
    split; [cbn; tauto|]. split; [reflexivity|].
    exists 50.5%float. split; reflexivity.
  - apply H. reflexivity.
Defined.

Lemma C10_witness :
  let s' := store_of (run (insert_data float_of_digits true
                             (Some [msft_company_row])
                             (Some [msft_financial_row])) demo_store None) in
  rows_of ticker "AAPL" (companies s') = [aapl_company] /\
  rows_of fticker "AAPL" (financial s') = [aapl] /\
  In "GOOG" (map ticker (companies s')).
Proof.
  intros s'.
  destruct (C10_forced_load_merges float_of_digits demo_store
              (Some [msft_company_row]) (Some [msft_financial_row]) None)
    as (Hframe & _ & _ & Hkeep & _).
  fold s' in Hframe, Hkeep.
  destruct (Hframe "AAPL") as (Hc & Hf); [reflexivity|reflexivity|].
  split; [rewrite Hc; reflexivity|].
  split; [rewrite Hf; reflexivity|].
  apply Hkeep. cbn. tauto.
Defined.

(** * Further properties of the operations *)

(** ** [update_company] *)

Lemma find_row_key {R : Type} (key : R -> string) (t : string)
    (tbl : list R) (r : R) :
  find_row key t tbl = Some r -> key r = t /\ In r tbl.
Proof.
  unfold find_row. intros H. apply find_some in H as (Hin & Hk).
  apply String.eqb_eq in Hk. auto.
Qed.

Section Update.
Variable ilike : string -> string -> bool.
Variables (company_name : string) (company_idx : option Z).
Variables (e s np mp nd a eq ce l : float).

Let figures (t : string) : Financial :=
  stored
    (mkFinancial t (Some e) (Some s) (Some np) (Some mp) (Some nd) (Some a)
                 (Some eq) (Some ce) (Some l)).

Lemma update_company_run (st : Store) (fault : option nat) :
  let found := filter (name_matches ilike company_name) (companies st) in
  let x := run (update_company ilike company_name company_idx
                               e s np mp nd a eq ce l) st fault in
  if fails_within fault 1 then
    x = (Ok tt, st, [AnErrorOccurred StoreError; Traceback StoreError])
  else
    exists ls,
      forallb search_line ls = true /\
      match chosen found company_idx with
      | None => x = (Ok tt, st, ls)
      | Some c =>
          if fails_within fault 2 then
            x = (Ok tt, st,
                 ls ++ [AnErrorOccurred StoreError; Traceback StoreError])
          else
            match find_row fticker (ticker c) (financial st) with
            | None => x = (Ok tt, st, ls ++ [NoFinancialData])
            | Some f =>
                if fails_within fault 3 then
                  x = (Ok tt, st,
                       ls ++ [AnErrorOccurred StoreError;
                              Traceback StoreError])
                else
                  x = (Ok tt,
                       mkStore (companies st)
                               (upsert fticker (figures (fticker f))
                                       (financial st)),
                       ls ++ [CompanyUpdated])
            end
      end.
Proof.
  intros found x.
  assert (Hfail : fails_within fault 1 = true ->
                  x = (Ok tt, st,
                       [AnErrorOccurred StoreError; Traceback StoreError])).
  { intros Efu. subst x.
    unfold run, update_company, with_session, try_except.
    unfold bind at 1. cbn [persisted fuse stdout].
    destruct (company_search_fail ilike company_name company_idx
                (mkWorld st st false fault []) (or_intror Efu))
      as (fu & Hrun).
    rewrite Hrun. reflexivity. }
  destruct (fails_within fault 1) eqn:Efu; [now apply Hfail|].
  destruct (company_search_ok ilike company_name company_idx
              (mkWorld st st false fault []) eq_refl Efu)
    as (ls & Hls & Hrun).
  exists ls. split; [exact Hls|].
  cbn [persisted pending poisoned fuse stdout app] in Hrun.
  fold found in Hrun.
  destruct (chosen found company_idx) as [c|] eqn:Ec.
  2:{ subst x. unfold run, update_company, with_session, try_except.
      unfold bind at 1. cbn [persisted fuse stdout]. rewrite Hrun.
      reflexivity. }
  clear Hfail.
  destruct (find_row fticker (ticker c) (financial st)) as [f|] eqn:Ef;
    destruct fault as [[|[|[|n]]]|]; try discriminate;
    cbn [fails_within Nat.ltb Nat.leb];
    subst x; unfold run, update_company, with_session, try_except;
    unfold bind at 1; cbn [persisted fuse stdout]; rewrite Hrun;
    cbv [bind query_financial_first db_call get_pending
         set_pending session_commit session_rollback print ret];
    cbn [persisted pending poisoned fuse stdout option_map Nat.pred
         companies financial];
    rewrite ?Ef;
    cbn [persisted pending poisoned fuse stdout companies financial];
    rewrite <- ?app_assoc; reflexivity.
Qed.
End Update.

Lemma fails_within_mono (fault : option nat) (n m : nat) :
  n <= m -> fails_within fault m = false -> fails_within fault n = false.
Proof.
  unfold fails_within. destruct fault as [k|]; [|reflexivity].
  rewrite !Nat.ltb_ge. lia.
Qed.

Lemma search_line_not_error (ls : list line) :
  forallb search_line ls = true -> existsb error_line ls = false.
Proof.
  induction ls as [|l ls IH]; [reflexivity|].
  cbn. intros H. apply andb_true_iff in H as (Hl & Hls).
  rewrite (IH Hls). now destruct l.
Qed.

(** X1. When the search selects a company that has a Financial row and the
    store does not fail, [update_company] reports success and overwrites all
    nine figures of that row with the numbers typed, where the row stands;
    the Company table, the order of the Financial table and the rows of
    every other ticker are untouched. *)
Theorem X1_update_overwrites_figures
    (ilike : string -> string -> bool)
    (company_name : string) (company_idx : option Z)
    (e s np mp nd a eq ce l : float) (st : Store) (fault : option nat)
    (c : Company) (f : Financial) :
  unique_keys st ->
  chosen (filter (name_matches ilike company_name) (companies st))
         company_idx = Some c ->
  find_row fticker (ticker c) (financial st) = Some f ->
  fails_within fault 3 = false ->
  let x := run (update_company ilike company_name company_idx
                               e s np mp nd a eq ce l) st fault in
  result_of x = Ok tt /\
  (exists ls, forallb search_line ls = true /\
              console_of x = ls ++ [CompanyUpdated]) /\
  companies (store_of x) = companies st /\
  rows_of fticker (ticker c) (financial (store_of x)) =
    [stored
       (mkFinancial (ticker c) (Some e) (Some s) (Some np) (Some mp)
                    (Some nd) (Some a) (Some eq) (Some ce) (Some l))] /\
  map fticker (financial (store_of x)) = map fticker (financial st) /\
  (forall t, t <> ticker c ->
     rows_of fticker t (financial (store_of x)) =
     rows_of fticker t (financial st)).
Proof.
  intros (_ & Hnd) Hc Hf Hfault x.
  pose proof (update_company_run ilike company_name company_idx
                e s np mp nd a eq ce l st fault) as H.
  cbv zeta in H. fold x in H.
  rewrite (fails_within_mono fault 1 3), Hc, (fails_within_mono fault 2 3),
    Hf, Hfault in H by (auto; lia).
  destruct H as (ls & Hls & H). rewrite H.
  cbn [result_of store_of console_of fst snd companies financial].
  destruct (find_row_key fticker _ _ _ Hf) as (Hkey & Hin).
  rewrite Hkey.
  set (row := stored
                (mkFinancial (ticker c) (Some e) (Some s) (Some np) (Some mp)
                             (Some nd) (Some a) (Some eq) (Some ce)
                             (Some l))).
  split; [reflexivity|]. split; [now exists ls|]. split; [reflexivity|].
  split; [apply (rows_of_upsert_same fticker row); exact Hnd|].
  split.
  - apply (upsert_keys_present fticker row). cbn [fticker row stored].
    rewrite <- Hkey. now apply in_map.
  - intros t Ht. apply (rows_of_upsert_other fticker t row). cbn. congruence.
Qed.

Lemma X1_witness :
  rows_of fticker "GOOG"
    (financial (store_of (run (update_company like "google" (Some 0%Z)
                                 1 2 3 4 5 6 7 8 9) demo_store None))) =
    [mkFinancial "GOOG" (Some 1%float) (Some 2%float) (Some 3%float)
       (Some 4%float) (Some 5%float) (Some 6%float) (Some 7%float)
       (Some 8%float) (Some 9%float)].
Proof.
  destruct (X1_update_overwrites_figures like "google" (Some 0%Z)
              1 2 3 4 5 6 7 8 9 demo_store None goog_company goog
              demo_store_unique eq_refl eq_refl eq_refl)
    as (_ & _ & _ & H & _).
  exact H.
Defined.

(** X2. [update_company] announces an update exactly when a company was
    selected, it has a Financial row and the store did not fail; whenever it
    announces none, the store is the one it found.  In particular, for a
    selected company without a Financial row it prints that there is no
    financial data, after the search lines, and changes nothing. *)
Theorem X2_update_changes_only_on_success
    (ilike : string -> string -> bool)
    (company_name : string) (company_idx : option Z)
    (e s np mp nd a eq ce l : float) (st : Store) (fault : option nat) :
  let found := filter (name_matches ilike company_name) (companies st) in
  let x := run (update_company ilike company_name company_idx
                               e s np mp nd a eq ce l) st fault in
  (In CompanyUpdated (console_of x) <->
   (exists c f, chosen found company_idx = Some c /\
                find_row fticker (ticker c) (financial st) = Some f) /\
   fails_within fault 3 = false) /\
  (~ In CompanyUpdated (console_of x) -> store_of x = st) /\
  (forall c,
     chosen found company_idx = Some c ->
     find_row fticker (ticker c) (financial st) = None ->
     fails_within fault 2 = false ->
     exists ls, forallb search_line ls = true /\
                x = (Ok tt, st, ls ++ [NoFinancialData])).
Proof.
  intros found x.
  pose proof (update_company_run ilike company_name company_idx
                e s np mp nd a eq ce l st fault) as H.
  cbv zeta in H. fold found x in H.
  assert (Happ : forall ls tail,
            forallb search_line ls = true ->
            ~ In CompanyUpdated tail -> ~ In CompanyUpdated (ls ++ tail)).
  { intros ls tail Hls Ht Hin. apply in_app_or in Hin as [Hin|Hin]; auto.
    revert Hin. now apply search_lines_exclude. }
  assert (Herr : ~ In CompanyUpdated
                     [AnErrorOccurred StoreError; Traceback StoreError])
    by (intros [Hin|[Hin|[]]]; discriminate).
  assert (Hnofin : ~ In CompanyUpdated [NoFinancialData])
    by (intros [Hin|[]]; discriminate).
  destruct (fails_within fault 1) eqn:E1.
  { assert (E3 : fails_within fault 3 = true)
      by (destruct fault as [[|[|[|n]]]|]; auto; discriminate).
    assert (E2 : fails_within fault 2 = true)
      by (destruct fault as [[|[|[|n]]]|]; auto; discriminate).
    rewrite H. cbn [console_of store_of fst snd]. rewrite E3.
    split; [split; [intros Hin; contradiction
                   |intros (_ & Habs); discriminate]|].
    split; [reflexivity|]. intros c _ _ Habs. congruence. }
  destruct H as (ls & Hls & H).
  destruct (chosen found company_idx) as [c|].
  2:{ rewrite H. cbn [console_of store_of fst snd].
      assert (Hno : ~ In CompanyUpdated ls)
        by (rewrite <- (app_nil_r ls); apply Happ; auto).
      split; [split; [intros Hin; contradiction
                     |intros ((c & f & Hc & _) & _); discriminate]|].
      split; [reflexivity|]. intros c Hc. discriminate. }
  destruct (fails_within fault 2) eqn:E2.
  { assert (E3 : fails_within fault 3 = true)
      by (destruct fault as [[|[|[|n]]]|]; auto; discriminate).
    rewrite H. cbn [console_of store_of fst snd]. rewrite E3.
    split; [split; [intros Hin; exfalso; revert Hin; now apply Happ
                   |intros (_ & Habs); discriminate]|].
    split; [reflexivity|]. intros c' _ _ Habs. discriminate. }
  destruct (find_row fticker (ticker c) (financial st)) as [f|] eqn:Ef.
  2:{ rewrite H. cbn [console_of store_of fst snd].
      split; [split; [intros Hin; exfalso; revert Hin; now apply Happ
                     |intros ((c' & f & [= <-] & Hf) & _); congruence]|].
      split; [reflexivity|]. intros c' [= <-] _ _. now exists ls. }
  destruct (fails_within fault 3) eqn:E3; rewrite H;
    cbn [console_of store_of fst snd].
  - split; [split; [intros Hin; exfalso; revert Hin; now apply Happ
                   |intros (_ & Habs); discriminate]|].
    split; [reflexivity|]. intros c' [= <-] Hf. congruence.
  - assert (Hyes : In CompanyUpdated (ls ++ [CompanyUpdated]))
      by (apply in_or_app; right; now left).
    split; [split; [intros _; split; [now exists c, f|reflexivity]
                   |intros _; exact Hyes]|].
    split; [intros Hn; contradiction|]. intros c' [= <-] Hf. congruence.
Qed.

Lemma X2_witness :
  exists ls,
    run (update_company like "flat" (Some 0%Z) 1 2 3 4 5 6 7 8 9)
        (mkStore (companies flat_store) []) None =
    (Ok tt, mkStore (companies flat_store) [], ls ++ [NoFinancialData]).
Proof.
  destruct (X2_update_changes_only_on_success like "flat" (Some 0%Z)
              1 2 3 4 5 6 7 8 9 (mkStore (companies flat_store) []) None)
    as (_ & _ & H).
  destruct (H (mkCompany "FLAT" (Some "Flat Ltd") None))
    as (ls & _ & Hx); [reflexivity|reflexivity|reflexivity|].
  exists ls. exact Hx.
Defined.

(** ** Every operation: what it can do to the store *)

Lemma existsb_error_after_search (ls tail : list line) :
  forallb search_line ls = true ->
  existsb error_line (ls ++ tail) = existsb error_line tail.
Proof.
  intros H. rewrite existsb_app, (search_line_not_error ls H). reflexivity.
Qed.

Section Effects.
Variable py_float : string -> option float.
Variable ilike : string -> string -> bool.
Variable list_sort : sort_function.

(** An operation either leaves the store as it was, or ends normally
    without an error line and has emptied the store, merged some rows by
    key, or deleted the rows of one ticker. *)
Lemma perform_effects (cmd : command) (st : Store) (fault : option nat) :
  let x := run (perform py_float ilike list_sort cmd) st fault in
  store_of x = st \/
  (result_of x = Ok tt /\
   existsb error_line (console_of x) = false /\
   (store_of x = empty_store \/
    (exists cobjs fobjs,
       store_of x = mkStore (merge_all ticker cobjs (companies st))
                            (merge_all fticker fobjs (financial st))) \/
    (exists t,
       store_of x = mkStore (delete_row ticker t (companies st))
                            (delete_row fticker t (financial st))))).
Proof.
  intros x. subst x.
  destruct cmd as [|force cs fs|tk nm sec e s np mp nd a eq ce l
                   |nm idx|nm idx e s np mp nd a eq ce l|nm idx|metric];
    cbn [perform].
  - destruct (fails_within fault 3) eqn:E.
    + left. now rewrite clear_database_fails.
    + right. rewrite clear_database_ok by exact E. cbn. auto.
  - pose proof (insert_data_cases py_float force cs fs st fault) as H.
    cbv zeta in H. destruct H as [(Hs & _)|H]; [now left|right].
    destruct H as (crows & frows & cobjs & fobjs & _ & _ & _ & _ &
                   Hr & Hs & Hc).
    rewrite Hc. split; [exact Hr|]. split; [reflexivity|].
    right. left. now exists cobjs, (map stored fobjs).
  - destruct (fails_within fault 3) eqn:E.
    + left. now rewrite create_company_fails.
    + right. rewrite create_company_ok by exact E.
      cbn [result_of store_of console_of fst snd].
      split; [reflexivity|]. split; [reflexivity|]. right. left.
      exists [mkCompany tk (Some nm) (Some sec)],
             [stored
                (mkFinancial tk (Some e) (Some s) (Some np) (Some mp)
                             (Some nd) (Some a) (Some eq) (Some ce)
                             (Some l))].
      reflexivity.
  - left. pose proof (read_company_run ilike nm idx st fault) as H.
    cbv zeta in H.
    destruct (fails_within fault 1); [now rewrite H|].
    destruct H as (ls & _ & H).
    destruct (chosen _ idx) as [c|]; [|now rewrite H].
    destruct (fails_within fault 2); [now rewrite H|].
    destruct (find_row fticker (ticker c) (financial st)) as [f|];
      [|now rewrite H].
    destruct (calculate_ratios f) as [r|[]]; now rewrite H.
  - pose proof (update_company_run ilike nm idx e s np mp nd a eq ce l
                  st fault) as H.
    cbv zeta in H.
    destruct (fails_within fault 1); [left; now rewrite H|].
    destruct H as (ls & Hls & H).
    destruct (chosen _ idx) as [c|]; [|left; now rewrite H].
    destruct (fails_within fault 2); [left; now rewrite H|].
    destruct (find_row fticker (ticker c) (financial st)) as [f|];
      [|left; now rewrite H].
    destruct (fails_within fault 3); [left; now rewrite H|].
    right. rewrite H. cbn [result_of store_of console_of fst snd].
    split; [reflexivity|].
    split; [now rewrite existsb_error_after_search|].
    right. left. exists [].
    eexists [_]. reflexivity.
  - pose proof (delete_company_run ilike nm idx st fault) as H.
    cbv zeta in H.
    destruct (fails_within fault 1); [left; now rewrite H|].
    destruct H as (ls & Hls & H).
    destruct (chosen _ idx) as [c|]; [|left; now rewrite H].
    destruct (fails_within fault 3); [left; now rewrite H|].
    right. rewrite H. cbn [result_of store_of console_of fst snd].
    split; [reflexivity|].
    split; [now rewrite existsb_error_after_search|].
    right. right. now exists (ticker c).
  - left. destruct (metric_columns metric) as [[[header num] den]|] eqn:Em.
    + destruct (fails_within fault 1) eqn:E.
      * now rewrite (calculate_top_ten_fails metric header num den).
      * destruct (comprehension_spec num den (financial st))
          as (results & Hres & _).
        now rewrite (calculate_top_ten_ok metric header num den st fault
                       results).
    + now rewrite calculate_top_ten_invalid.
Qed.
End Effects.

Lemma delete_row_NoDup {R : Type} (key : R -> string) (t : string)
    (tbl : list R) :
  NoDup (map key tbl) -> NoDup (map key (delete_row key t tbl)).
Proof.
  unfold delete_row. induction tbl as [|x rest IH]; cbn; intros Hnd.
  - constructor.
  - inversion Hnd as [|k ks Hk Hnd']; subst.
    destruct (negb (key x =? t)%string); cbn; [|now apply IH].
    constructor; [|now apply IH].
    intros Hin. apply Hk. apply in_map_iff in Hin as (y & Hy & Hin).
    apply filter_In in Hin as (Hin & _).
    apply in_map_iff. eauto.
Qed.

(** X3. Whenever an operation prints an error line (an error message or a
    traceback), it has rolled back: the store is exactly the one the
    operation started from.  This holds for every operation, every store and
    every point at which the store may fail. *)
Theorem X3_reported_error_means_unchanged
    (py_float : string -> option float) (ilike : string -> string -> bool)
    (list_sort : sort_function)
    (cmd : command) (st : Store) (fault : option nat) :
  let x := run (perform py_float ilike list_sort cmd) st fault in
  existsb error_line (console_of x) = true -> store_of x = st.
Proof.
  intros x Herr.
  destruct (perform_effects py_float ilike list_sort cmd st fault)
    as [H|(_ & Hno & _)]; [exact H|].
  fold x in Hno. congruence.
Qed.

Lemma X3_witness :
  store_of (run (perform float_of_digits like sort_desc
                   (Create "MSFT" "Microsoft" "Tech" 1 2 3 4 5 6 7 8 9))
                demo_store (Some 2)) = demo_store.
Proof.
  apply (X3_reported_error_means_unchanged float_of_digits like sort_desc
           (Create "MSFT" "Microsoft" "Tech" 1 2 3 4 5 6 7 8 9)
           demo_store (Some 2)).
  reflexivity.
Defined.

(** X4. Uniqueness of the tickers is an invariant: an operation run on a
    store in which no ticker occurs twice in a table leaves such a store,
    and so does every sequence of operations started from the empty store,
    whatever the inputs and wherever the store fails. *)
Theorem X4_unique_keys_invariant
    (py_float : string -> option float) (ilike : string -> string -> bool)
    (list_sort : sort_function) :
  (forall cmd st fault,
     unique_keys st ->
     unique_keys (store_of (run (perform py_float ilike list_sort cmd)
                                st fault))) /\
  (forall cmds,
     unique_keys (perform_all py_float ilike list_sort cmds empty_store)).
Proof.
  assert (Hstep : forall cmd st fault,
     unique_keys st ->
     unique_keys (store_of (run (perform py_float ilike list_sort cmd)
                                st fault))).
  { intros cmd st fault Huk.
    destruct (perform_effects py_float ilike list_sort cmd st fault)
      as [H|(_ & _ & [H|[(cobjs & fobjs & H)|(t & H)]])]; rewrite H.
    - exact Huk.
    - split; constructor.
    - destruct Huk as (Hc & Hf). split; cbn; now apply merge_all_NoDup.
    - destruct Huk as (Hc & Hf). split; cbn; now apply delete_row_NoDup. }
  split; [exact Hstep|].
  assert (Hall : forall cmds st, unique_keys st ->
                   unique_keys (perform_all py_float ilike list_sort cmds st)).
  { induction cmds as [|[cmd fault] cmds IH]; intros st Huk; cbn.
    - exact Huk.
    - apply IH. now apply Hstep. }
  intros cmds. apply Hall. split; constructor.
Qed.

Lemma X4_witness :
  unique_keys (store_of (run (perform float_of_digits like sort_desc
                                (Load true (Some [msft_company_row])
                                           (Some [msft_financial_row])))
                             demo_store None)).
Proof.
  destruct (X4_unique_keys_invariant float_of_digits like sort_desc) as (H & _).
  apply H. exact demo_store_unique.
Defined.

(** ** Every operation: how it ends *)




(** X6. The two operations that only look never write: [read_company] and
    [calculate_top_ten] leave the store exactly as it was, for every input,
    every metric name and every failure of the store. *)
Theorem X6_reading_never_writes
    (ilike : string -> string -> bool) (list_sort : sort_function)
    (st : Store) (fault : option nat)
    (company_name : string) (company_idx : option Z) (metric : string) :
  store_of (run (read_company ilike company_name company_idx) st fault) = st /\
  store_of (run (calculate_top_ten list_sort metric) st fault) = st.
Proof.
  split.
  - pose proof (read_company_run ilike company_name company_idx st fault)
      as H.
    cbv zeta in H.
    destruct (fails_within fault 1); [now rewrite H|].
    destruct H as (ls & _ & H).
    destruct (chosen _ company_idx) as [c|]; [|now rewrite H].
    destruct (fails_within fault 2); [now rewrite H|].
    destruct (find_row fticker (ticker c) (financial st)) as [f|];
      [|now rewrite H].
    destruct (calculate_ratios f) as [r|[]]; now rewrite H.
  - destruct (metric_columns metric) as [[[header num] den]|] eqn:Em.
    + destruct (fails_within fault 1) eqn:E.
      * now rewrite (calculate_top_ten_fails metric header num den).
      * destruct (comprehension_spec num den (financial st))
          as (results & Hres & _).
        now rewrite (calculate_top_ten_ok metric header num den st fault
                       results).
    + now rewrite calculate_top_ten_invalid.
Qed.

(** ** Bulk loader: further behaviour *)

(** X7. On a store with no Company row a load that is not forced does what a
    forced load does: the same result, the same store and the same lines,
    the count query being the only difference (one more call to the
    store). *)
Theorem X7_unforced_load_on_empty_table
    (py_float : string -> option float)
    (companies_csv financial_csv : option (list csv_row)) (st : Store) :
  companies st = [] ->
  run (insert_data py_float false companies_csv financial_csv) st None =
    run (insert_data py_float true companies_csv financial_csv) st None /\
  forall n,
    run (insert_data py_float false companies_csv financial_csv) st
        (Some (S n)) =
    run (insert_data py_float true companies_csv financial_csv) st (Some n).
Proof.
  destruct st as [cs fin]. cbn [companies]. intros ->.
  split; [reflexivity|]. intros n. reflexivity.
Qed.

Lemma X7_witness :
  run (insert_data float_of_digits false (Some [msft_company_row])
                   (Some [msft_financial_row])) empty_store None =
  run (insert_data float_of_digits true (Some [msft_company_row])
                   (Some [msft_financial_row])) empty_store None.
Proof.
  destruct (X7_unforced_load_on_empty_table float_of_digits
              (Some [msft_company_row]) (Some [msft_financial_row])
              empty_store eq_refl) as (H & _).
  exact H.
Defined.

(** X8. When either CSV file is missing, a load that gets past its guard
    prints that the files were not found and returns, before any row of the
    file that does exist is merged: the store is unchanged.  A forced load
    makes no call to the store at all in that case, so it says so even when
    the store is failing. *)
Theorem X8_missing_file_loads_nothing
    (py_float : string -> option float)
    (companies_csv financial_csv : option (list csv_row)) (st : Store)
    (fault : option nat) :
  companies_csv = None \/ financial_csv = None ->
  run (insert_data py_float true companies_csv financial_csv) st fault =
    (Ok tt, st, [CsvFilesNotFound]) /\
  (companies st = [] -> fails_within fault 1 = false ->
   run (insert_data py_float false companies_csv financial_csv) st fault =
     (Ok tt, st, [CsvFilesNotFound])).
Proof.
  intros Hmiss.
  assert (Hrows : forall w,
            insert_rows py_float companies_csv financial_csv w =
              (Ok tt, mkWorld (persisted w) (pending w) (poisoned w) (fuse w)
                              (stdout w ++ [CsvFilesNotFound]))).
  { intros w. unfold insert_rows, try_except.
    destruct Hmiss as [-> | ->]; [|destruct companies_csv]; reflexivity. }
  split.
  - unfold run, insert_data, with_session. unfold bind at 1, ret at 1.
    rewrite Hrows. reflexivity.
  - intros Hc Hf. destruct st as [cs fin]. cbn [companies] in Hc. subst cs.
    unfold run, insert_data, with_session. unfold bind at 1.
    destruct fault as [[|n]|]; try discriminate;
      cbv [count_companies bind db_call get_pending ret];
      cbn [poisoned fuse persisted pending stdout companies List.length
           Nat.eqb];
      rewrite Hrows; reflexivity.
Qed.

Lemma X8_witness :
  run (insert_data float_of_digits true (Some [msft_company_row]) None)
      demo_store (Some 0) =
    (Ok tt, demo_store, [CsvFilesNotFound]).
Proof.
  destruct (X8_missing_file_loads_nothing float_of_digits
              (Some [msft_company_row]) None demo_store (Some 0))
    as (H & _); [now right|exact H].
Defined.

(** X9. A line without a ticker, in either file, makes a forced load fail as
    a whole: whether the column is absent or the cell is, nothing is
    committed, also of the lines before it and of the other file, and the
    error is printed. *)
Theorem X9_line_without_ticker_fails_the_load
    (py_float : string -> option float) (crows frows : list csv_row)
    (st : Store) (fault : option nat) (row : csv_row) :
  In row crows \/ In row frows ->
  row_get row "ticker" = None ->
  let x := run (insert_data py_float true (Some crows) (Some frows))
               st fault in
  result_of x = Ok tt /\
  store_of x = st /\
  exists e, console_of x = [ErrorInserting e; Traceback e].
Proof.
  intros Hin Hnone x.
  pose proof (insert_data_cases py_float true (Some crows) (Some frows)
                st fault) as H.
  cbv zeta in H. fold x in H.
  destruct H as [(Hs & Hc)|Hd].
  - destruct Hc as [(Hf & _)|[(Hf & _)|[(_ & [Hn|Hn] & _)|(e & Hr & Hc)]]];
      try discriminate.
    split; [exact Hr|]. split; [exact Hs|]. now exists e.
  - exfalso.
    destruct Hd as (crows' & frows' & cobjs & fobjs & [= <-] & [= <-] &
                    Hc & Hf & _).
    destruct Hin as [Hin|Hin].
    + apply (in_map company_of_row) in Hin. rewrite Hc in Hin.
      apply in_map_iff in Hin as (c & Hc' & _).
      unfold company_of_row, new_Company in Hc'. rewrite Hnone in Hc'.
      discriminate.
    + apply (in_map (financial_of_row py_float)) in Hin. rewrite Hf in Hin.
      apply in_map_iff in Hin as (f & Hf' & _). symmetry in Hf'.
      apply financial_of_row_fields in Hf' as (Ht & _). congruence.
Qed.

Lemma X9_witness :
  store_of (run (insert_data float_of_digits true
                   (Some [msft_company_row; [("name", Some "Nameless")]])
                   (Some [msft_financial_row])) demo_store None)
    = demo_store.
Proof.
  destruct (X9_line_without_ticker_fails_the_load float_of_digits
              [msft_company_row; [("name", Some "Nameless")]]
              [msft_financial_row] demo_store None
              [("name", Some "Nameless")])
    as (_ & H & _); [left; cbn; tauto|reflexivity|exact H].
Defined.

(** ** Bulk loader: when a load commits *)

Section LoadCommits.
Variable py_float : string -> option float.

Lemma load_companies_ok (rows : list csv_row) :
  forall (cobjs : list Company) (w : world),
    poisoned w = false -> fuse w = None ->
    map company_of_row rows = map Some cobjs ->
    load_companies rows w =
      (Ok tt,
       mkWorld (persisted w)
               (mkStore (merge_all ticker cobjs (companies (pending w)))
                        (financial (pending w)))
               false None (stdout w)).
Proof.
  induction rows as [|row rows IH]; intros [|c cobjs] w Hpo Hfu Hmap;
    try discriminate.
  - destruct w as [p [cs fin] po fu o]. cbn in *. subst. reflexivity.
  - cbn in Hmap. injection Hmap as Hrow Hmap.
    unfold load_companies. cbn [for_each]. unfold bind at 1.
    rewrite Hrow. unfold merge_company. unfold bind at 1.
    rewrite (db_call_ok w Hpo) by (rewrite Hfu; reflexivity).
    rewrite Hfu. cbv [bind get_pending set_pending].
    cbn [persisted pending poisoned fuse stdout option_map].
    unfold load_companies in IH. rewrite (IH cobjs); auto.
Qed.

Lemma load_financial_ok (rows : list csv_row) :
  forall (fobjs : list Financial) (w : world),
    poisoned w = false -> fuse w = None ->
    map (financial_of_row py_float) rows = map (fun f => Ok (Some f)) fobjs ->
    load_financial py_float rows w =
      (Ok tt,
       mkWorld (persisted w)
               (mkStore (companies (pending w))
                        (merge_all fticker (map stored fobjs)
                                   (financial (pending w))))
               false None (stdout w)).
Proof.
  induction rows as [|row rows IH]; intros [|f fobjs] w Hpo Hfu Hmap;
    try discriminate.
  - destruct w as [p [cs fin] po fu o]. cbn in *. subst. reflexivity.
  - cbn in Hmap. injection Hmap as Hrow Hmap.
    unfold load_financial. cbn [for_each]. unfold bind at 1.
    unfold bind at 1. unfold lift at 1.
    rewrite Hrow. unfold merge_financial. unfold bind at 1.
    rewrite (db_call_ok w Hpo) by (rewrite Hfu; reflexivity).
    rewrite Hfu. cbv [bind get_pending set_pending].
    cbn [persisted pending poisoned fuse stdout option_map].
    unfold load_financial in IH. rewrite (IH fobjs); auto.
Qed.

Lemma insert_data_commits (crows frows : list csv_row)
    (cobjs : list Company) (fobjs : list Financial) (st : Store) :
  map company_of_row crows = map Some cobjs ->
  map (financial_of_row py_float) frows = map (fun f => Ok (Some f)) fobjs ->
  run (insert_data py_float true (Some crows) (Some frows)) st None =
    (Ok tt,
     mkStore (merge_all ticker cobjs (companies st))
             (merge_all fticker (map stored fobjs) (financial st)),
     [DataInserted]).
Proof.
  intros Hc Hf. unfold run, insert_data, with_session.
  unfold bind at 1, ret at 1. cbn [persisted fuse stdout].
  unfold insert_rows, try_except. unfold bind at 1.
  rewrite (load_companies_ok crows cobjs) by auto.
  unfold bind at 1.
  rewrite (load_financial_ok frows fobjs) by auto.
  reflexivity.
Qed.
End LoadCommits.

(** The rows of a list that are all well formed have objects. *)
Lemma all_some_objects {A B : Type} (F : A -> option B) (l : list A) :
  (forall a, In a l -> F a <> None) -> exists bs, map F l = map Some bs.
Proof.
  induction l as [|a l IH]; intros H.
  - now exists [].
  - destruct IH as (bs & Hbs); [intros a' Ha; apply H; now right|].
    destruct (F a) as [b|] eqn:E; [|exfalso; apply (H a); [now left|exact E]].
    exists (b :: bs). cbn. now rewrite E, Hbs.
Qed.

Lemma all_ok_objects {A B : Type} (F : A -> outcome (option B))
    (l : list A) :
  (forall a, In a l -> exists b, F a = Ok (Some b)) ->
  exists bs, map F l = map (fun b => Ok (Some b)) bs.
Proof.
  induction l as [|a l IH]; intros H.
  - now exists [].
  - destruct IH as (bs & Hbs); [intros a' Ha; apply H; now right|].
    destruct (H a) as (b & E); [now left|].
    exists (b :: bs). cbn. now rewrite E, Hbs.
Qed.

(** ** Merging is an upsert *)

Lemma merge_all_keys_extend {R : Type} (key : R -> string)
    (objs tbl : list R) :
  exists added, map key (merge_all key objs tbl) = map key tbl ++ added.
Proof.
  unfold merge_all. revert tbl.
  induction objs as [|r objs IH]; intros tbl; cbn [fold_left].
  - exists []. now rewrite app_nil_r.
  - destruct (IH (upsert key r tbl)) as (added & E). rewrite E.
    destruct (upsert_keys key r tbl) as [E'|[_ E']]; rewrite E'.
    + now exists added.
    + exists (key r :: added). now rewrite <- app_assoc.
Qed.

Lemma load_keeps_last (py_float : string -> option float) (st : Store)
    (force : bool) (crows frows : list csv_row) (fault : option nat) :
  let y := run (insert_data py_float force (Some crows) (Some frows))
               st fault in
  unique_keys st ->
  In DataInserted (console_of y) ->
  unique_keys (store_of y) /\
  (exists added,
     map ticker (companies (store_of y)) =
       map ticker (companies st) ++ added) /\
  (exists added,
     map fticker (financial (store_of y)) =
       map fticker (financial st) ++ added) /\
  forall t,
    (forall row, last_row t crows = Some row ->
       exists c, company_of_row row = Some c /\
                 rows_of ticker t (companies (store_of y)) = [c]) /\
    (forall row, last_row t frows = Some row ->
       exists f, financial_of_row py_float row = Ok (Some f) /\
                 rows_of fticker t (financial (store_of y)) = [stored f]).
Proof.
  intros y (Hndc & Hndf) Hdone.
  pose proof (insert_data_cases py_float force (Some crows) (Some frows)
                st fault) as Hcases.
  cbv zeta in Hcases. fold y in Hcases.
  destruct Hcases as [(_ & Hc)|Hd].
  { exfalso.
    destruct Hc as [(_ & _ & Hc)|[(_ & _ & _ & Hc)|[(_ & _ & Hc)|(e & _ & Hc)]]];
      rewrite Hc in Hdone; simpl in Hdone;
      repeat (destruct Hdone as [Hdone|Hdone]; try discriminate);
      contradiction. }
  destruct Hd as (crows' & frows' & cobjs & fobjs & Hcs & Hfs & Hc & Hf &
                  _ & Hs & _).
  injection Hcs as <-. injection Hfs as <-.
  rewrite Hs. cbn [companies financial].
  split; [split; cbn [companies financial]; now apply merge_all_NoDup|].
  split; [apply merge_all_keys_extend|].
  split; [apply merge_all_keys_extend|].
  intros t. split; intros row Hlast.
  - destruct (last_company_object t crows cobjs row Hc Hlast)
      as (c & Hlastc & Hrow).
    exists c. split; [exact Hrow|]. now apply rows_of_merge_all_last.
  - destruct (last_row_object py_float t frows fobjs row Hf Hlast)
      as (f & Hlastf & Hrow).
    exists f. split; [exact Hrow|].
    apply rows_of_merge_all_last; [exact Hndf|].
    now rewrite last_of_stored, Hlastf.
Qed.

(** A forced load of well-formed files on a working store commits. *)
Lemma well_formed_load_commits (py_float : string -> option float)
    (crows frows : list csv_row) (st : Store) :
  (forall row, In row crows -> row_get row "ticker" <> None) ->
  (forall row, In row frows ->
     exists f, financial_of_row py_float row = Ok (Some f)) ->
  exists s',
    run (insert_data py_float true (Some crows) (Some frows)) st None =
      (Ok tt, s', [DataInserted]).
Proof.
  intros Hc Hf.
  destruct (all_some_objects company_of_row crows) as (cobjs & Hcobjs).
  { intros row Hin Hnone. apply (Hc row Hin).
    unfold company_of_row, new_Company in Hnone.
    now destruct (row_get row "ticker"). }
  destruct (all_ok_objects (financial_of_row py_float) frows Hf)
    as (fobjs & Hfobjs).
  eexists.
  exact (insert_data_commits py_float crows frows cobjs fobjs st
           Hcobjs Hfobjs).
Qed.

(** C7. Merging is an upsert by ticker.  On a store whose keys are unique,
    [create_company] for a ticker, when the store does not fail, raises
    nothing and reports success whether or not the ticker is already there;
    afterwards each table holds exactly one row for that ticker, with the
    values just entered as the columns keep them; a row that was already
    there is overwritten where it stands (the tickers of the table, in
    order, are the same); the rows of other tickers are untouched and the
    keys stay unique.  Creating the same ticker again with other values
    leaves one row with the later values, and with the same values leaves
    the store as it is.  A forced bulk load of well-formed files on a
    working store commits whether or not its tickers are already there: the
    tickers the store had keep their places, the keys stay unique, and each
    ticker of a file has one row, made from the last line of the file that
    carries it; the same holds of every load that reports success. *)
Theorem C7_upsert_by_key
    (st : Store) (fault fault2 : option nat)
    (tk nm sec : string) (e s np mp nd a eq ce l : float)
    (nm' sec' : string) (e' s' np' mp' nd' a' eq' ce' l' : float) :
  unique_keys st ->
  fails_within fault 3 = false ->
  fails_within fault2 3 = false ->
  let x := run (create_company tk nm sec e s np mp nd a eq ce l) st fault in
  let st1 := store_of x in
  let st2 := store_of (run (create_company tk nm' sec' e' s' np' mp' nd' a'
                                           eq' ce' l') st1 fault2) in
  (result_of x = Ok tt /\ console_of x = [CompanyCreated]) /\
  (rows_of ticker tk (companies st1) = [mkCompany tk (Some nm) (Some sec)] /\
   rows_of fticker tk (financial st1) =
     [stored
        (mkFinancial tk (Some e) (Some s) (Some np) (Some mp) (Some nd)
                     (Some a) (Some eq) (Some ce) (Some l))]) /\
  (In tk (map ticker (companies st)) ->
   map ticker (companies st1) = map ticker (companies st)) /\
  (In tk (map fticker (financial st)) ->
   map fticker (financial st1) = map fticker (financial st)) /\
  (forall t, t <> tk ->
     rows_of ticker t (companies st1) = rows_of ticker t (companies st) /\
     rows_of fticker t (financial st1) = rows_of fticker t (financial st)) /\
  unique_keys st1 /\
  (rows_of ticker tk (companies st2) = [mkCompany tk (Some nm') (Some sec')] /\
   rows_of fticker tk (financial st2) =
     [stored
        (mkFinancial tk (Some e') (Some s') (Some np') (Some mp') (Some nd')
                     (Some a') (Some eq') (Some ce') (Some l'))] /\
   map ticker (companies st2) = map ticker (companies st1) /\
   map fticker (financial st2) = map fticker (financial st1)) /\
  store_of (run (create_company tk nm sec e s np mp nd a eq ce l) st1 fault2)
    = st1 /\
  (forall py_float crows frows,
     (forall row, In row crows -> row_get row "ticker" <> None) ->
     (forall row, In row frows ->
        exists f, financial_of_row py_float row = Ok (Some f)) ->
     let y := run (insert_data py_float true (Some crows) (Some frows))
                  st None in
     result_of y = Ok tt /\ console_of y = [DataInserted]) /\
  (forall py_float force crows frows fault3,
     let y := run (insert_data py_float force (Some crows) (Some frows))
                  st fault3 in
     In DataInserted (console_of y) ->
     unique_keys (store_of y) /\
     (exists added,
        map ticker (companies (store_of y)) =
          map ticker (companies st) ++ added) /\
     (exists added,
        map fticker (financial (store_of y)) =
          map fticker (financial st) ++ added) /\
     forall t,
       (forall row, last_row t crows = Some row ->
          exists c, company_of_row row = Some c /\
                    rows_of ticker t (companies (store_of y)) = [c]) /\
       (forall row, last_row t frows = Some row ->
          exists f, financial_of_row py_float row = Ok (Some f) /\
                    rows_of fticker t (financial (store_of y)) =
                      [stored f])).
Proof.
  intros Huk Hf1 Hf2 x st1 st2.
  set (c := mkCompany tk (Some nm) (Some sec)).
  set (f := stored
              (mkFinancial tk (Some e) (Some s) (Some np) (Some mp) (Some nd)
                           (Some a) (Some eq) (Some ce) (Some l))).
  set (c' := mkCompany tk (Some nm') (Some sec')).
  set (f' := stored
               (mkFinancial tk (Some e') (Some s') (Some np') (Some mp')
                            (Some nd') (Some a') (Some eq') (Some ce')
                            (Some l'))).
  assert (Hx : x = (Ok tt, mkStore (upsert ticker c (companies st))
                                   (upsert fticker f (financial st)),
                    [CompanyCreated]))
    by (apply create_company_ok; exact Hf1).
  assert (Hst1 : st1 = mkStore (upsert ticker c (companies st))
                               (upsert fticker f (financial st)))
    by (unfold st1; now rewrite Hx).
  assert (Huk1 : unique_keys st1)
    by (rewrite Hst1; now apply unique_keys_upsert).
  assert (Hst2 : st2 = mkStore (upsert ticker c' (companies st1))
                               (upsert fticker f' (financial st1)))
    by (unfold st2; now rewrite create_company_ok).
  assert (Huk0 := Huk).
  destruct Huk as (Hndc & Hndf). destruct Huk1 as (Hndc1 & Hndf1).
  split; [now rewrite Hx|].
  split; [rewrite Hst1; cbn [companies financial]; split;
          [apply (rows_of_upsert_same ticker c); exact Hndc
          |apply (rows_of_upsert_same fticker f); exact Hndf]|].
  split; [rewrite Hst1; intros Hin; now apply (upsert_keys_present ticker c)|].
  split; [rewrite Hst1; intros Hin; now apply (upsert_keys_present fticker f)|].
  split; [intros t Ht; rewrite Hst1; cbn [companies financial]; split;
          [apply (rows_of_upsert_other ticker t c)
          |apply (rows_of_upsert_other fticker t f)]; cbn; congruence|].
  split; [now split|].
  split.
  { rewrite Hst2. cbn [companies financial]. repeat split.
    - apply (rows_of_upsert_same ticker c'); exact Hndc1.
    - apply (rows_of_upsert_same fticker f'); exact Hndf1.
    - apply (upsert_keys_present ticker c'). rewrite Hst1. cbn [companies].
      destruct (upsert_keys ticker c (companies st)) as [E|[_ E]];
        rewrite E.
      + destruct (in_dec string_dec tk (map ticker (companies st)))
          as [Hin|Hn]; [exact Hin|].
        exfalso. rewrite (upsert_absent ticker c) in E by exact Hn.
        rewrite map_app in E. apply (f_equal (@List.length string)) in E.
        rewrite length_app in E. simpl in E. lia.
      + apply in_or_app. right. now left.
    - apply (upsert_keys_present fticker f'). rewrite Hst1. cbn [financial].
      destruct (upsert_keys fticker f (financial st)) as [E|[_ E]];
        rewrite E.
      + destruct (in_dec string_dec tk (map fticker (financial st)))
          as [Hin|Hn]; [exact Hin|].
        exfalso. rewrite (upsert_absent fticker f) in E by exact Hn.
        rewrite map_app in E. apply (f_equal (@List.length string)) in E.
        rewrite length_app in E. simpl in E. lia.
      + apply in_or_app. right. now left. }
  split.
  { rewrite create_company_ok by exact Hf2. cbn [store_of fst snd].
    rewrite Hst1. cbn [companies financial]. fold c f.
    now rewrite !upsert_idempotent. }
  split.
  { intros py_float crows frows Hc Hf y.
    destruct (well_formed_load_commits py_float crows frows st Hc Hf)
      as (s'' & Hy).
    subst y. rewrite Hy. now split. }
  intros py_float force crows frows fault3 y Hdone.
  now apply load_keeps_last.
Qed.

(** Entering a NaN: the row kept for the ticker does not hold it. *)
Lemma C7_counterexample :
  map ebitda
    (rows_of fticker "AAPL"
       (financial
          (store_of (run (create_company "AAPL" "Apple Inc." "Technology"
                            nan 2 3 4 5 6 7 8 9) demo_store None)))) =
    [None] /\
  rows_of fticker "AAPL"
    (financial
       (store_of (run (create_company "AAPL" "Apple Inc." "Technology"
                         nan 2 3 4 5 6 7 8 9) demo_store None))) <>
    [mkFinancial "AAPL" (Some nan) (Some 2%float) (Some 3%float)
       (Some 4%float) (Some 5%float) (Some 6%float) (Some 7%float)
       (Some 8%float) (Some 9%float)].
Proof.
  split; [vm_compute; reflexivity|].
  vm_compute. intros H. discriminate H.
Qed.

Lemma C7_witness :
  let st1 := store_of (run (create_company "AAPL" "Apple" "Tech"
                              1 2 3 4 5 6 7 8 9) demo_store None) in
  let y := run (insert_data float_of_digits true (Some [aapl_company_row])
                            (Some [aapl_financial_row])) demo_store None in
  (rows_of ticker "AAPL" (companies st1) =
     [mkCompany "AAPL" (Some "Apple") (Some "Tech")] /\
   map ticker (companies st1) = map ticker (companies demo_store) /\
   rows_of fticker "GOOG" (financial st1) = [goog]) /\
  (console_of y = [DataInserted] /\
   rows_of ticker "AAPL" (companies (store_of y)) =
     [mkCompany "AAPL" (Some "Apple") (Some "Tech")] /\
   rows_of fticker "AAPL" (financial (store_of y)) =
     [mkFinancial "AAPL" (Some 7%float) None None None None None None None
                  None]).
Proof.
  intros st1 y.
  destruct (C7_upsert_by_key demo_store None None
              "AAPL" "Apple" "Tech" 1 2 3 4 5 6 7 8 9
              "Apple Inc." "Technology" 9 8 7 6 5 4 3 2 1
              demo_store_unique eq_refl eq_refl)
    as (_ & (Hrow & _) & Hplace & _ & Hothers & _ & _ & _ & Hcommit & Hload).
  fold st1 in Hrow, Hplace, Hothers.
  split.
  - split; [exact Hrow|]. split.
    + apply Hplace. cbn. tauto.
    + destruct (Hothers "GOOG") as (_ & H); [discriminate|].
      rewrite H. reflexivity.
  - destruct (Hcommit float_of_digits [aapl_company_row]
                [aapl_financial_row]) as (_ & Hdone).
    { intros row [<-|[]]. discriminate. }
    { intros row [<-|[]]. eexists. reflexivity. }
    fold y in Hdone. split; [exact Hdone|].
    destruct (Hload float_of_digits true [aapl_company_row]
                [aapl_financial_row] None) as (_ & _ & _ & Hlast).
    { fold y. rewrite Hdone. now left. }
    fold y in Hlast.
    destruct (Hlast "AAPL") as (Hc & Hf).
    destruct (Hc aapl_company_row eq_refl) as (c & Ec & ->).
    destruct (Hf aapl_financial_row eq_refl) as (f & Ef & ->).
    injection Ec as <-. injection Ef as <-. split; reflexivity.
Defined.

(** X10. With both files present and a store that does not fail, a forced
    load commits exactly when every line is well formed: every line of
    [companies.csv] has a ticker, and every line of [financial.csv] has a
    ticker and no numeric cell that [float] rejects.  One bad line anywhere
    is enough for nothing to be loaded. *)
Theorem X10_load_commits_iff_every_line_is_well_formed
    (py_float : string -> option float) (crows frows : list csv_row)
    (st : Store) :
  let x := run (insert_data py_float true (Some crows) (Some frows))
               st None in
  In DataInserted (console_of x) <->
  (forall row, In row crows -> row_get row "ticker" <> None) /\
  (forall row, In row frows ->
     exists f, financial_of_row py_float row = Ok (Some f)).
Proof.
  intros x. split.
  - intros Hdone.
    pose proof (insert_data_cases py_float true (Some crows) (Some frows)
                  st None) as H.
    cbv zeta in H. fold x in H.
    destruct H as [(_ & Hc)|Hd].
    { exfalso.
      destruct Hc as [(_ & _ & Hc)|[(_ & _ & _ & Hc)|[(_ & _ & Hc)|(e & _ & Hc)]]];
        rewrite Hc in Hdone; simpl in Hdone;
        repeat (destruct Hdone as [Hdone|Hdone]; try discriminate);
        contradiction. }
    destruct Hd as (crows' & frows' & cobjs & fobjs & [= <-] & [= <-] &
                    Hc & Hf & _).
    split.
    + intros row Hin Hnone. apply (in_map company_of_row) in Hin.
      rewrite Hc in Hin. apply in_map_iff in Hin as (c & Hc' & _).
      unfold company_of_row, new_Company in Hc'. rewrite Hnone in Hc'.
      discriminate.
    + intros row Hin. apply (in_map (financial_of_row py_float)) in Hin.
      rewrite Hf in Hin. apply in_map_iff in Hin as (f & Hf' & _). eauto.
  - intros (Hc & Hf).
    destruct (all_some_objects company_of_row crows) as (cobjs & Hcobjs).
    { intros row Hin Hnone. apply (Hc row Hin).
      unfold company_of_row, new_Company in Hnone.
      now destruct (row_get row "ticker"). }
    destruct (all_ok_objects (financial_of_row py_float) frows Hf)
      as (fobjs & Hfobjs).
    subst x. rewrite (insert_data_commits py_float crows frows cobjs fobjs);
      auto.
    cbn. auto.
Qed.

Lemma X10_witness :
  In DataInserted
     (console_of (run (insert_data float_of_digits true
                         (Some [msft_company_row])
                         (Some [msft_financial_row])) demo_store None)) /\
  ~ In DataInserted
       (console_of (run (insert_data float_of_digits true
                           (Some [msft_company_row])
                           (Some [bad_financial_row])) demo_store None)).
Proof.
  split.
  - apply (X10_load_commits_iff_every_line_is_well_formed float_of_digits
             [msft_company_row] [msft_financial_row] demo_store).
    split.
    + intros row [<- | []]. discriminate.
    + intros row [<- | []]. eexists. reflexivity.
  - intros Hin.
    apply (X10_load_commits_iff_every_line_is_well_formed float_of_digits
             [msft_company_row] [bad_financial_row] demo_store) in Hin.
    destruct Hin as (_ & Hf).
    destruct (Hf bad_financial_row) as (f & Habs); [now left|discriminate].
Defined.

(** ** Bulk loader: loading twice *)

Lemma find_over_app {A : Type} (p : A -> bool) (l1 l2 : list A) :
  find p (l1 ++ l2) =
  match find p l1 with
  | Some a => Some a
  | None => find p l2
  end.
Proof.
  induction l1 as [|a l1 IH]; [reflexivity|].
  cbn. now destruct (p a).
Qed.

Section MergeTwice.
Context {R : Type} (key : R -> string).

Lemma table_ext (t1 t2 : list R) :
  NoDup (map key t1) ->
  map key t1 = map key t2 ->
  (forall k, In k (map key t1) -> find_row key k t1 = find_row key k t2) ->
  t1 = t2.
Proof.
  revert t2. induction t1 as [|x r1 IH]; intros [|y r2] Hnd Hkeys Hfind;
    try discriminate; [reflexivity|].
  cbn in Hkeys. injection Hkeys as Hxy Hkeys.
  inversion Hnd as [|k ks Hk Hnd']; subst.
  assert (x = y).
  { specialize (Hfind (key x) (or_introl eq_refl)).
    unfold find_row in Hfind. cbn in Hfind.
    rewrite <- Hxy, String.eqb_refl in Hfind. now injection Hfind. }
  subst y. f_equal. apply IH; auto.
  intros k Hin. specialize (Hfind k (or_intror Hin)).
  unfold find_row in *. cbn in Hfind.
  destruct (String.eqb_spec (key x) k) as [E|E]; [|exact Hfind].
  subst k. contradiction.
Qed.

Lemma find_row_merge_all (k : string) (objs tbl : list R) :
  find_row key k (merge_all key objs tbl) =
  match last_of key k objs with
  | Some o => Some o
  | None => find_row key k tbl
  end.
Proof.
  revert tbl. induction objs as [|o objs IH]; intros tbl; [reflexivity|].
  cbn [merge_all fold_left]. fold (merge_all key objs (upsert key o tbl)).
  rewrite IH, find_row_upsert. unfold last_of. cbn [rev].
  rewrite find_over_app.
  destruct (find _ (rev objs)); [reflexivity|].
  cbn. now destruct (key o =? k)%string.
Qed.

Lemma merge_all_keys_present (objs tbl : list R) :
  (forall o, In o objs -> In (key o) (map key tbl)) ->
  map key (merge_all key objs tbl) = map key tbl.
Proof.
  revert tbl. induction objs as [|o objs IH]; intros tbl H; [reflexivity|].
  cbn [merge_all fold_left]. fold (merge_all key objs (upsert key o tbl)).
  assert (Ho : map key (upsert key o tbl) = map key tbl)
    by (apply upsert_keys_present, H; now left).
  rewrite IH, Ho; [reflexivity|].
  intros o' Hin. rewrite Ho. apply H. now right.
Qed.

Lemma key_in_upsert (r : R) (tbl : list R) :
  In (key r) (map key (upsert key r tbl)).
Proof.
  induction tbl as [|x rest IH]; cbn; [now left|].
  destruct (key x =? key r)%string; cbn; auto.
Qed.

Lemma merged_keys_present (objs tbl : list R) (o : R) :
  In o objs -> In (key o) (map key (merge_all key objs tbl)).
Proof.
  revert tbl. induction objs as [|o' objs IH]; intros tbl Hin;
    [destruct Hin|].
  cbn [merge_all fold_left]. destruct Hin as [E|Hin].
  - subst o'. apply merge_all_keeps_keys, key_in_upsert.
  - now apply IH.
Qed.

Lemma merge_all_idempotent (objs tbl : list R) :
  NoDup (map key tbl) ->
  merge_all key objs (merge_all key objs tbl) = merge_all key objs tbl.
Proof.
  intros Hnd. apply table_ext.
  - now apply merge_all_NoDup, merge_all_NoDup.
  - apply merge_all_keys_present. intros o. apply merged_keys_present.
  - intros k _. rewrite !find_row_merge_all.
    now destruct (last_of key k objs).
Qed.
End MergeTwice.

(** X11. Loading is idempotent: on a store with unique tickers, when a
    forced load has committed, running it again on the same files with a
    working store commits again and leaves exactly the store the first load
    left, row for row and in the same order. *)
Theorem X11_loading_twice_is_loading_once
    (py_float : string -> option float) (crows frows : list csv_row)
    (st : Store) (fault : option nat) :
  unique_keys st ->
  let x := run (insert_data py_float true (Some crows) (Some frows))
               st fault in
  In DataInserted (console_of x) ->
  run (insert_data py_float true (Some crows) (Some frows)) (store_of x) None
    = (Ok tt, store_of x, [DataInserted]).
Proof.
  intros (Hndc & Hndf) x Hdone.
  pose proof (insert_data_cases py_float true (Some crows) (Some frows)
                st fault) as H.
  cbv zeta in H. fold x in H.
  destruct H as [(_ & Hc)|Hd].
  { exfalso.
    destruct Hc as [(_ & _ & Hc)|[(_ & _ & _ & Hc)|[(_ & _ & Hc)|(e & _ & Hc)]]];
      rewrite Hc in Hdone; simpl in Hdone;
      repeat (destruct Hdone as [Hdone|Hdone]; try discriminate);
      contradiction. }
  destruct Hd as (crows' & frows' & cobjs & fobjs & [= <-] & [= <-] &
                  Hc & Hf & _ & Hs & _).
  rewrite (insert_data_commits py_float crows frows cobjs fobjs) by auto.
  rewrite Hs. cbn [companies financial].
  now rewrite !merge_all_idempotent.
Qed.

Lemma X11_witness :
  let s1 := store_of (run (insert_data float_of_digits true
                             (Some [msft_company_row])
                             (Some [msft_financial_row])) demo_store None) in
  store_of (run (insert_data float_of_digits true (Some [msft_company_row])
                             (Some [msft_financial_row])) s1 None) = s1.
Proof.
  intros s1.
  pose proof (X11_loading_twice_is_loading_once float_of_digits
                [msft_company_row] [msft_financial_row] demo_store None
                demo_store_unique) as H.
  cbv zeta in H. fold s1 in H. rewrite H; [reflexivity|].
  left. reflexivity.
Defined.

(** ** Round trips through [create_company] *)

Lemma ratio_known (n d : float) :
  ratio (Some n) (Some d) = Ok (quotient n d).
Proof.
  unfold ratio, truthy, truediv, quotient.
  now destruct (d =? 0)%float.
Qed.

Lemma delete_row_absent {R : Type} (key : R -> string) (t : string)
    (tbl : list R) :
  ~ In t (map key tbl) -> delete_row key t tbl = tbl.
Proof.
  unfold delete_row. induction tbl as [|x rest IH]; cbn; intros Hn;
    [reflexivity|].
  destruct (String.eqb_spec (key x) t) as [E|E]; cbn.
  - exfalso. apply Hn. now left.
  - f_equal. apply IH. intros Hin. apply Hn. now right.
Qed.

Lemma delete_row_after_insert {R : Type} (key : R -> string) (r : R)
    (tbl : list R) :
  ~ In (key r) (map key tbl) ->
  delete_row key (key r) (upsert key r tbl) = tbl.
Proof.
  intros Hn. rewrite (upsert_absent key r tbl Hn).
  unfold delete_row. rewrite filter_app. cbn.
  rewrite String.eqb_refl. cbn. rewrite app_nil_r.
  now apply delete_row_absent.
Qed.

Lemma float_column_number (x : float) :
  PrimFloat.is_nan x = false -> float_column (Some x) = Some (kept x).
Proof.
  unfold float_column, kept. intros ->. now destruct (x =? 0)%float.
Qed.

Lemma float_column_nan (x : float) :
  PrimFloat.is_nan x = true -> float_column (Some x) = None.
Proof. unfold float_column. now intros ->. Qed.

Lemma kept_zero (x : float) : (kept x =? 0)%float = (x =? 0)%float.
Proof.
  unfold kept. destruct (x =? 0)%float eqn:E; [reflexivity|exact E].
Qed.

Lemma ratio_kept (n d : float) :
  PrimFloat.is_nan n = false ->
  ratio (float_column (Some n)) (float_column (Some d)) = Ok (read_back n d).
Proof.
  intros Hn. rewrite (float_column_number n Hn). unfold read_back.
  destruct (PrimFloat.is_nan d) eqn:Hd.
  - now rewrite (float_column_nan d Hd).
  - rewrite (float_column_number d Hd). apply ratio_known.
Qed.

Lemma ratio_nan_numerator (n d : float) :
  PrimFloat.is_nan n = true -> PrimFloat.is_nan d = false ->
  (d =? 0)%float = false ->
  ratio (float_column (Some n)) (float_column (Some d)) = Raise TypeError.
Proof.
  intros Hn Hd Hz.
  rewrite (float_column_nan n Hn), (float_column_number d Hd).
  unfold ratio, truthy. now rewrite kept_zero, Hz.
Qed.

(** X12. Reading back a company created through [create_company], when
    the store does not fail and the search selects the company just
    created.  If none of the four numerators typed (market price, net debt,
    net profit, liabilities) is a NaN, [read_company] ends without an error
    and shows, after the search lines, the seven ratios of the numbers as
    the store kept them: numerator over denominator, or [None] where the
    denominator typed is a NaN or compares equal to zero.  If the market
    price typed is a NaN and the net profit typed is a number other than
    zero, the price was kept as [None] and [read_company] prints an error
    and no ratio. *)
Theorem X12_created_company_reads_back
    (ilike : string -> string -> bool) (st : Store)
    (tk nm sec : string) (e s np mp nd a eq ce l : float)
    (company_name : string) (company_idx : option Z) (c : Company) :
  let st1 := store_of (run (create_company tk nm sec e s np mp nd a eq ce l)
                           st None) in
  chosen (filter (name_matches ilike company_name) (companies st1))
         company_idx = Some c ->
  ticker c = tk ->
  exists ls,
    forallb search_line ls = true /\
    (PrimFloat.is_nan mp = false -> PrimFloat.is_nan nd = false ->
     PrimFloat.is_nan np = false -> PrimFloat.is_nan l = false ->
     run (read_company ilike company_name company_idx) st1 None =
       (Ok tt, st1,
        ls ++ ratio_lines c
                (mkRatios (read_back mp np) (read_back mp s)
                          (read_back mp a) (read_back nd e)
                          (read_back np eq) (read_back np a)
                          (read_back l a)))) /\
    (PrimFloat.is_nan mp = true -> PrimFloat.is_nan np = false ->
     (np =? 0)%float = false ->
     run (read_company ilike company_name company_idx) st1 None =
       (Ok tt, st1, ls ++ [AnErrorOccurred TypeError])).
Proof.
  intros st1 Hc Htk.
  pose proof (read_company_run ilike company_name company_idx st1 None) as H.
  cbv zeta in H. cbn [fails_within] in H. rewrite Hc in H.
  destruct H as (ls & Hls & H). exists ls. split; [exact Hls|].
  assert (Hf : find_row fticker (ticker c) (financial st1) =
               Some (stored
                       (mkFinancial tk (Some e) (Some s) (Some np) (Some mp)
                          (Some nd) (Some a) (Some eq) (Some ce) (Some l)))).
  { unfold st1. rewrite create_company_ok by reflexivity.
    cbn [store_of fst snd financial]. rewrite find_row_upsert.
    cbn [fticker stored]. rewrite Htk. now rewrite String.eqb_refl. }
  rewrite Hf in H. unfold calculate_ratios in H.
  cbn [stored market_price net_profit sales assets net_debt ebitda equity
       liabilities] in H.
  split.
  - intros Hmp Hnd Hnp Hl.
    rewrite !ratio_kept in H by assumption. cbn [obind] in H. exact H.
  - intros Hmp Hnp Hz.
    rewrite (ratio_nan_numerator mp np Hmp Hnp Hz) in H.
    cbn [obind] in H. exact H.
Qed.

Lemma X12_witness :
  (exists ls,
     run (read_company like "moon" (Some 0%Z))
         (store_of (run (create_company "MOON" "Moon Corp" "Technology"
                           4 2 0 8 1 16 2 1 4) demo_store None)) None =
     (Ok tt,
      store_of (run (create_company "MOON" "Moon Corp" "Technology"
                       4 2 0 8 1 16 2 1 4) demo_store None),
      ls ++ ratio_lines (mkCompany "MOON" (Some "Moon Corp")
                                   (Some "Technology"))
              (mkRatios None (Some 4%float) (Some 0.5%float)
                        (Some 0.25%float) (Some 0%float) (Some 0%float)
                        (Some 0.25%float)))) /\
  (exists ls,
     run (read_company like "moon" (Some 0%Z))
         (store_of (run (create_company "MOON" "Moon Corp" "Technology"
                           4 2 5 nan 1 16 2 1 4) demo_store None)) None =
     (Ok tt,
      store_of (run (create_company "MOON" "Moon Corp" "Technology"
                       4 2 5 nan 1 16 2 1 4) demo_store None),
      ls ++ [AnErrorOccurred TypeError])).
Proof.
  split.
  - destruct (X12_created_company_reads_back like demo_store
                "MOON" "Moon Corp" "Technology" 4 2 0 8 1 16 2 1 4
                "moon" (Some 0%Z)
                (mkCompany "MOON" (Some "Moon Corp") (Some "Technology")))
      as (ls & _ & H & _); [reflexivity|reflexivity|].
    exists ls. exact (H eq_refl eq_refl eq_refl eq_refl).
  - destruct (X12_created_company_reads_back like demo_store
                "MOON" "Moon Corp" "Technology" 4 2 5 nan 1 16 2 1 4
                "moon" (Some 0%Z)
                (mkCompany "MOON" (Some "Moon Corp") (Some "Technology")))
      as (ls & _ & _ & H); [reflexivity|reflexivity|].
    exists ls. exact (H eq_refl eq_refl eq_refl).
Defined.

(** X13. Creating a company whose ticker is new to both tables and then
    deleting it, the store not failing, gives back the store there was
    before, row for row. *)
Theorem X13_create_then_delete_restores
    (ilike : string -> string -> bool) (st : Store)
    (tk nm sec : string) (e s np mp nd a eq ce l : float)
    (company_name : string) (company_idx : option Z) (c : Company) :
  ~ In tk (map ticker (companies st)) ->
  ~ In tk (map fticker (financial st)) ->
  let st1 := store_of (run (create_company tk nm sec e s np mp nd a eq ce l)
                           st None) in
  chosen (filter (name_matches ilike company_name) (companies st1))
         company_idx = Some c ->
  ticker c = tk ->
  store_of (run (delete_company ilike company_name company_idx) st1 None)
    = st.
Proof.
  intros Hnc Hnf st1 Hc Htk.
  pose proof (delete_company_run ilike company_name company_idx st1 None)
    as H.
  cbv zeta in H. cbn [fails_within] in H. rewrite Hc in H.
  destruct H as (ls & _ & H). rewrite H. cbn [store_of fst snd].
  unfold st1. rewrite create_company_ok by reflexivity.
  cbn [store_of fst snd companies financial]. rewrite Htk.
  rewrite (delete_row_after_insert ticker
             (mkCompany tk (Some nm) (Some sec))) by exact Hnc.
  rewrite (delete_row_after_insert fticker
             (stored
                (mkFinancial tk (Some e) (Some s) (Some np) (Some mp)
                             (Some nd) (Some a) (Some eq) (Some ce)
                             (Some l))))
    by exact Hnf.
  now destruct st.
Qed.

Lemma X13_witness :
  store_of (run (delete_company like "moon" (Some 0%Z))
                (store_of (run (create_company "MOON" "Moon Corp"
                                  "Technology" 4 2 0 8 1 16 2 1 4)
                               demo_store None)) None)
    = demo_store.
Proof.
  apply (X13_create_then_delete_restores like demo_store
           "MOON" "Moon Corp" "Technology" 4 2 0 8 1 16 2 1 4
           "moon" (Some 0%Z)
           (mkCompany "MOON" (Some "Moon Corp") (Some "Technology"))).
  - cbn. intuition discriminate.
  - cbn. intuition discriminate.
  - reflexivity.
  - reflexivity.
Defined.

(** ** Ranking: who is listed *)

Lemma Forall2_in_right {A B : Type} (P : A -> B -> Prop) (l1 : list A)
    (l2 : list B) (b : B) :
  Forall2 P l1 l2 -> In b l2 -> exists a, In a l1 /\ P a b.
Proof.
  induction 1 as [|x y l1 l2 Hxy _ IH]; intros Hin; [destruct Hin|].
  destruct Hin as [<-|Hin].
  - exists x. split; [now left|exact Hxy].
  - destruct (IH Hin) as (a & Ha & HP). exists a. split; [now right|exact HP].
Qed.

Lemma Forall2_in_left {A B : Type} (P : A -> B -> Prop) (l1 : list A)
    (l2 : list B) (a : A) :
  Forall2 P l1 l2 -> In a l1 -> exists b, In b l2 /\ P a b.
Proof.
  induction 1 as [|x y l1 l2 Hxy _ IH]; intros Hin; [destruct Hin|].
  destruct Hin as [<-|Hin].
  - exists y. split; [now left|exact Hxy].
  - destruct (IH Hin) as (b & Hb & HP). exists b. split; [now right|exact HP].
Qed.

Lemma in_firstn {A : Type} (n : nat) (l : list A) (a : A) :
  In a (firstn n l) -> In a l.
Proof.
  intros H. rewrite <- (firstn_skipn n l). apply in_or_app. now left.
Qed.

(** X14. What a ranking lists, when the metric is one of the three and the
    query succeeds, whatever rearrangement [list.sort] makes.  Every row
    printed is the ticker of a stored record both
    of whose columns are known and different from zero, with the quotient of
    the two as its value; the number of rows printed is the number of such
    records, capped at ten; and when there are at most ten such records,
    each of them is printed. *)
Theorem X14_ranking_lists_the_eligible
    (list_sort : sort_function)
    (metric header : string) (num den : Financial -> option float)
    (st : Store) (fault : option nat) :
  (forall l, Permutation (list_sort l) l) ->
  metric_columns metric = Some (header, num, den) ->
  fails_within fault 1 = false ->
  let x := run (calculate_top_ten list_sort metric) st fault in
  let eligible_rows := filter (eligible num den) (financial st) in
  (forall t v,
     In (TopTenRow t v) (console_of x) ->
     exists row n d,
       In row (financial st) /\ fticker row = t /\
       num row = Some n /\ den row = Some d /\
       (n =? 0)%float = false /\ (d =? 0)%float = false /\
       v = (n / d)%float) /\
  List.length (console_of x) = S (Nat.min 10 (List.length eligible_rows)) /\
  (List.length eligible_rows <= 10 ->
   forall row,
     In row (financial st) -> eligible num den row = true ->
     exists v, In (TopTenRow (fticker row) v) (console_of x)).
Proof.
  intros Hperm Hcols Hfault x eligible_rows.
  destruct (comprehension_spec num den (financial st))
    as (results & Hres & Hall).
  fold eligible_rows in Hall.
  assert (Hx : x = (Ok tt, st,
                    TopTenHeader header ::
                    map top_ten_row (firstn 10 (list_sort results))))
    by (now apply (calculate_top_ten_ok metric header num den)).
  rewrite Hx. cbn [console_of snd].
  assert (Hlen : List.length (list_sort results) = List.length eligible_rows).
  { rewrite (Permutation_length (Hperm results)).
    symmetry. exact (Forall2_length Hall). }
  split; [|split].
  - intros t v [Habs|Hin]; [discriminate|].
    apply in_map_iff in Hin as ((t' & v') & [= -> ->] & Hin).
    apply in_firstn in Hin.
    apply (Permutation_in _ (Hperm results)) in Hin.
    destruct (Forall2_in_right _ _ _ _ Hall Hin)
      as (row & Hrow & Ht & n & d & Hn & Hd & Hnz & Hdz & Hv).
    apply filter_In in Hrow as (Hrow & _). cbn in Ht, Hv.
    exists row, n, d. repeat split; auto.
  - cbn [List.length]. rewrite length_map, length_firstn, Hlen. reflexivity.
  - intros Hfew row Hrow Hel.
    assert (Hin : In row eligible_rows) by (apply filter_In; auto).
    destruct (Forall2_in_left _ _ _ _ Hall Hin)
      as ((t & v) & Htv & Ht & _). cbn in Ht. subst t.
    exists v. right. apply in_map_iff. exists (fticker row, v).
    split; [reflexivity|].
    rewrite firstn_all2 by lia.
    apply (Permutation_in _ (Permutation_sym (Hperm results))).
    exact Htv.
Qed.

Lemma X14_witness :
  List.length
    (console_of (run (calculate_top_ten sort_desc "ROE") rank_store None))
    = 5 /\
  exists v,
    In (TopTenRow "D" v)
       (console_of (run (calculate_top_ten sort_desc "ROE") rank_store None)).
Proof.
  destruct (X14_ranking_lists_the_eligible sort_desc "ROE" "ROE" net_profit
              equity rank_store None sort_desc_perm eq_refl eq_refl)
    as (_ & Hlen & Hall).
  split; [exact Hlen|].
  apply (Hall ltac:(cbn; lia)
           (mkFinancial "D" None None (Some 1%float) None None None
                        (Some 4%float) None None)).
  - cbn. tauto.
  - reflexivity.
Defined.

(** ** [company_search]: what is shown and what is selected *)

Lemma print_hits_lines (cs : list Company) :
  forall (n : nat) (w : world),
    print_hits n cs w =
      (Ok tt, mkWorld (persisted w) (pending w) (poisoned w) (fuse w)
                      (stdout w ++ hit_lines n cs)).
Proof.
  induction cs as [|c cs IH]; intros n w.
  - cbn. unfold ret. rewrite app_nil_r. now destruct w.
  - cbn [print_hits hit_lines]. unfold bind at 1. unfold print at 1.
    rewrite IH. cbn [persisted pending poisoned fuse stdout].
    now rewrite <- app_assoc.
Qed.

Lemma in_hit_lines (cs : list Company) :
  forall (n i : nat) (nm : option string),
    In (SearchHit i nm) (hit_lines n cs) <->
    exists c, n <= i /\ nth_error cs (i - n) = Some c /\ name c = nm.
Proof.
  induction cs as [|c cs IH]; intros n i nm; cbn [hit_lines].
  - split; [intros []|].
    intros (c & _ & H & _). now destruct (i - n).
  - cbn [In]. rewrite IH. split.
    + intros [[= <- <-]|(d & Hle & Hnth & Hnm)].
      * exists c. rewrite Nat.sub_diag. auto.
      * exists d. split; [lia|].
        replace (i - n) with (S (i - S n)) by lia. auto.
    + intros (d & Hle & Hnth & Hnm).
      destruct (Nat.eq_dec n i) as [->|Hne].
      * left. rewrite Nat.sub_diag in Hnth. cbn in Hnth.
        injection Hnth as <-. now rewrite Hnm.
      * right. exists d. split; [lia|].
        replace (i - n) with (S (i - S n)) in Hnth by lia. auto.
Qed.

(** X15. What [company_search] shows and what it selects, when its query
    runs.  With no match it prints only that the company was not found.
    Otherwise it lists the matches numbered from 0 in table order, and the
    number shown beside a company is the number that selects it: typing it
    returns that company and nothing more is printed.  A number below zero
    or not below the number of matches is answered with an invalid
    selection, text that is no number with an invalid input, and both
    return no company.  The store is not touched. *)
Theorem X15_search_numbers_select
    (ilike : string -> string -> bool) (company_name : string)
    (company_idx : option Z) (st : Store) (fault : option nat) :
  fails_within fault 1 = false ->
  let found := filter (name_matches ilike company_name) (companies st) in
  let x := run (company_search ilike company_name company_idx) st fault in
  store_of x = st /\
  (found = [] -> x = (Ok None, st, [CompanyNotFound])) /\
  (found <> [] ->
   (forall i c,
      nth_error found i = Some c ->
      In (SearchHit i (name c)) (console_of x) /\
      (company_idx = Some (Z.of_nat i) ->
       x = (Ok (Some c), st, hit_lines 0 found))) /\
   (forall i nm,
      In (SearchHit i nm) (console_of x) ->
      exists c, nth_error found i = Some c /\ name c = nm) /\
   (company_idx = None ->
    x = (Ok None, st, hit_lines 0 found ++ [InvalidInput])) /\
   (forall i,
      company_idx = Some i ->
      (i < 0)%Z \/ (Z.of_nat (List.length found) <= i)%Z ->
      x = (Ok None, st, hit_lines 0 found ++ [InvalidSelection]))).
Proof.
  intros Hfault found x.
  assert (Hx : x =
    match found with
    | [] => (Ok None, st, [CompanyNotFound])
    | _ :: _ =>
        match company_idx with
        | None => (Ok None, st, hit_lines 0 found ++ [InvalidInput])
        | Some i =>
            if ((i <? 0) || (Z.of_nat (List.length found) <=? i))%Z
            then (Ok None, st, hit_lines 0 found ++ [InvalidSelection])
            else (Ok (nth_error found (Z.to_nat i)), st, hit_lines 0 found)
        end
    end).
  { subst x. unfold run, company_search. unfold bind at 1.
    rewrite db_call_ok by auto.
    unfold bind at 1. unfold get_pending. cbn [pending]. fold found.
    destruct found as [|c0 rest]; [reflexivity|].
    unfold bind at 1. rewrite print_hits_lines.
    cbn [persisted pending poisoned fuse stdout app].
    destruct company_idx as [i|]; [|reflexivity].
    destruct ((i <? 0) || _)%Z; reflexivity. }
  split; [rewrite Hx; destruct found; [reflexivity|];
          destruct company_idx as [i|]; [|reflexivity];
          now destruct ((i <? 0) || _)%Z|].
  split; [intros ->; exact Hx|].
  intros Hne.
  assert (Hx' : x =
    match company_idx with
    | None => (Ok None, st, hit_lines 0 found ++ [InvalidInput])
    | Some i =>
        if ((i <? 0) || (Z.of_nat (List.length found) <=? i))%Z
        then (Ok None, st, hit_lines 0 found ++ [InvalidSelection])
        else (Ok (nth_error found (Z.to_nat i)), st, hit_lines 0 found)
    end).
  { rewrite Hx. clear Hx. destruct found; [contradiction|reflexivity]. }
  clear Hx.
  assert (Hhits : forall i nm,
            In (SearchHit i nm) (console_of x) <->
            In (SearchHit i nm) (hit_lines 0 found)).
  { intros i nm. rewrite Hx'.
    destruct company_idx as [i0|];
      [destruct ((i0 <? 0) || _)%Z|]; cbn [console_of snd];
      rewrite ?in_app_iff; cbn [In]; intuition (try discriminate). }
  split; [|split; [|split]].
  - intros i c Hnth. split.
    + apply Hhits, in_hit_lines. exists c.
      rewrite Nat.sub_0_r. split; [lia|auto].
    + intros ->. rewrite Hx'.
      assert (Hlt : i < List.length found)
        by (apply nth_error_Some; congruence).
      replace ((Z.of_nat i <? 0) || _)%Z with false.
      * now rewrite Nat2Z.id, Hnth.
      * symmetry. apply orb_false_iff. split.
        -- apply Z.ltb_ge. lia.
        -- apply Z.leb_gt. lia.
  - intros i nm Hin. apply Hhits, in_hit_lines in Hin.
    destruct Hin as (c & _ & Hnth & Hnm). rewrite Nat.sub_0_r in Hnth. eauto.
  - intros ->. exact Hx'.
  - intros i -> Hout. rewrite Hx'.
    replace ((i <? 0) || _)%Z with true; [reflexivity|].
    symmetry. apply orb_true_iff.
    destruct Hout as [H|H]; [left; now apply Z.ltb_lt|right; now apply Z.leb_le].
Qed.

Lemma X15_witness :
  run (company_search like "o" (Some 1%Z)) demo_store None =
    (Ok None, demo_store,
     hit_lines 0 [goog_company] ++ [InvalidSelection]).
Proof.
  destruct (X15_search_numbers_select like "o" (Some 1%Z) demo_store None
              eq_refl) as (_ & _ & H).
  destruct H as (_ & _ & _ & Hout); [discriminate|].
  apply (Hout 1%Z); [reflexivity|]. right. vm_compute. discriminate.
Defined.

Lemma company_search_no_match (ilike : string -> string -> bool)
    (company_name : string) (company_idx : option Z) (w : world) :
  poisoned w = false -> fails_within (fuse w) 1 = false ->
  filter (name_matches ilike company_name) (companies (pending w)) = [] ->
  company_search ilike company_name company_idx w =
    (Ok None,
     mkWorld (persisted w) (pending w) false (option_map Nat.pred (fuse w))
             (stdout w ++ [CompanyNotFound])).
Proof.
  intros Hpo Hfu Hnone. unfold company_search. unfold bind at 1.
  rewrite db_call_ok by auto.
  unfold bind at 1. unfold get_pending. cbn [pending]. rewrite Hnone.
  reflexivity.
Qed.

(** X16. When no company name matches what was typed and the query runs,
    [read_company], [update_company] and [delete_company] each print that
    the company was not found and nothing else, and leave the store as it
    is. *)
Theorem X16_no_match_is_reported_and_harmless
    (ilike : string -> string -> bool) (company_name : string)
    (company_idx : option Z) (e s np mp nd a eq ce l : float)
    (st : Store) (fault : option nat) :
  fails_within fault 1 = false ->
  filter (name_matches ilike company_name) (companies st) = [] ->
  run (read_company ilike company_name company_idx) st fault =
    (Ok tt, st, [CompanyNotFound]) /\
  run (update_company ilike company_name company_idx
                      e s np mp nd a eq ce l) st fault =
    (Ok tt, st, [CompanyNotFound]) /\
  run (delete_company ilike company_name company_idx) st fault =
    (Ok tt, st, [CompanyNotFound]).
Proof.
  intros Hfault Hnone.
  pose proof (company_search_no_match ilike company_name company_idx
                (mkWorld st st false fault []) eq_refl Hfault Hnone) as Hs.
  cbn [persisted pending poisoned fuse stdout app] in Hs.
  split; [|split].
  - unfold run, read_company, with_session, try_except.
    unfold bind at 1. cbn [persisted fuse stdout]. rewrite Hs. reflexivity.
  - unfold run, update_company, with_session, try_except.
    unfold bind at 1. cbn [persisted fuse stdout]. rewrite Hs. reflexivity.
  - unfold run, delete_company, with_session, try_except.
    unfold bind at 1. cbn [persisted fuse stdout]. rewrite Hs. reflexivity.
Qed.

Lemma X16_witness :
  run (delete_company like "zzz" (Some 0%Z)) demo_store None =
    (Ok tt, demo_store, [CompanyNotFound]).
Proof.
  destruct (X16_no_match_is_reported_and_harmless like "zzz" (Some 0%Z)
              1 2 3 4 5 6 7 8 9 demo_store None eq_refl eq_refl)
    as (_ & _ & H).
  exact H.
Defined.

(** ** The prompts *)

Section Prompts.
Variable py_float : string -> option float.

Lemma get_float_input_accepts (prompt : string) (rejected : list string) :
  forall (good : string) (rest : list string) (x : float) (shown : list tty),
    Forall (fun typed => py_float typed = None) rejected ->
    py_float good = Some x ->
    get_float_input py_float prompt
      (mkTerminal (rejected ++ good :: rest) shown) =
      (Answered x,
       mkTerminal rest
         (shown ++
          flat_map (fun _ => [Prompt prompt; InvalidNumber]) rejected ++
          [Prompt prompt])).
Proof.
  unfold get_float_input. cbn [stdin screen].
  induction rejected as [|r rejected IH]; intros good rest x shown Hrej Hgood.
  - cbn. now rewrite Hgood.
  - inversion Hrej as [|? ? Hr Hrej']; subst.
    cbn [app get_float_input_from flat_map]. rewrite Hr.
    rewrite (IH good rest x) by assumption.
    now rewrite <- !app_assoc.
Qed.

Lemma get_float_input_exhausts (prompt : string) (typed : list string) :
  forall (shown : list tty),
    Forall (fun line => py_float line = None) typed ->
    get_float_input py_float prompt (mkTerminal typed shown) =
      (EndOfInput,
       mkTerminal []
         (shown ++
          flat_map (fun _ => [Prompt prompt; InvalidNumber]) typed ++
          [Prompt prompt])).
Proof.
  unfold get_float_input. cbn [stdin screen].
  induction typed as [|r typed IH]; intros shown Hrej.
  - reflexivity.
  - inversion Hrej as [|? ? Hr Hrej']; subst.
    cbn [get_float_input_from flat_map]. rewrite Hr.
    rewrite IH by assumption. now rewrite <- !app_assoc.
Qed.

(** The input splits at the first line [float] accepts, if there is one. *)
Lemma first_accepted (typed : list string) :
  Forall (fun line => py_float line = None) typed \/
  exists rejected good rest x,
    typed = rejected ++ good :: rest /\
    Forall (fun line => py_float line = None) rejected /\
    py_float good = Some x.
Proof.
  induction typed as [|t typed IH]; [left; constructor|].
  destruct (py_float t) as [x|] eqn:E.
  - right. exists [], t, typed, x. auto.
  - destruct IH as [H|(rejected & good & rest & x & -> & Hrej & Hgood)].
    + left. now constructor.
    + right. exists (t :: rejected), good, rest, x. auto.
Qed.
End Prompts.

(** X17. [get_float_input] returns the number of the first line typed that
    [float] accepts and leaves every line after it unread; before that it
    shows the prompt and the complaint once for each line it rejects, and
    the prompt once more.  It ends in [EOFError] exactly when no line left
    to read is a number, having complained about each of them. *)
Theorem X17_get_float_input_takes_first_number
    (py_float : string -> option float) (prompt : string)
    (typed : list string) (shown : list tty) :
  let r := get_float_input py_float prompt (mkTerminal typed shown) in
  (forall rejected good rest x,
     typed = rejected ++ good :: rest ->
     Forall (fun line => py_float line = None) rejected ->
     py_float good = Some x ->
     r = (Answered x,
          mkTerminal rest
            (shown ++
             flat_map (fun _ => [Prompt prompt; InvalidNumber]) rejected ++
             [Prompt prompt]))) /\
  (fst r = EndOfInput <->
   Forall (fun line => py_float line = None) typed) /\
  (fst r = EndOfInput ->
   snd r = mkTerminal []
             (shown ++
              flat_map (fun _ => [Prompt prompt; InvalidNumber]) typed ++
              [Prompt prompt])) /\
  (forall e, fst r <> Crashed e).
Proof.
  intros r. split; [|split; [|split]].
  - intros rejected good rest x -> Hrej Hgood.
    now apply get_float_input_accepts.
  - split.
    + intros Hend.
      destruct (first_accepted py_float typed)
        as [H|(rejected & good & rest & x & -> & Hrej & Hgood)]; [exact H|].
      subst r.
      rewrite (get_float_input_accepts py_float prompt rejected good rest x)
        in Hend by assumption.
      discriminate.
    + intros H. subst r. now rewrite get_float_input_exhausts.
  - intros Hend.
    destruct (first_accepted py_float typed)
      as [H|(rejected & good & rest & x & -> & Hrej & Hgood)]; subst r.
    + now rewrite get_float_input_exhausts.
    + rewrite (get_float_input_accepts py_float prompt rejected good rest x)
        in Hend by assumption.
      discriminate.
  - intros e.
    destruct (first_accepted py_float typed)
      as [H|(rejected & good & rest & x & -> & Hrej & Hgood)]; subst r.
    + now rewrite get_float_input_exhausts.
    + now rewrite (get_float_input_accepts py_float prompt rejected good
                     rest x).
Qed.

Lemma X17_witness :
  get_float_input float_of_digits "Enter sales:"
    (mkTerminal ["abc"; ""; "42"; "7"] []) =
    (Answered 42%float,
     mkTerminal ["7"]
       [Prompt "Enter sales:"; InvalidNumber;
        Prompt "Enter sales:"; InvalidNumber; Prompt "Enter sales:"]).
Proof.
  destruct (X17_get_float_input_takes_first_number float_of_digits
              "Enter sales:" ["abc"; ""; "42"; "7"] []) as (H & _).
  apply (H ["abc"; ""] "42" ["7"] 42%float); [reflexivity| |reflexivity].
  repeat constructor.
Defined.

(** ** The dialog of [create_company] *)

Section Dialog.
Variable py_float : string -> option float.

Lemma numbers_in_rejected (typed : list string) :
  Forall (fun line => py_float line = None) typed ->
  numbers_in py_float typed = [].
Proof.
  induction 1 as [|t typed Ht _ IH]; [reflexivity|].
  unfold numbers_in in *. cbn. now rewrite Ht, IH.
Qed.

Lemma numbers_in_accepted (rejected : list string) (good : string)
    (rest : list string) (x : float) :
  Forall (fun line => py_float line = None) rejected ->
  py_float good = Some x ->
  numbers_in py_float (rejected ++ good :: rest) =
    x :: numbers_in py_float rest.
Proof.
  intros Hrej Hgood. unfold numbers_in. rewrite flat_map_app.
  fold (numbers_in py_float rejected).
  rewrite (numbers_in_rejected rejected Hrej). cbn. now rewrite Hgood.
Qed.

Lemma ask_number {B : Type} (prompt : string) (k : float -> T B)
    (t : terminal) (x : float) (xs : list float) :
  numbers_in py_float (stdin t) = x :: xs ->
  exists t',
    tbind (get_float_input py_float prompt) k t = k x t' /\
    numbers_in py_float (stdin t') = xs.
Proof.
  destruct t as [typed shown]. cbn [stdin]. intros Hnum.
  destruct (first_accepted py_float typed)
    as [H|(rejected & good & rest & y & -> & Hrej & Hgood)].
  - rewrite (numbers_in_rejected typed H) in Hnum. discriminate.
  - rewrite (numbers_in_accepted rejected good rest y Hrej Hgood) in Hnum.
    injection Hnum as -> <-.
    eexists. unfold tbind.
    rewrite (get_float_input_accepts py_float prompt rejected good rest x)
      by assumption.
    split; reflexivity.
Qed.

Lemma ask_number_runs_out {B : Type} (prompt : string) (k : float -> T B)
    (t : terminal) :
  numbers_in py_float (stdin t) = [] ->
  fst (tbind (get_float_input py_float prompt) k t) = EndOfInput.
Proof.
  destruct t as [typed shown]. cbn [stdin]. intros Hnum.
  destruct (first_accepted py_float typed)
    as [H|(rejected & good & rest & y & -> & Hrej & Hgood)].
  - unfold tbind. now rewrite get_float_input_exhausts.
  - rewrite (numbers_in_accepted rejected good rest y Hrej Hgood) in Hnum.
    discriminate.
Qed.
End Dialog.

Ltac next_number :=
  match goal with
  | H : numbers_in ?pf (stdin ?t) = ?x :: ?xs
    |- context [tbind (get_float_input ?pf ?p) ?k ?t] =>
      let t' := fresh "t" in
      let E := fresh "E" in
      let H' := fresh "H" in
      destruct (ask_number pf p k t x xs H) as (t' & E & H');
      rewrite E; clear E H; cbv beta
  end.

Ltac read_names typed :=
  unfold create_company_dialog;
  do 3 (unfold tbind at 1; unfold input at 1; cbn [stdin screen]);
  match goal with
  | |- context [tbind _ _ ?t0] =>
      let t := fresh "t" in
      let Ht := fresh "Ht" in
      set (t := t0);
      assert (Ht : stdin t = typed) by reflexivity;
      clearbody t
  end.

(** X18. The dialog of [create_company] stores what was typed, field by
    field: the first three lines are the ticker, the name and the sector,
    and the nine figures are the first nine of the following lines that
    [float] accepts, in the order typed; a rejected line is skipped and
    shifts nothing.  The session runs only after the twelve answers are
    in, and what it prints follows the prompts on the screen.  When fewer
    than nine of the lines after the third are numbers the dialog ends in
    [EOFError] before any session is opened. *)
Theorem X18_dialog_stores_what_was_typed
    (py_float : string -> option float) (st : Store) (fault : option nat)
    (tk nm sec : string) (typed : list string) (shown : list tty) :
  let r := create_company_dialog py_float st fault
             (mkTerminal (tk :: nm :: sec :: typed) shown) in
  (forall e s np mp nd a eq ce l more,
     numbers_in py_float typed = [e; s; np; mp; nd; a; eq; ce; l] ++ more ->
     let x := run (create_company tk nm sec e s np mp nd a eq ce l)
                  st fault in
     exists t',
       r = (Answered (store_of x), t') /\
       numbers_in py_float (stdin t') = more /\
       exists prompts, screen t' = prompts ++ map Console (console_of x)) /\
  (List.length (numbers_in py_float typed) < 9 -> fst r = EndOfInput).
Proof.
  intros r. subst r. split.
  - intros e s np mp nd a eq ce l more Hnum. cbn zeta.
    read_names typed. rewrite <- Ht in Hnum. cbn [app] in Hnum.
    do 9 next_number.
    destruct (run (create_company tk nm sec e s np mp nd a eq ce l) st fault)
      as [[res st'] out] eqn:Erun.
    assert (Hres : res = Ok tt).
    { destruct (fails_within fault 3) eqn:Ef.
      - rewrite create_company_fails in Erun by exact Ef. congruence.
      - rewrite create_company_ok in Erun by exact Ef. congruence. }
    subst res. cbn [store_of console_of fst snd].
    eexists. split; [reflexivity|]. cbn [stdin screen].
    split; [assumption|]. eexists. reflexivity.
  - intros Hlen. read_names typed. rewrite <- Ht in Hlen.
    repeat
      match goal with
      | H : List.length (numbers_in ?pf (stdin ?t0)) < _
        |- context [tbind (get_float_input ?pf ?p) ?k ?t0] =>
          let x := fresh "x" in
          let xs := fresh "xs" in
          let Enum := fresh "Enum" in
          destruct (numbers_in pf (stdin t0)) as [|x xs] eqn:Enum;
          [now apply ask_number_runs_out
          |let t' := fresh "t" in
           let E := fresh "E" in
           let H' := fresh "H" in
           destruct (ask_number pf p k t0 x xs Enum) as (t' & E & H');
           rewrite E; clear E; cbv beta;
           cbn [List.length] in H;
           apply PeanoNat.lt_S_n in H; rewrite <- H' in H; clear H' Enum]
      end.
    exfalso. lia.
Qed.

Lemma X18_witness :
  exists t',
    create_company_dialog float_of_digits demo_store None
      (mkTerminal ["MOON"; "Moon Corp"; "Technology";
                   "1"; "two"; "2"; "3"; "4"; ""; "5"; "6"; "7"; "8"; "9"]
                  []) =
      (Answered (store_of (run (create_company "MOON" "Moon Corp"
                                  "Technology" 1 2 3 4 5 6 7 8 9)
                               demo_store None)), t') /\
    numbers_in float_of_digits (stdin t') = [].
Proof.
  destruct (X18_dialog_stores_what_was_typed float_of_digits demo_store None
              "MOON" "Moon Corp" "Technology"
              ["1"; "two"; "2"; "3"; "4"; ""; "5"; "6"; "7"; "8"; "9"] [])
    as (H & _).
  destruct (H 1 2 3 4 5 6 7 8 9 []%list eq_refl)%float
    as (t' & Hr & Hnum & _).
  exists t'. split; [exact Hr|exact Hnum].
Defined.

(** ** The company list *)

Lemma string_leb_trans (a b c : string) :
  String.leb a b = true -> String.leb b c = true -> String.leb a c = true.
Proof.
  unfold String.leb. revert b c.
  induction a as [|x a IH]; intros [|y b] [|z c]; cbn; try easy.
  unfold Ascii.compare.
  destruct (N.compare_spec (N_of_ascii x) (N_of_ascii y)),
           (N.compare_spec (N_of_ascii y) (N_of_ascii z)),
           (N.compare_spec (N_of_ascii x) (N_of_ascii z));
    try easy; try lia.
  apply IH.
Qed.

Lemma insert_by_ticker_perm (c : Company) (l : list Company) :
  Permutation (insert_by_ticker c l) (c :: l).
Proof.
  induction l as [|d l IH]; cbn; [reflexivity|].
  destruct (String.leb (ticker c) (ticker d)); [reflexivity|].
  rewrite IH. apply perm_swap.
Qed.

Lemma insert_by_ticker_sorted (c : Company) (l : list Company) :
  StronglySorted ticker_le l -> StronglySorted ticker_le (insert_by_ticker c l).
Proof.
  induction 1 as [|d l Hs IH Hall]; cbn.
  - constructor; constructor.
  - destruct (String.leb (ticker c) (ticker d)) eqn:E.
    + constructor; [now constructor|].
      constructor; [exact E|].
      eapply Forall_impl; [|exact Hall].
      intros x Hx. exact (string_leb_trans _ _ _ E Hx).
    + constructor; [exact IH|].
      eapply Permutation_Forall;
        [symmetry; apply insert_by_ticker_perm|].
      constructor; [|exact Hall].
      destruct (String.leb_total (ticker c) (ticker d)) as [H|H];
        [congruence|exact H].
Qed.

Lemma order_by_ticker_perm (l : list Company) :
  Permutation (order_by_ticker l) l.
Proof.
  induction l as [|c l IH]; cbn; [reflexivity|].
  rewrite insert_by_ticker_perm. now constructor.
Qed.

Lemma order_by_ticker_sorted (l : list Company) :
  StronglySorted ticker_le (order_by_ticker l).
Proof.
  induction l as [|c l IH]; cbn; [constructor|].
  now apply insert_by_ticker_sorted.
Qed.

(** X19. [list_companies] never writes.  When its one query succeeds it
    prints [No companies found!] for an empty table and otherwise the
    title followed by one row per stored company, each company once, in
    ascending order of the tickers; when the query fails it prints the
    error and nothing else. *)
Theorem X19_company_list_is_ordered (st : Store) (fault : option nat) :
  let x := run list_companies st fault in
  store_of x = st /\
  (fails_within fault 1 = true ->
     result_of x = Ok [Console (AnErrorOccurred StoreError)]) /\
  (fails_within fault 1 = false ->
     exists ordered,
       Permutation ordered (companies st) /\
       StronglySorted ticker_le ordered /\
       result_of x =
         Ok (match companies st with
             | [] => [Console NoCompaniesFound]
             | _ :: _ => CompanyListTitle :: map company_list_row ordered
             end)).
Proof.
  intros x. subst x. split; [|split].
  - destruct st as [cs fs];
      destruct fault as [[|n]|]; cbv -[order_by_ticker map company_list_row];
      try destruct (order_by_ticker cs); reflexivity.
  - destruct fault as [[|n]|]; simpl; intros H; try discriminate.
    reflexivity.
  - intros H. exists (order_by_ticker (companies st)).
    split; [apply order_by_ticker_perm|].
    split; [apply order_by_ticker_sorted|].
    pose proof (order_by_ticker_perm (companies st)) as Hp.
    destruct st as [cs fs]. cbn [companies] in *.
    destruct fault as [[|n]|]; simpl in H; try discriminate;
      cbv -[order_by_ticker map company_list_row];
      destruct (order_by_ticker cs) as [|c l] eqn:E;
      destruct cs as [|d l'] eqn:Ec;
      try reflexivity;
      try (apply Permutation_nil in Hp; discriminate);
      try (symmetry in Hp; apply Permutation_nil in Hp; discriminate).
Qed.

Lemma X19_witness :
  (exists ordered,
     Permutation ordered [goog_company; aapl_company] /\
     StronglySorted ticker_le ordered /\
     result_of (run list_companies
                  (mkStore [goog_company; aapl_company] []) None) =
       Ok (CompanyListTitle :: map company_list_row ordered)) /\
  result_of (run list_companies demo_store (Some 0)) =
    Ok [Console (AnErrorOccurred StoreError)].
Proof.
  split.
  - destruct (X19_company_list_is_ordered
                (mkStore [goog_company; aapl_company] []) None)
      as (_ & _ & H).
    exact (H eq_refl).
  - destruct (X19_company_list_is_ordered demo_store (Some 0))
      as (_ & H & _).
    exact (H eq_refl).
Defined.

(** ** The top ten menu *)

Section TopTenMenuFacts.
Context {list_sort : sort_function}.

Lemma calculate_top_ten_returns (metric : string) (st : Store)
    (fault : option nat) :
  exists out,
    run (calculate_top_ten list_sort metric) st fault = (Ok tt, st, out) /\
    (metric_columns metric <> None -> ~ In InvalidMetric out).
Proof.
  destruct (metric_columns metric) as [[[header num] den]|] eqn:Hm.
  - destruct (fails_within fault 1) eqn:Hf.
    + eexists. split;
        [exact (calculate_top_ten_fails metric header num den st fault Hm Hf)|].
      intros _ [H|[H|[]]]; discriminate.
    + destruct (comprehension_spec num den (financial st))
        as (results & Hres & _).
      eexists. split;
        [exact (calculate_top_ten_ok metric header num den st fault results
                  Hm Hf Hres)|].
      intros _ [H|H]; [discriminate|].
      apply in_map_iff in H. destruct H as (tv & H & _). discriminate.
  - eexists. split; [exact (calculate_top_ten_invalid metric st fault Hm)|].
    intros H. now contradiction H.
Qed.

Lemma in_session_top_ten (metric : string) (st : Store) (fault : option nat)
    (t : terminal) :
  in_session (calculate_top_ten list_sort metric) st fault t =
    (Answered st,
     mkTerminal (stdin t)
       (screen t ++
        map Console (console_of (run (calculate_top_ten list_sort metric) st fault)))).
Proof.
  unfold in_session.
  destruct (calculate_top_ten_returns metric st fault) as (out & -> & _).
  reflexivity.
Qed.

Lemma valid_metric_is_not_rejected (metric : string) (st : Store)
    (fault : option nat) :
  metric_columns metric <> None ->
  ~ In (Console InvalidMetric)
       (map Console (console_of (run (calculate_top_ten list_sort metric) st fault))).
Proof.
  intros Hm Hin. apply in_map_iff in Hin. destruct Hin as (l & E & Hin).
  injection E as ->.
  destruct (calculate_top_ten_returns metric st fault) as (out & Hrun & H).
  rewrite Hrun in Hin. exact (H Hm Hin).
Qed.

End TopTenMenuFacts.

(** X20. One pass through the top ten menu.  It shows the title and the
    four options in ascending order of their keys, reads one line and
    returns with the store as it was.  It never asks [calculate_top_ten] for
    a metric that function does not know, so the invalid metric message
    cannot appear: [0] prints nothing more, [1], [2] and [3] print exactly
    what the ranking by ND/EBITDA, ROE and ROA prints, and any other line
    is answered with an invalid option.  With nothing left to read it ends
    in [EOFError]. *)
Theorem X20_top_ten_menu_asks_known_metrics
    (list_sort : sort_function)
    (st : Store) (fault : option nat) (choice : string)
    (rest : list string) (shown : list tty) :
  let r := TopTenMenu.execute list_sort st fault (mkTerminal (choice :: rest) shown) in
  (exists out,
     r = (Answered st,
          mkTerminal rest
            (shown ++
             [MenuTitle "TOP TEN MENU"; MenuOption "0" "Back";
              MenuOption "1" "List by ND/EBITDA";
              MenuOption "2" "List by ROE"; MenuOption "3" "List by ROA";
              Prompt "Enter an option:"] ++ out)) /\
     ~ In (Console InvalidMetric) out /\
     (choice = "0" -> out = []) /\
     (~ In choice ["0"; "1"; "2"; "3"] -> out = [InvalidOption]) /\
     (forall key metric,
        In (key, metric) [("1", "ND/EBITDA"); ("2", "ROE"); ("3", "ROA")] ->
        choice = key ->
        metric_columns metric <> None /\
        out = map Console
                (console_of (run (calculate_top_ten list_sort metric) st fault)))) /\
  fst (TopTenMenu.execute list_sort st fault (mkTerminal [] shown)) = EndOfInput.
Proof.
  intros r. subst r. split; [|reflexivity].
  unfold TopTenMenu.execute.
  unfold tbind at 1. unfold Menu.display at 1. cbn [stdin screen].
  unfold tbind at 1. unfold input at 1. cbn [stdin screen].
  destruct (choice =? "0")%string eqn:E0;
    [|destruct (choice =? "1")%string eqn:E1;
      [|destruct (choice =? "2")%string eqn:E2;
        [|destruct (choice =? "3")%string eqn:E3]]];
    rewrite ?String.eqb_eq, ?String.eqb_neq in *;
    rewrite ?in_session_top_ten; cbn [stdin screen].
  - exists []. subst choice.
    split; [unfold tret; cbn; now rewrite <- !app_assoc|].
    split; [intros []|]. split; [reflexivity|].
    split; [intros H; contradiction H; cbn; auto|].
    intros key metric [E|[E|[E|[]]]] Hk; injection E as <- <-;
      discriminate.
  - eexists.
    split; [cbn; rewrite <- !app_assoc; reflexivity|].
    split; [now apply valid_metric_is_not_rejected|].
    split; [congruence|].
    split; [intros H; contradiction H; cbn; auto|].
    intros key metric [E|[E|[E|[]]]] Hk; injection E as <- <-;
      subst choice; try discriminate.
    split; [discriminate|reflexivity].
  - eexists.
    split; [cbn; rewrite <- !app_assoc; reflexivity|].
    split; [now apply valid_metric_is_not_rejected|].
    split; [congruence|].
    split; [intros H; contradiction H; cbn; auto|].
    intros key metric [E|[E|[E|[]]]] Hk; injection E as <- <-;
      subst choice; try discriminate.
    split; [discriminate|reflexivity].
  - eexists.
    split; [cbn; rewrite <- !app_assoc; reflexivity|].
    split; [now apply valid_metric_is_not_rejected|].
    split; [congruence|].
    split; [intros H; contradiction H; cbn; auto|].
    intros key metric [E|[E|[E|[]]]] Hk; injection E as <- <-;
      subst choice; try discriminate.
    split; [discriminate|reflexivity].
  - exists [InvalidOption].
    split; [cbn; now rewrite <- !app_assoc|].
    split; [intros [H|[]]; discriminate|].
    split; [congruence|].
    split; [reflexivity|].
    intros key metric [E|[E|[E|[]]]] Hk; injection E as <- <-;
      congruence.
Qed.

Lemma X20_witness :
  TopTenMenu.execute sort_desc flat_store None (mkTerminal ["2"; "next"] []) =
    (Answered flat_store,
     mkTerminal ["next"]
       ([MenuTitle "TOP TEN MENU"; MenuOption "0" "Back";
         MenuOption "1" "List by ND/EBITDA";
         MenuOption "2" "List by ROE"; MenuOption "3" "List by ROA";
         Prompt "Enter an option:"] ++
        map Console
          (console_of (run (calculate_top_ten sort_desc "ROE") flat_store None)))) /\
  TopTenMenu.execute sort_desc flat_store None (mkTerminal ["9"] []) =
    (Answered flat_store,
     mkTerminal []
       [MenuTitle "TOP TEN MENU"; MenuOption "0" "Back";
        MenuOption "1" "List by ND/EBITDA";
        MenuOption "2" "List by ROE"; MenuOption "3" "List by ROA";
        Prompt "Enter an option:"; InvalidOption]).
Proof.
  split.
  - destruct (X20_top_ten_menu_asks_known_metrics sort_desc flat_store None "2"
                ["next"] []) as ((out & Hr & _ & _ & _ & Hm) & _).
    destruct (Hm "2" "ROE" (or_intror (or_introl eq_refl)) eq_refl)
      as (_ & Hout).
    rewrite Hr, Hout. reflexivity.
  - destruct (X20_top_ten_menu_asks_known_metrics sort_desc flat_store None "9"
                [] []) as ((out & Hr & _ & _ & Hother & _) & _).
    rewrite Hr, Hother; [reflexivity|].
    intros [H|[H|[H|[H|[]]]]]; discriminate.
Defined.
